(** * Accessibility rule engine, compliance aggregator and contrast calculator

    A shallow embedding of [accessibility_rules.py], [wcag_data.py],
    [contrast_calculator.py] and of the two aggregating tools of [server.py],
    followed by the properties established for them.

    Conventions of the embedding.
    - A Python [str] is a Rocq [string]; its characters are read as the code
      points 0 to 255.
    - A Python [dict] read with [.get] is a [gmap]; the element dictionaries
      have the three optional keys ["tag"], ["attributes"] and ["text"], so an
      element is a record of three optional fields.
    - A Python exception is a value of [exn] carried by [result].
    - A Python [float] is a primitive binary64 float.
    - What the sources take from outside is a parameter: the nodes the HTML
      parser hands over, the ["criteria"] object of the catalog file, and
      the C library's [pow]. *)

From Stdlib Require Import ZArith Ascii String List Bool Lia.
From Stdlib Require Import Floats Uint63 DecimalString Sorted.
From stdpp Require Import gmap strings list.

Set Warnings "-inexact-float".

Local Open Scope string_scope.
Local Open Scope Z_scope.

(** ** Exceptions *)

Inductive exn := ValueError | KeyError | ZeroDivisionError.

Inductive result (T : Type) :=
  | Ok (v : T)
  | Raise (e : exn).
Arguments Ok {T} v.
Arguments Raise {T} e.

Definition rbind {T U} (r : result T) (k : T -> result U) : result U :=
  match r with
  | Ok v => k v
  | Raise e => Raise e
  end.

Notation "x <- r ;; k" := (rbind r (fun x => k))
  (at level 100, r at next level, right associativity).

(** ** Strings, as Python reads them *)

Module Py.

Definition code (c : ascii) : Z := Z.of_N (N_of_ascii c).

Definition between (lo hi : Z) (c : ascii) : bool :=
  (lo <=? code c) && (code c <=? hi).

(** [str.isspace] on one character: tab to carriage return, the four
    separators 0x1c to 0x1f, space, NEL and the no-break space. *)
Definition isspace (c : ascii) : bool :=
  between 9 13 c || between 28 32 c || (code c =? 133) || (code c =? 160).

Fixpoint lstrip (s : string) : string :=
  match s with
  | EmptyString => EmptyString
  | String c r => if isspace c then lstrip r else s
  end.

Fixpoint rstrip (s : string) : string :=
  match s with
  | EmptyString => EmptyString
  | String c r =>
      match rstrip r with
      | EmptyString => if isspace c then EmptyString else String c EmptyString
      | r' => String c r'
      end
  end.

(** [s.strip()] *)
Definition strip (s : string) : string := rstrip (lstrip s).

(** [s.lstrip(ch)] for a one-character argument. *)
Fixpoint lstrip_char (ch : ascii) (s : string) : string :=
  match s with
  | EmptyString => EmptyString
  | String c r => if Ascii.eqb c ch then lstrip_char ch r else s
  end.

Definition lower_char (c : ascii) : ascii :=
  if between 65 90 c then ascii_of_N (N_of_ascii c + 32) else c.

Definition upper_char (c : ascii) : ascii :=
  if between 97 122 c then ascii_of_N (N_of_ascii c - 32) else c.

Definition map_string (f : ascii -> ascii) : string -> string :=
  fix go s :=
    match s with
    | EmptyString => EmptyString
    | String c r => String (f c) (go r)
    end.

(** [s.lower()] and [s.upper()] on the ASCII letters.  The code only tests
    the results for membership in lists of ASCII literals (lower-case words,
    and ["A"], ["AA"], ["AAA"]); no character from 128 to 255 has an image
    that occurs in those literals, so such characters are left as they are:
    the membership tests come out as in Python. *)
Definition lower : string -> string := map_string lower_char.
Definition upper : string -> string := map_string upper_char.

(** [s.startswith(p)] *)
Fixpoint startswith (p s : string) : bool :=
  match p, s with
  | EmptyString, _ => true
  | String a p', String b s' => Ascii.eqb a b && startswith p' s'
  | String _ _, EmptyString => false
  end.

(** [s[i:j]] for [0 <= i <= j]. *)
Definition slice (i j : nat) (s : string) : string :=
  String.substring i (j - i) s.

(** [x in [l0, l1, ...]] *)
Definition mem (x : string) (l : list string) : bool :=
  existsb (String.eqb x) l.

(** [o in [l0, l1, ...]] when [o] comes from [.get] and may be [None]. *)
Definition omem (o : option string) (l : list string) : bool :=
  match o with
  | Some x => mem x l
  | None => false
  end.

(** Truth value of an optional string: [None] and [""] are false. *)
Definition truthy (o : option string) : bool :=
  match o with
  | Some EmptyString | None => false
  | Some _ => true
  end.

(** [o == lit] when [o] comes from [.get]. *)
Definition oeq (o : option string) (lit : string) : bool :=
  match o with
  | Some x => String.eqb x lit
  | None => false
  end.

(** *** [int(s, base)]

    The text is trimmed of the white space [int] accepts (which leaves out
    the separators 0x1c to 0x1f), an optional sign is read, then for base 16
    an optional ["0x"] prefix which may be followed by one underscore, then
    digits of the base, where single underscores may stand between digits.
    Anything else raises [ValueError]. *)

Definition int_space (c : ascii) : bool :=
  between 9 13 c || (code c =? 32) || (code c =? 133) || (code c =? 160).

Definition digit_value (c : ascii) : option Z :=
  if between 48 57 c then Some (code c - 48)
  else if between 97 122 c then Some (code c - 87)
  else if between 65 90 c then Some (code c - 55)
  else None.

Definition digit_in (base : Z) (c : ascii) : option Z :=
  match digit_value c with
  | Some d => if d <? base then Some d else None
  | None => None
  end.

Definition is_underscore (c : ascii) : bool := code c =? 95.

Fixpoint skip_int_space (s : string) : string :=
  match s with
  | EmptyString => EmptyString
  | String c r => if int_space c then skip_int_space r else s
  end.

(** The digit scan: [prev] tells whether the previous character was an
    underscore, [n] counts the digits read, [acc] is the value so far.  It
    stops at the first character that is neither a digit of the base nor an
    underscore and returns what is left. *)
Fixpoint scan_digits (base : Z) (prev : bool) (n : nat) (acc : Z)
    (s : string) : option (nat * Z * string) :=
  match s with
  | EmptyString => if prev then None else Some (n, acc, s)
  | String c r =>
      if is_underscore c then
        if prev then None else scan_digits base true n acc r
      else
        match digit_in base c with
        | Some d => scan_digits base false (S n) (acc * base + d) r
        | None => if prev then None else Some (n, acc, s)
        end
  end.

Definition skip_sign (s : string) : bool * string :=
  match s with
  | String c r =>
      if code c =? 43 then (false, r)
      else if code c =? 45 then (true, r)
      else (false, s)
  | EmptyString => (false, s)
  end.

Definition skip_prefix (base : Z) (s : string) : string :=
  match s with
  | String c0 (String c1 r) =>
      if (code c0 =? 48) &&
         (((base =? 16) && ((code c1 =? 120) || (code c1 =? 88))) ||
          ((base =? 8) && ((code c1 =? 111) || (code c1 =? 79))) ||
          ((base =? 2) && ((code c1 =? 98) || (code c1 =? 66))))
      then match r with
           | String c2 r' => if is_underscore c2 then r' else r
           | EmptyString => r
           end
      else s
  | _ => s
  end.

Definition int (base : Z) (s : string) : result Z :=
  let '(neg, s1) := skip_sign (skip_int_space s) in
  let s2 := skip_prefix base s1 in
  match s2 with
  | String c _ =>
      if is_underscore c then Raise ValueError
      else
        match scan_digits base false 0 0 s2 with
        | Some (O, _, _) | None => Raise ValueError
        | Some (_, v, rest) =>
            match skip_int_space rest with
            | EmptyString => Ok (if neg then - v else v)
            | _ => Raise ValueError
            end
        end
  | EmptyString => Raise ValueError
  end.

(** [str(n)] for an integer. *)
Definition str_of_int (n : Z) : string := NilZero.string_of_int (Z.to_int n).

End Py.

(** ** Data model of [accessibility_rules.py] *)

Module Severity.
Inductive t := ERROR | WARNING | INFO.

(** [Severity.value] *)
Definition value (s : t) : string :=
  match s with
  | ERROR => "error"
  | WARNING => "warning"
  | INFO => "info"
  end.

Definition eqb (a b : t) : bool :=
  match a, b with
  | ERROR, ERROR | WARNING, WARNING | INFO, INFO => true
  | _, _ => false
  end.
End Severity.

Module WCAGLevel.
Inductive t := A | AA | AAA.

Definition value (l : t) : string :=
  match l with
  | A => "A"
  | AA => "AA"
  | AAA => "AAA"
  end.
End WCAGLevel.

(** One markup node, as [parse_html_to_elements] builds it and as the
    checkers read it: every key is read with [.get], so each may be absent. *)
Record Element := {
  tag : option string;
  attributes : option (gmap string string);
  text : option string
}.

(** [element.get("attributes", {}).get(name)] *)
Definition attr (e : Element) (name : string) : option string :=
  match attributes e with
  | Some m => m !! name
  | None => None
  end.

(** [AccessibilityIssue].  The [element] field holds [str(html_element)] in
    the source; here it holds the element that was printed. *)
Record AccessibilityIssue := {
  rule_id : string;
  severity : Severity.t;
  wcag_level : WCAGLevel.t;
  message : string;
  element : option Element;
  suggestion : option string;
  wcag_criteria : option string
}.

(** ** The checkers of [AccessibilityRules] *)

Module AccessibilityRules.

Definition check_img_alt_text (html_element : Element)
    : option AccessibilityIssue :=
  if Py.oeq (tag html_element) "img" then
    match attr html_element "alt" with
    | None =>
        Some {| rule_id := "img-alt-missing";
                severity := Severity.ERROR;
                wcag_level := WCAGLevel.A;
                message := "Image missing alt attribute";
                element := Some html_element;
                suggestion := Some "Add an alt attribute to describe the image. Use alt='' for decorative images.";
                wcag_criteria := Some "1.1.1" |}
    | Some alt =>
        if String.eqb (Py.strip alt) "" &&
           negb (Py.oeq (attr html_element "role") "presentation")
        then
          Some {| rule_id := "img-alt-empty";
                  severity := Severity.WARNING;
                  wcag_level := WCAGLevel.A;
                  message := "Image has empty alt text";
                  element := Some html_element;
                  suggestion := Some "If decorative, add role='presentation'. Otherwise, provide descriptive alt text.";
                  wcag_criteria := Some "1.1.1" |}
        else None
    end
  else None.

Definition heading_no_h1 : AccessibilityIssue :=
  {| rule_id := "heading-no-h1";
     severity := Severity.WARNING;
     wcag_level := WCAGLevel.A;
     message := "Page should start with an h1 heading";
     element := None;
     suggestion := Some "Add an h1 as the main page heading";
     wcag_criteria := Some "1.3.1" |}.

Definition heading_skipped_level (prev_level level : Z) (heading : Element)
    : AccessibilityIssue :=
  {| rule_id := "heading-skipped-level";
     severity := Severity.ERROR;
     wcag_level := WCAGLevel.A;
     message := "Heading level skipped from h" +:+ Py.str_of_int prev_level
                  +:+ " to h" +:+ Py.str_of_int level;
     element := Some heading;
     suggestion := Some ("Use h" +:+ Py.str_of_int (prev_level + 1)
                           +:+ " instead of h" +:+ Py.str_of_int level);
     wcag_criteria := Some "1.3.1" |}.

(** One turn of the loop over the headings: the state is [prev_level] and the
    issues appended so far. *)
Definition heading_step (st : Z * list AccessibilityIssue) (heading : Element)
    : result (Z * list AccessibilityIssue) :=
  let '(prev_level, issues) := st in
  let tag := default "" (tag heading) in
  if Py.startswith "h" tag && (String.length tag =? 2)%nat then
    level <- Py.int 10 (Py.slice 1 2 tag) ;;
    let issues :=
      if (prev_level >? 0) && (level >? prev_level + 1)
      then (issues ++ [heading_skipped_level prev_level level heading])%list
      else issues in
    Ok (level, issues)
  else Ok st.

Fixpoint heading_loop (st : Z * list AccessibilityIssue)
    (headings : list Element) : result (Z * list AccessibilityIssue) :=
  match headings with
  | [] => Ok st
  | heading :: rest =>
      st' <- heading_step st heading ;;
      heading_loop st' rest
  end.

Definition check_heading_hierarchy (headings : list Element)
    : result (list AccessibilityIssue) :=
  match headings with
  | [] => Ok []
  | first :: _ =>
      let issues :=
        if negb (Py.oeq (tag first) "h1") then [heading_no_h1] else [] in
      st <- heading_loop (0, issues) headings ;;
      Ok (snd st)
  end.

Definition check_form_labels (form_element : Element)
    : option AccessibilityIssue :=
  let tag := tag form_element in
  if Py.omem tag ["input"; "select"; "textarea"] then
    let input_type := default "text" (attr form_element "type") in
    if Py.mem input_type ["submit"; "button"; "reset"; "hidden"] then None
    else
      let input_id := attr form_element "id" in
      let aria_label := attr form_element "aria-label" in
      let aria_labelledby := attr form_element "aria-labelledby" in
      let title := attr form_element "title" in
      if negb (existsb Py.truthy [input_id; aria_label; aria_labelledby; title])
      then
        Some {| rule_id := "form-no-label";
                severity := Severity.ERROR;
                wcag_level := WCAGLevel.A;
                message := default "" tag +:+ " element missing label";
                element := Some form_element;
                suggestion := Some "Add a label element with for attribute, or use aria-label/aria-labelledby";
                wcag_criteria := Some "3.3.2" |}
      else None
  else None.

Definition check_color_contrast : option AccessibilityIssue :=
  Some {| rule_id := "color-contrast-check";
          severity := Severity.INFO;
          wcag_level := WCAGLevel.AA;
          message := "Color contrast should be checked";
          element := None;
          suggestion := Some "Ensure contrast ratio is at least 4.5:1 for normal text, 3:1 for large text";
          wcag_criteria := Some "1.4.3" |}.

Definition generic_texts : list string :=
  ["click here"; "read more"; "learn more"; "here"; "link"; "more"].

Definition check_link_text (link_element : Element)
    : option AccessibilityIssue :=
  if Py.oeq (tag link_element) "a" then
    let text := Py.strip (default "" (text link_element)) in
    let aria_label := attr link_element "aria-label" in
    if negb (Py.truthy (Some text)) && negb (Py.truthy aria_label) then
      Some {| rule_id := "link-no-text";
              severity := Severity.ERROR;
              wcag_level := WCAGLevel.A;
              message := "Link has no accessible text";
              element := Some link_element;
              suggestion := Some "Add link text or aria-label attribute";
              wcag_criteria := Some "2.4.4" |}
    else if Py.mem (Py.lower text) generic_texts && negb (Py.truthy aria_label)
    then
      Some {| rule_id := "link-generic-text";
              severity := Severity.WARNING;
              wcag_level := WCAGLevel.A;
              message := "Link text '" +:+ text +:+ "' is not descriptive";
              element := Some link_element;
              suggestion := Some "Use descriptive link text that explains the destination";
              wcag_criteria := Some "2.4.4" |}
    else None
  else None.

Definition check_language_attribute (html_element : Element)
    : option AccessibilityIssue :=
  if Py.oeq (tag html_element) "html" then
    let lang := attr html_element "lang" in
    if negb (Py.truthy lang) then
      Some {| rule_id := "html-no-lang";
              severity := Severity.ERROR;
              wcag_level := WCAGLevel.A;
              message := "HTML element missing lang attribute";
              element := None;
              suggestion := Some "Add lang attribute to specify the page language (e.g., lang='en')";
              wcag_criteria := Some "3.1.1" |}
    else None
  else None.

Definition valid_roles : list string :=
  ["button"; "link"; "navigation"; "main"; "banner"; "contentinfo";
   "complementary"; "search"; "form"; "region"; "alert"; "status";
   "dialog"; "alertdialog"; "menu"; "menubar"; "menuitem"; "tab";
   "tablist"; "tabpanel"; "toolbar"; "tree"; "treegrid"; "treeitem";
   "grid"; "gridcell"; "row"; "columnheader"; "rowheader"; "list";
   "listitem"; "heading"; "img"; "presentation"; "none"].

Definition check_aria_roles (element : Element) : option AccessibilityIssue :=
  let role := attr element "role" in
  if Py.truthy role then
    if negb (Py.omem role valid_roles) then
      Some {| rule_id := "aria-invalid-role";
              severity := Severity.ERROR;
              wcag_level := WCAGLevel.A;
              message := "Invalid ARIA role '" +:+ default "" role +:+ "'";
              element := Some element;
              suggestion := Some "Use a valid ARIA role from the WAI-ARIA specification";
              wcag_criteria := Some "4.1.2" |}
    else None
  else None.

Definition check_keyboard_accessibility (element : Element)
    : option AccessibilityIssue :=
  let tag := tag element in
  let onclick := attr element "onclick" in
  let role := attr element "role" in
  let tabindex := attr element "tabindex" in
  if Py.truthy onclick &&
     negb (Py.omem tag ["a"; "button"; "input"; "select"; "textarea"]) then
    if negb (Py.omem role ["button"; "link"]) &&
       match tabindex with None => true | Some _ => false end
    then
      Some {| rule_id := "keyboard-no-access";
              severity := Severity.ERROR;
              wcag_level := WCAGLevel.A;
              message := "Clickable element not keyboard accessible";
              element := Some element;
              suggestion := Some "Add tabindex='0' and keyboard event handlers, or use a button element";
              wcag_criteria := Some "2.1.1" |}
    else None
  else None.

Definition check_touch_target_size (element : Element)
    : option AccessibilityIssue :=
  let tag := tag element in
  let role := attr element "role" in
  if Py.omem tag ["button"; "a"] || Py.omem role ["button"; "link"] then
    Some {| rule_id := "touch-target-size";
            severity := Severity.INFO;
            wcag_level := WCAGLevel.AAA;
            message := "Verify touch target is at least 44x44 CSS pixels";
            element := Some element;
            suggestion := Some "Ensure interactive elements are large enough for touch interaction";
            wcag_criteria := Some "2.5.5" |}
  else None.

End AccessibilityRules.

(** ** The criteria catalog of [wcag_data.py] *)

Record WCAGCriterion := {
  number : string;
  id : string;
  title : string;
  level : string;
  version : string;
  description : string;
  principle : string;
  guideline : string;
  exceptions : option (list string)
}.

(** One value of the ["criteria"] object of [wcag_criteria_complete.json]. *)
Record CriterionData := {
  data_id : string;
  data_title : string;
  data_level : string;
  data_version : string;
  data_description : string;
  data_principle : string;
  data_guideline : string;
  data_exceptions : option (list string)
}.

(** The indexes of [WCAGDataLoader] the aggregator reads. *)
Record WCAGDataLoader := {
  _criteria_by_number : gmap string WCAGCriterion;
  _criteria_by_level : gmap string (list WCAGCriterion)
}.

Module WCAGData.

(** The state [__init__] sets up before loading. *)
Definition init : WCAGDataLoader :=
  {| _criteria_by_number := ∅;
     _criteria_by_level := {[ "A" := []; "AA" := []; "AAA" := [] ]} |}.

Definition make_criterion (number : string) (d : CriterionData)
    : WCAGCriterion :=
  {| number := number;
     id := data_id d;
     title := data_title d;
     level := data_level d;
     version := data_version d;
     description := data_description d;
     principle := data_principle d;
     guideline := data_guideline d;
     exceptions := data_exceptions d |}.

(** The body of the loop of [_process_criteria]:
    [self._criteria_by_level[criterion.level]] raises [KeyError] for a level
    other than the three of [__init__]. *)
Definition process_item (self : WCAGDataLoader) (item : string * CriterionData)
    : result WCAGDataLoader :=
  let criterion := make_criterion (fst item) (snd item) in
  match _criteria_by_level self !! level criterion with
  | Some l =>
      Ok {| _criteria_by_number :=
              <[ fst item := criterion ]> (_criteria_by_number self);
            _criteria_by_level :=
              <[ level criterion := (l ++ [criterion])%list ]>
                (_criteria_by_level self) |}
  | None => Raise KeyError
  end.

Fixpoint process_items (self : WCAGDataLoader)
    (items : list (string * CriterionData)) : result WCAGDataLoader :=
  match items with
  | [] => Ok self
  | item :: rest =>
      self' <- process_item self item ;;
      process_items self' rest
  end.

(** [_process_criteria], from the ["criteria"] object of the data file, as
    the compliance report needs it.  The object is a dictionary, so its keys
    are distinct.  Its items are visited here in the order of the map, which
    is not the order of the file: the per-level lists come out as
    permutations of those of the code, and the report reads them through
    their length and through membership only.  Entries are complete here:
    what an entry without one of its keys does, and the lists in the order
    of the file, are in [DataFile] and [Catalog] below, with the agreement
    of the two loaders. *)
Definition _process_criteria (criteria : gmap string CriterionData)
    : result WCAGDataLoader :=
  process_items init (map_to_list criteria).

Definition get_criterion (self : WCAGDataLoader) (number : string)
    : option WCAGCriterion :=
  _criteria_by_number self !! number.

Definition get_criteria_by_level (self : WCAGDataLoader) (level : string)
    : list WCAGCriterion :=
  default [] (_criteria_by_level self !! level).

End WCAGData.

(** ** Numbers of the reports *)

(** A Python number that is either an [int] or a [float]. *)
Inductive pynum :=
  | PInt (z : Z)
  | PFloat (f : float).

Module Num.

(** [float(z)], exact while [|z| < 2^53]. *)
Definition of_int (z : Z) : float :=
  if z <? 0 then (- PrimFloat.of_uint63 (Uint63.of_Z (- z)))%float
  else PrimFloat.of_uint63 (Uint63.of_Z z).

(** [a / b] on two [int]s with [b <> 0]: the binary64 number nearest to the
    quotient, which is the quotient of the converted operands while both are
    below [2^53] in absolute value. *)
Definition int_truediv (a b : Z) : float := (of_int a / of_int b)%float.

(** Nearest integer to [n / d] for [d > 0], ties to the even one. *)
Definition div_half_even (n d : Z) : Z :=
  let q := n / d in
  let r := n mod d in
  if 2 * r <? d then q
  else if d <? 2 * r then q + 1
  else if Z.even q then q else q + 1.

(** [round(x, ndigits)] on a [float], for [0 <= ndigits <= 15]: the exact
    value of [x] is rounded to [ndigits] decimals, ties to even, and the
    decimal obtained is read back as the nearest binary64 number.  While the
    scaled value [t] is below [2^53] the reading back is one division of two
    exactly converted integers; from [2^53] on the decimals of [x] are finer
    than [ndigits] digits can change and [x] itself is the result. *)
Definition round_float (x : float) (ndigits : Z) : float :=
  let scale := 10 ^ ndigits in
  match Prim2SF x with
  | S754_finite s m e =>
      if 0 <=? e then x
      else
        let t := div_half_even (Z.pos m * scale) (2 ^ (- e)) in
        if 2 ^ 53 <=? t then x
        else
          let r := (of_int t / of_int scale)%float in
          if s then (- r)%float else r
  | _ => x
  end.

(** [round(n, ndigits)]: an [int] is returned as it is for [ndigits >= 0]. *)
Definition round (n : pynum) (ndigits : Z) : pynum :=
  match n with
  | PInt z => PInt z
  | PFloat f => PFloat (round_float f ndigits)
  end.

End Num.

(** ** The two aggregating tools of [server.py] *)

Module Server.

(** A node of the parsed document, as [soup.find_all()] hands it to
    [parse_html_to_elements]: its name, its attributes, and the text the
    parser keeps for it ([get_text(strip=True)], or [""] when the node has no
    single string).  The parsing of the HTML text itself is BeautifulSoup's. *)
Record Node := {
  node_name : string;
  node_attrs : gmap string string;
  node_text : string
}.

Definition parse_html_to_elements (soup : list Node) : list Element :=
  map (fun n => {| tag := Some (node_name n);
                   attributes := Some (node_attrs n);
                   text := Some (node_text n) |}) soup.

Definition heading_tags : list string := ["h1"; "h2"; "h3"; "h4"; "h5"; "h6"].

(** [[e for e in elements if e["tag"] in [...]]]: the subscript raises
    [KeyError] on a dictionary without the key. *)
Fixpoint extract_headings (elements : list Element) : result (list Element) :=
  match elements with
  | [] => Ok []
  | e :: rest =>
      match tag e with
      | None => Raise KeyError
      | Some t =>
          hs <- extract_headings rest ;;
          Ok (if Py.mem t heading_tags then e :: hs else hs)
      end
  end.

(** The six checks both tools run on one element, in the order of the
    source. *)
Definition element_checks (e : Element) : list AccessibilityIssue :=
  (option_list (AccessibilityRules.check_img_alt_text e) ++
   option_list (AccessibilityRules.check_form_labels e) ++
   option_list (AccessibilityRules.check_link_text e) ++
   option_list (AccessibilityRules.check_language_attribute e) ++
   option_list (AccessibilityRules.check_aria_roles e) ++
   option_list (AccessibilityRules.check_keyboard_accessibility e))%list.

Record IssueDict := {
  d_rule_id : string;
  d_message : string;
  d_wcag_level : string;
  d_wcag_criteria : option string;
  d_suggestion : option string
}.

Definition issue_dict (i : AccessibilityIssue) : IssueDict :=
  {| d_rule_id := rule_id i;
     d_message := message i;
     d_wcag_level := WCAGLevel.value (wcag_level i);
     d_wcag_criteria := wcag_criteria i;
     d_suggestion := suggestion i |}.

Record CheckResult := {
  total_issues : Z;
  errors : list IssueDict;
  warnings : list IssueDict;
  info : list IssueDict;
  summary_errors : Z;
  summary_warnings : Z;
  summary_info : Z
}.

Definition has_severity (s : Severity.t) (i : AccessibilityIssue) : bool :=
  Severity.eqb (severity i) s.

(** The issues [check_html_accessibility] collects before it sorts them by
    severity. *)
Definition collected_issues (soup : list Node) (include_warnings : bool)
    : result (list AccessibilityIssue) :=
  let elements := parse_html_to_elements soup in
  let issues := flat_map element_checks elements in
  headings <- extract_headings elements ;;
  heading_issues <- AccessibilityRules.check_heading_hierarchy headings ;;
  let issues := (issues ++ heading_issues)%list in
  Ok (if negb include_warnings
      then List.filter (has_severity Severity.ERROR) issues
      else issues).

Definition check_html_accessibility (soup : list Node) (include_warnings : bool)
    : result CheckResult :=
  issues <- collected_issues soup include_warnings ;;
  let errors := List.filter (has_severity Severity.ERROR) issues in
  let warnings := List.filter (has_severity Severity.WARNING) issues in
  let info := List.filter (has_severity Severity.INFO) issues in
  Ok {| total_issues := Z.of_nat (length issues);
        errors := map issue_dict errors;
        warnings := map issue_dict warnings;
        info := map issue_dict info;
        summary_errors := Z.of_nat (length errors);
        summary_warnings := Z.of_nat (length warnings);
        summary_info := Z.of_nat (length info) |}.

(** [criterion_issues]: a dictionary from criterion numbers to lists of
    issues, kept in insertion order.  [d.setdefault(k, []).extend(vs)] *)
Fixpoint setdefault_extend (k : string) (vs : list AccessibilityIssue)
    (d : list (string * list AccessibilityIssue))
    : list (string * list AccessibilityIssue) :=
  match d with
  | [] => [(k, vs)]
  | (k', l) :: rest =>
      if String.eqb k' k then (k', (l ++ vs)%list) :: rest
      else (k', l) :: setdefault_extend k vs rest
  end.

(** [if issue: d.setdefault(k, []).append(issue)] *)
Definition record_issue (k : string) (issue : option AccessibilityIssue)
    (d : list (string * list AccessibilityIssue)) :=
  match issue with
  | Some i => setdefault_extend k [i] d
  | None => d
  end.

Definition group_element (d : list (string * list AccessibilityIssue))
    (e : Element) : list (string * list AccessibilityIssue) :=
  let d := record_issue "1.1.1" (AccessibilityRules.check_img_alt_text e) d in
  let d := record_issue "3.3.2" (AccessibilityRules.check_form_labels e) d in
  let d := record_issue "2.4.4" (AccessibilityRules.check_link_text e) d in
  let d := record_issue "3.1.1" (AccessibilityRules.check_language_attribute e) d in
  let d := record_issue "4.1.2" (AccessibilityRules.check_aria_roles e) d in
  record_issue "2.1.1" (AccessibilityRules.check_keyboard_accessibility e) d.

Record Violation := {
  criterion : string;
  criterion_title : string;
  criterion_level : string;
  issue : string;
  v_severity : string;
  v_element : option Element;
  (** the key ["suggestion"] is present only with [include_suggestions] *)
  v_suggestion : option (option string)
}.

Definition make_violation (include_suggestions : bool) (c : WCAGCriterion)
    (criterion_number : string) (i : AccessibilityIssue) : Violation :=
  {| criterion := criterion_number;
     criterion_title := title c;
     criterion_level := level c;
     issue := message i;
     v_severity := Severity.value (severity i);
     v_element := element i;
     v_suggestion := if include_suggestions then Some (suggestion i) else None |}.

(** The violations contributed by one entry of [criterion_issues]. *)
Definition entry_violations (wcag_data : WCAGDataLoader)
    (required_criteria : list WCAGCriterion) (include_suggestions : bool)
    (entry : string * list AccessibilityIssue) : list Violation :=
  let '(criterion_number, issues) := entry in
  match WCAGData.get_criterion wcag_data criterion_number with
  | Some c =>
      if existsb (fun c' => String.eqb (number c') criterion_number)
           required_criteria
      then map (make_violation include_suggestions c criterion_number) issues
      else []
  | None => []
  end.

(** The report, without its ["summary"] line, which only renders the status,
    the level and the number of violated criteria as text. *)
Record ComplianceReport := {
  target_level : string;
  compliance_status : string;
  compliance_percentage : pynum;
  total_required_criteria : Z;
  violated_criteria : Z;
  total_violations : Z;
  violations : list Violation
}.

Inductive Outcome :=
  | ErrorDict (error : string)
  | Report (r : ComplianceReport).

Definition required_for (wcag_data : WCAGDataLoader) (target : string)
    : list WCAGCriterion :=
  ((if Py.mem target ["A"; "AA"; "AAA"]
    then WCAGData.get_criteria_by_level wcag_data "A" else []) ++
   (if Py.mem target ["AA"; "AAA"]
    then WCAGData.get_criteria_by_level wcag_data "AA" else []) ++
   (if String.eqb target "AAA"
    then WCAGData.get_criteria_by_level wcag_data "AAA" else []))%list.

(** The percentage before the report rounds it. *)
Definition percentage (total_required violated_criteria : Z) : pynum :=
  if total_required >? 0
  then PFloat (Num.int_truediv (total_required - violated_criteria)
                 total_required * Num.of_int 100)%float
  else PInt 100.

Definition validate_wcag_compliance_level (wcag_data : WCAGDataLoader)
    (soup : list Node) (target_level : string) (include_suggestions : bool)
    : result Outcome :=
  let target := Py.upper target_level in
  if negb (Py.mem target ["A"; "AA"; "AAA"])
  then Ok (ErrorDict "Target level must be A, AA, or AAA")
  else
    let required_criteria := required_for wcag_data target in
    let elements := parse_html_to_elements soup in
    let criterion_issues := fold_left group_element elements [] in
    headings <- extract_headings elements ;;
    heading_issues <- AccessibilityRules.check_heading_hierarchy headings ;;
    let criterion_issues :=
      match heading_issues with
      | [] => criterion_issues
      | _ => setdefault_extend "1.3.1" heading_issues criterion_issues
      end in
    let violations :=
      flat_map (entry_violations wcag_data required_criteria
                  include_suggestions) criterion_issues in
    let total_required := Z.of_nat (length required_criteria) in
    let violated_criteria :=
      Z.of_nat (size (list_to_set (map criterion violations) : gset string)) in
    let compliance_percentage := percentage total_required violated_criteria in
    Ok (Report
      {| target_level := target;
         compliance_status :=
           if (length violations =? 0)%nat then "PASS" else "FAIL";
         compliance_percentage := Num.round compliance_percentage 1;
         total_required_criteria := total_required;
         violated_criteria := violated_criteria;
         total_violations := Z.of_nat (length violations);
         violations := violations |}).

End Server.

(** ** The contrast calculator of [contrast_calculator.py] *)

Module Contrast.

(** [x / y] on floats: a zero divisor raises. *)
Definition truediv (x y : float) : result float :=
  if (y =? 0)%float then Raise ZeroDivisionError else Ok (x / y)%float.

(** [max(a, b)] and [min(a, b)]: the first argument is kept unless the second
    compares strictly above (below) it. *)
Definition max (a b : float) : float := if (a <? b)%float then b else a.
Definition min (a b : float) : float := if (b <? a)%float then b else a.

Definition hex_to_rgb (hex_color : string) : result (Z * Z * Z) :=
  let hex_color := Py.lstrip_char "#" hex_color in
  r <- Py.int 16 (Py.slice 0 2 hex_color) ;;
  g <- Py.int 16 (Py.slice 2 4 hex_color) ;;
  b <- Py.int 16 (Py.slice 4 6 hex_color) ;;
  Ok (r, g, b).

Record ContrastResult := {
  foreground : string;
  background : string;
  contrast_ratio : float;
  font_size : Z;
  is_bold : bool;
  is_large_text : bool;
  aa_required : float;
  aa_passes : bool;
  aaa_required : float;
  aaa_passes : bool;
  overall_grade : string
}.

Section WithPow.

(** [pow] on two floats is the C library's; it is a parameter here.  The
    divisions by the literals 255.0, 12.92 and 1.055 cannot raise. *)
Variable pow : float -> float -> float.

Definition linearize (c : Z) : float :=
  let c := (Num.of_int c / 255)%float in
  if (c <=? 0.03928)%float then (c / 12.92)%float
  else pow ((c + 0.055) / 1.055)%float 2.4%float.

Definition rgb_to_relative_luminance (rgb : Z * Z * Z) : float :=
  let '(r, g, b) := rgb in
  let r_linear := linearize r in
  let g_linear := linearize g in
  let b_linear := linearize b in
  (0.2126 * r_linear + 0.7152 * g_linear + 0.0722 * b_linear)%float.

Definition calculate_contrast_ratio (color1 color2 : string) : result float :=
  rgb1 <- hex_to_rgb color1 ;;
  rgb2 <- hex_to_rgb color2 ;;
  let lum1 := rgb_to_relative_luminance rgb1 in
  let lum2 := rgb_to_relative_luminance rgb2 in
  let lighter := max lum1 lum2 in
  let darker := min lum1 lum2 in
  truediv (lighter + 0.05)%float (darker + 0.05)%float.

(** [font_size] is taken among the integers. *)
Definition evaluate_contrast (foreground background : string) (font_size : Z)
    (is_bold : bool) : result ContrastResult :=
  ratio <- calculate_contrast_ratio foreground background ;;
  let is_large_text := (font_size >=? 18) || ((font_size >=? 14) && is_bold) in
  let aa_threshold := if is_large_text then 3.0%float else 4.5%float in
  let aaa_threshold := if is_large_text then 4.5%float else 7.0%float in
  let aa_pass := (aa_threshold <=? ratio)%float in
  let aaa_pass := (aaa_threshold <=? ratio)%float in
  Ok {| foreground := foreground;
        background := background;
        contrast_ratio := Num.round_float ratio 2;
        font_size := font_size;
        is_bold := is_bold;
        is_large_text := is_large_text;
        aa_required := aa_threshold;
        aa_passes := aa_pass;
        aaa_required := aaa_threshold;
        aaa_passes := aaa_pass;
        overall_grade :=
          if aaa_pass then "AAA" else if aa_pass then "AA" else "FAIL" |}.

End WithPow.

End Contrast.

(** * Properties *)

(** ** Strings *)

Lemma oeq_true (o : option string) (lit : string) :
  Py.oeq o lit = true <-> o = Some lit.
Proof.
  destruct o as [x|]; simpl.
  - rewrite String.eqb_eq. split; congruence.
  - split; discriminate.
Qed.

Lemma oeq_false (o : option string) (lit : string) :
  Py.oeq o lit = false <-> o <> Some lit.
Proof.
  rewrite <- oeq_true. destruct (Py.oeq o lit); split; congruence.
Qed.

Lemma truthy_false (o : option string) :
  Py.truthy o = false <-> o = None \/ o = Some "".
Proof.
  destruct o as [[|c r]|]; simpl; split; intros H; auto; try discriminate;
    destruct H; discriminate.
Qed.

Lemma truthy_true (o : option string) :
  Py.truthy o = true <-> exists v, o = Some v /\ v <> "".
Proof.
  destruct o as [[|c r]|]; simpl; split; intros H; try discriminate.
  - destruct H as (v & Hv & Hne). inversion Hv; subst. congruence.
  - exists (String c r). split; [reflexivity | discriminate].
  - reflexivity.
  - destruct H as (v & Hv & _). discriminate.
Qed.

(** A string is blank when each of its characters is white space. *)
Definition blank (s : string) : Prop :=
  forall c, In c (list_ascii_of_string s) -> Py.isspace c = true.

Lemma lstrip_empty (s : string) : Py.lstrip s = "" <-> blank s.
Proof.
  unfold blank. induction s as [|c r IH]; simpl.
  - split; [intros _ c [] | reflexivity].
  - destruct (Py.isspace c) eqn:Hc.
    + rewrite IH. split.
      * intros H c' [<- | Hin]; auto.
      * intros H c' Hin. apply H. now right.
    + split; [discriminate |].
      intros H. specialize (H c (or_introl eq_refl)). congruence.
Qed.

Lemma lstrip_head (s : string) :
  Py.lstrip s = "" \/
  exists c r, Py.lstrip s = String c r /\ Py.isspace c = false.
Proof.
  induction s as [|c r IH]; simpl; [now left |].
  destruct (Py.isspace c) eqn:Hc; [exact IH |].
  right. now exists c, r.
Qed.

Lemma rstrip_head (c : ascii) (r : string) :
  Py.isspace c = false -> Py.rstrip (String c r) <> "".
Proof.
  intros Hc. simpl. destruct (Py.rstrip r); [rewrite Hc |]; discriminate.
Qed.

(** [s.strip() == ""] exactly for the blank strings. *)
Lemma strip_empty (s : string) : Py.strip s = "" <-> blank s.
Proof.
  rewrite <- lstrip_empty. unfold Py.strip.
  destruct (lstrip_head s) as [-> | (c & r & -> & Hc)].
  - simpl. tauto.
  - split; [| discriminate].
    intros H. now apply rstrip_head in H.
Qed.

Lemma strip_eqb (s : string) :
  String.eqb (Py.strip s) "" = true <-> blank s.
Proof. rewrite String.eqb_eq. apply strip_empty. Qed.

(** ** The image checker *)

(** C5: on an element whose tag is [img], [check_img_alt_text] returns one
    [img-alt-missing] error when there is no [alt] attribute, one
    [img-alt-empty] warning when [alt] is blank and [role] is not
    [presentation], and nothing when [alt] is blank and [role] is
    [presentation]. *)
Theorem check_img_alt_text_cases (e : Element) :
  tag e = Some "img" ->
  (attr e "alt" = None ->
   exists i, AccessibilityRules.check_img_alt_text e = Some i /\
             rule_id i = "img-alt-missing" /\
             severity i = Severity.ERROR) /\
  (forall alt, attr e "alt" = Some alt -> blank alt ->
   attr e "role" <> Some "presentation" ->
   exists i, AccessibilityRules.check_img_alt_text e = Some i /\
             rule_id i = "img-alt-empty" /\
             severity i = Severity.WARNING) /\
  (forall alt, attr e "alt" = Some alt -> blank alt ->
   attr e "role" = Some "presentation" ->
   AccessibilityRules.check_img_alt_text e = None).
Proof.
  intros Htag. unfold AccessibilityRules.check_img_alt_text.
  rewrite (proj2 (oeq_true _ _) Htag).
  split; [| split].
  - intros ->. eexists. repeat split.
  - intros alt -> Hblank Hrole.
    rewrite (proj2 (strip_eqb alt) Hblank).
    rewrite (proj2 (oeq_false _ _) Hrole). simpl.
    eexists. repeat split.
  - intros alt -> Hblank Hrole.
    rewrite (proj2 (strip_eqb alt) Hblank).
    rewrite (proj2 (oeq_true _ _) Hrole). reflexivity.
Qed.

Definition img_without_alt : Element :=
  {| tag := Some "img"; attributes := Some ∅; text := Some "" |}.

Lemma check_img_alt_text_cases_witness :
  exists i, AccessibilityRules.check_img_alt_text img_without_alt = Some i /\
            rule_id i = "img-alt-missing" /\
            severity i = Severity.ERROR.
Proof.
  destruct (check_img_alt_text_cases img_without_alt eq_refl) as [H _].
  apply H. reflexivity.
Defined.

(** ** The form-control checker *)

Lemma mem_In (x : string) (l : list string) : Py.mem x l = true <-> In x l.
Proof.
  unfold Py.mem. rewrite existsb_exists. split.
  - intros (y & Hin & Heq). apply String.eqb_eq in Heq. now subst.
  - intros Hin. exists x. split; [assumption | apply String.eqb_refl].
Qed.

Lemma mem_not_In (x : string) (l : list string) :
  Py.mem x l = false <-> ~ In x l.
Proof.
  rewrite <- mem_In. destruct (Py.mem x l); split; congruence.
Qed.

Definition label_attributes : list string :=
  ["id"; "aria-label"; "aria-labelledby"; "title"].

Definition form_tags : list string := ["input"; "select"; "textarea"].

Definition unlabelled_types : list string :=
  ["submit"; "button"; "reset"; "hidden"].

(** The type attribute, ["text"] when there is none. *)
Definition effective_type (e : Element) : string :=
  default "text" (attr e "type").

Definition reports_form_no_label (e : Element) : Prop :=
  exists i, AccessibilityRules.check_form_labels e = Some i /\
            rule_id i = "form-no-label" /\
            severity i = Severity.ERROR.

(** The reading under which an attribute given with the empty string counts
    as present: the error is reported exactly when none of the four
    attributes is there. *)
Definition form_labels_by_presence (e : Element) : Prop :=
  (reports_form_no_label e <->
   forall k, In k label_attributes -> attr e k = None) /\
  (~ (forall k, In k label_attributes -> attr e k = None) ->
   AccessibilityRules.check_form_labels e = None).

Definition input_with_empty_id : Element :=
  {| tag := Some "input";
     attributes := Some {[ "id" := "" ]};
     text := Some "" |}.

(** C6, as stated, fails on [<input id="">]: the tag is a form control, the
    effective type is ["text"], the [id] attribute is present, and the
    checker still reports [form-no-label]. *)
Lemma check_form_labels_empty_id :
  tag input_with_empty_id = Some "input" /\
  effective_type input_with_empty_id = "text" /\
  attr input_with_empty_id "id" = Some "" /\
  reports_form_no_label input_with_empty_id /\
  ~ form_labels_by_presence input_with_empty_id.
Proof.
  assert (Hrep : reports_form_no_label input_with_empty_id).
  { eexists. split; [vm_compute; reflexivity | split; reflexivity]. }
  repeat split; try reflexivity; try exact Hrep.
  intros [Hiff _].
  pose proof (proj1 Hiff Hrep "id" (or_introl eq_refl)) as Habsent.
  vm_compute in Habsent. discriminate.
Qed.

(** One of the four attributes carries a non-empty value. *)
Definition has_label (e : Element) : Prop :=
  exists k v, In k label_attributes /\ attr e k = Some v /\ v <> "".

Lemma has_label_truthy (e : Element) :
  existsb Py.truthy
    [attr e "id"; attr e "aria-label"; attr e "aria-labelledby";
     attr e "title"] = true <-> has_label e.
Proof.
  unfold has_label, label_attributes. simpl.
  rewrite !orb_true_iff, !truthy_true. split.
  - intros [H | [H | [H | [H | H]]]]; try discriminate;
      destruct H as (v & Hv & Hne); eauto 10.
  - intros (k & v & Hin & Hv & Hne).
    destruct Hin as [<- | [<- | [<- | [<- | []]]]]; eauto 10.
Qed.

(** C6, amended: on a form control whose effective type is not one of
    [submit], [button], [reset], [hidden], [check_form_labels] reports a
    [form-no-label] error exactly when none of [id], [aria-label],
    [aria-labelledby], [title] has a non-empty value, and returns nothing
    otherwise: an attribute given with the empty string counts as missing. *)
Theorem check_form_labels_iff (e : Element) (t : string) :
  tag e = Some t -> In t form_tags ->
  ~ In (effective_type e) unlabelled_types ->
  (reports_form_no_label e <-> ~ has_label e) /\
  (has_label e -> AccessibilityRules.check_form_labels e = None).
Proof.
  intros Htag Hin Htype.
  unfold reports_form_no_label, AccessibilityRules.check_form_labels.
  rewrite Htag. unfold Py.omem.
  fold form_tags. rewrite (proj2 (mem_In _ _) Hin).
  fold (effective_type e). fold unlabelled_types.
  rewrite (proj2 (mem_not_In _ _) Htype).
  destruct (existsb Py.truthy _) eqn:Hany; simpl.
  - apply has_label_truthy in Hany. split; [| reflexivity].
    split; [intros (i & Hi & _); discriminate | tauto].
  - split.
    + split; [| intros _; eexists; repeat split].
      intros _ Hl. apply has_label_truthy in Hl. congruence.
    + intros Hl. apply has_label_truthy in Hl. congruence.
Qed.

Lemma check_form_labels_iff_witness :
  (reports_form_no_label input_with_empty_id <->
   ~ has_label input_with_empty_id) /\
  (has_label input_with_empty_id ->
   AccessibilityRules.check_form_labels input_with_empty_id = None).
Proof.
  apply (check_form_labels_iff input_with_empty_id "input").
  - reflexivity.
  - simpl. tauto.
  - vm_compute. intros [H | [H | [H | [H | []]]]]; discriminate.
Defined.

(** ** The document-language checker *)

(** C10: on an element whose tag is [html], [check_language_attribute]
    reports one [html-no-lang] error exactly when the [lang] attribute is
    missing or is the empty string, and returns nothing otherwise. *)
Theorem check_language_attribute_iff (e : Element) :
  tag e = Some "html" ->
  ((exists i, AccessibilityRules.check_language_attribute e = Some i /\
              rule_id i = "html-no-lang" /\
              severity i = Severity.ERROR) <->
   (attr e "lang" = None \/ attr e "lang" = Some "")) /\
  (~ (attr e "lang" = None \/ attr e "lang" = Some "") ->
   AccessibilityRules.check_language_attribute e = None).
Proof.
  intros Htag. unfold AccessibilityRules.check_language_attribute.
  rewrite (proj2 (oeq_true _ _) Htag).
  destruct (Py.truthy (attr e "lang")) eqn:Hl; simpl.
  - assert (Hn : ~ (attr e "lang" = None \/ attr e "lang" = Some "")).
    { intros H. apply truthy_false in H. congruence. }
    split; [| reflexivity].
    split; [intros (i & Hi & _); discriminate | tauto].
  - apply truthy_false in Hl. split; [| tauto].
    split; [tauto | intros _; eexists; repeat split].
Qed.

Definition html_with_empty_lang : Element :=
  {| tag := Some "html";
     attributes := Some {[ "lang" := "" ]};
     text := Some "" |}.

Lemma check_language_attribute_iff_witness :
  exists i,
    AccessibilityRules.check_language_attribute html_with_empty_lang = Some i /\
    rule_id i = "html-no-lang" /\
    severity i = Severity.ERROR.
Proof.
  destruct (check_language_attribute_iff html_with_empty_lang eq_refl)
    as [H _].
  apply H. right. reflexivity.
Defined.

(** ** The heading checker *)

Definition is_digit (c : ascii) : bool := Py.between 48 57 c.

(** [int(c)] on a one-character string. *)
Lemma int_of_char (c : ascii) :
  Py.int 10 (String c "") =
  if is_digit c then Ok (Py.code c - 48) else Raise ValueError.
Proof. destruct c as [[] [] [] [] [] [] [] []]; reflexivity. Qed.

Definition heading_hx : Element :=
  {| tag := Some "hx"; attributes := Some ∅; text := Some "" |}.

Definition heading_hr : Element :=
  {| tag := Some "hr"; attributes := Some ∅; text := Some "" |}.

(** C3: a tag of two characters that starts with [h] passes the guard of the
    scan whatever its second character is, and [int] then raises on a
    character that is no digit: the checker does not return on the heading
    list [[hx]], nor on [[hr]]. *)
Theorem check_heading_hierarchy_raises :
  AccessibilityRules.check_heading_hierarchy [heading_hx] = Raise ValueError /\
  AccessibilityRules.check_heading_hierarchy [heading_hr] = Raise ValueError.
Proof. split; reflexivity. Qed.

(** The level of a well-formed heading: its tag is [h] followed by one
    digit. *)
Definition heading_level (h : Element) : option Z :=
  match tag h with
  | Some (String a (String d EmptyString)) =>
      if Ascii.eqb a "h" && is_digit d then Some (Py.code d - 48) else None
  | _ => None
  end.

(** The headings the scan gets through: none has a two-character tag made of
    [h] and a character that is no digit. *)
Definition scannable (h : Element) : Prop :=
  forall d, tag h = Some (String "h" (String d "")) -> is_digit d = true.

(** The level the scan remembers after the headings [hs]: that of the last
    well-formed heading, 0 when there is none. *)
Definition previous_level (hs : list Element) : Z :=
  List.last (omap heading_level hs) 0.

Definition jumps (prev_level level : Z) : bool :=
  (0 <? prev_level) && (prev_level + 1 <? level).

(** The issue a jump from level [p] to level [l] at the heading [h] is
    expected to give: an error that names both levels in its message and
    proposes the level after [p]. *)
Definition jump_issue (p l : Z) (h : Element) : AccessibilityIssue :=
  {| rule_id := "heading-skipped-level";
     severity := Severity.ERROR;
     wcag_level := WCAGLevel.A;
     message := "Heading level skipped from h" +:+ Py.str_of_int p
                  +:+ " to h" +:+ Py.str_of_int l;
     element := Some h;
     suggestion := Some ("Use h" +:+ Py.str_of_int (p + 1)
                           +:+ " instead of h" +:+ Py.str_of_int l);
     wcag_criteria := Some "1.3.1" |}.

(** The issue owed to the heading at position [i], if any. *)
Definition skip_at (hs : list Element) (i : nat) : option AccessibilityIssue :=
  match hs !! i with
  | Some h =>
      match heading_level h with
      | Some l =>
          let p := previous_level (take i hs) in
          if jumps p l then Some (jump_issue p l h) else None
      | None => None
      end
  | None => None
  end.

Definition expected_skips (hs : list Element) : list AccessibilityIssue :=
  omap (skip_at hs) (seq 0 (length hs)).


Definition is_skip (i : AccessibilityIssue) : bool :=
  String.eqb (rule_id i) "heading-skipped-level".

(** The scan as a function of the remembered level. *)
Fixpoint scan (p : Z) (hs : list Element) : list AccessibilityIssue :=
  match hs with
  | [] => []
  | h :: rest =>
      match heading_level h with
      | Some l =>
          ((if jumps p l
            then [AccessibilityRules.heading_skipped_level p l h]
            else []) ++ scan l rest)%list
      | None => scan p rest
      end
  end.

(** The guard of the scan holds exactly for the tags made of [h] and one more
    character. *)
Lemma heading_guard (t : string) :
  Py.startswith "h" t && (String.length t =? 2)%nat =
  match t with
  | String a (String d EmptyString) => Ascii.eqb "h" a
  | _ => false
  end.
Proof.
  destruct t as [|a [|d [|c r]]];
    cbn [Py.startswith String.length Nat.eqb];
    rewrite ?andb_true_r, ?andb_false_r; reflexivity.
Qed.

Lemma heading_step_scannable (p : Z) (acc : list AccessibilityIssue)
    (h : Element) :
  scannable h ->
  AccessibilityRules.heading_step (p, acc) h =
  Ok match heading_level h with
     | Some l =>
         (l, if jumps p l
             then (acc ++ [AccessibilityRules.heading_skipped_level p l h])%list
             else acc)
     | None => (p, acc)
     end.
Proof.
  intros Hs.
  unfold AccessibilityRules.heading_step, heading_level, scannable in *.
  rewrite heading_guard.
  destruct (tag h) as [[|a [|d [|c r]]]|];
    cbn [default from_option Datatypes.id]; try reflexivity.
  rewrite (Ascii.eqb_sym a "h").
  destruct (Ascii.eqb "h" a) eqn:Ha; [| reflexivity].
  apply Ascii.eqb_eq in Ha. subst a.
  change (Py.slice 1 2 (String "h" (String d ""))) with (String d "").
  rewrite int_of_char, (Hs d eq_refl). cbn [rbind andb].
  unfold jumps. rewrite !Z.gtb_ltb. reflexivity.
Qed.

Lemma heading_loop_scan (hs : list Element) :
  Forall scannable hs ->
  forall p acc, exists p',
    AccessibilityRules.heading_loop (p, acc) hs = Ok (p', (acc ++ scan p hs)%list).
Proof.
  induction 1 as [|h rest Hh _ IH]; intros p acc;
    cbn [AccessibilityRules.heading_loop scan].
  - exists p. now rewrite app_nil_r.
  - rewrite (heading_step_scannable p acc h Hh). cbn [rbind].
    destruct (heading_level h) as [l|]; [| apply IH].
    destruct (IH l (if jumps p l
                    then (acc ++ [AccessibilityRules.heading_skipped_level p l h])%list
                    else acc)) as [p' ->].
    exists p'. destruct (jumps p l); simpl; now rewrite <- ?app_assoc.
Qed.





Lemma filter_skip_scan (p : Z) (hs : list Element) :
  List.filter is_skip (scan p hs) = scan p hs.
Proof.
  revert p. induction hs as [|h rest IH]; intros p; [reflexivity |]. simpl.
  destruct (heading_level h) as [l|]; [| apply IH].
  rewrite List.filter_app, IH. now destruct (jumps p l).
Qed.


Definition heading (t : string) : Element :=
  {| tag := Some t; attributes := Some ∅; text := Some "" |}.

Lemma scannable_heading_h1_h3 : Forall scannable [heading "h1"; heading "h3"].
Proof.
  repeat constructor; intros d Hd; inversion Hd; reflexivity.
Defined.


(** The sequence [h2, h3] gets the opening warning and no skip. *)
Example check_heading_hierarchy_h2_h3 :
  AccessibilityRules.check_heading_hierarchy [heading "h2"; heading "h3"] =
  Ok [AccessibilityRules.heading_no_h1].
Proof. reflexivity. Qed.

(** The sequence [h1, h3] owes exactly one issue, which names the jump. *)
Example expected_skips_h1_h3 :
  map message (expected_skips [heading "h1"; heading "h3"]) =
  ["Heading level skipped from h1 to h3"] /\
  map suggestion (expected_skips [heading "h1"; heading "h3"]) =
  [Some "Use h2 instead of h3"].
Proof. split; reflexivity. Qed.

(** ** The full pass of [check_html_accessibility] *)

(** The headings [extract_headings] keeps carry one of the tags [h1] to
    [h6]; on parsed elements the subscript never raises. *)
Lemma extract_headings_parsed (soup : list Server.Node) :
  exists hs,
    Server.extract_headings (Server.parse_html_to_elements soup) = Ok hs /\
    Forall (fun h => exists t, tag h = Some t /\ In t Server.heading_tags) hs.
Proof.
  induction soup as [|n soup (hs & Hhs & Hall)];
    cbn [Server.parse_html_to_elements map Server.extract_headings tag].
  - exists []. split; [reflexivity | constructor].
  - unfold Server.parse_html_to_elements in Hhs. rewrite Hhs. cbn [rbind].
    destruct (Py.mem (Server.node_name n) Server.heading_tags) eqn:Hm.
    + eexists. split; [reflexivity |]. constructor; [| assumption].
      exists (Server.node_name n). split; [reflexivity | now apply mem_In].
    + exists hs. now split.
Qed.

Lemma heading_tag_scannable (h : Element) :
  (exists t, tag h = Some t /\ In t Server.heading_tags) -> scannable h.
Proof.
  intros (t & Ht & Hin) d Hd. rewrite Ht in Hd. inversion Hd; subst t.
  simpl in Hin.
  destruct Hin as [H | [H | [H | [H | [H | [H | []]]]]]];
    inversion H; reflexivity.
Qed.

(** Neither an advisory of severity [info] nor the touch-target rule. *)
Definition no_advisory (i : AccessibilityIssue) : bool :=
  negb (Severity.eqb (severity i) Severity.INFO) &&
  negb (String.eqb (rule_id i) "touch-target-size").

Ltac checker_cases :=
  intros; repeat case_match; simplify_eq; reflexivity.

Lemma img_alt_no_advisory (e : Element) (i : AccessibilityIssue) :
  AccessibilityRules.check_img_alt_text e = Some i -> no_advisory i = true.
Proof. unfold AccessibilityRules.check_img_alt_text. checker_cases. Qed.

Lemma form_labels_no_advisory (e : Element) (i : AccessibilityIssue) :
  AccessibilityRules.check_form_labels e = Some i -> no_advisory i = true.
Proof. unfold AccessibilityRules.check_form_labels. checker_cases. Qed.

Lemma link_text_no_advisory (e : Element) (i : AccessibilityIssue) :
  AccessibilityRules.check_link_text e = Some i -> no_advisory i = true.
Proof. unfold AccessibilityRules.check_link_text. checker_cases. Qed.

Lemma language_no_advisory (e : Element) (i : AccessibilityIssue) :
  AccessibilityRules.check_language_attribute e = Some i ->
  no_advisory i = true.
Proof. unfold AccessibilityRules.check_language_attribute. checker_cases. Qed.

Lemma aria_roles_no_advisory (e : Element) (i : AccessibilityIssue) :
  AccessibilityRules.check_aria_roles e = Some i -> no_advisory i = true.
Proof. unfold AccessibilityRules.check_aria_roles. checker_cases. Qed.

Lemma keyboard_no_advisory (e : Element) (i : AccessibilityIssue) :
  AccessibilityRules.check_keyboard_accessibility e = Some i ->
  no_advisory i = true.
Proof.
  unfold AccessibilityRules.check_keyboard_accessibility. checker_cases.
Qed.

Lemma Forall_option_list {X} (P : X -> Prop) (o : option X) :
  (forall x, o = Some x -> P x) -> Forall P (option_list o).
Proof. destruct o; simpl; auto. Qed.

Lemma element_checks_no_advisory (e : Element) :
  Forall (fun i => no_advisory i = true) (Server.element_checks e).
Proof.
  unfold Server.element_checks.
  repeat (apply Forall_app; split); apply Forall_option_list; intros i.
  - apply img_alt_no_advisory.
  - apply form_labels_no_advisory.
  - apply link_text_no_advisory.
  - apply language_no_advisory.
  - apply aria_roles_no_advisory.
  - apply keyboard_no_advisory.
Qed.

Lemma scan_no_advisory (p : Z) (hs : list Element) :
  Forall (fun i => no_advisory i = true) (scan p hs).
Proof.
  revert p. induction hs as [|h rest IH]; intros p; simpl; [constructor |].
  destruct (heading_level h) as [l|]; [| apply IH].
  apply Forall_app. split; [| apply IH].
  destruct (jumps p l); repeat constructor.
Qed.

(** On headings the scan gets through, the checker returns, and what it
    returns is the opening warning, if owed, followed by the skips. *)
Lemma check_heading_hierarchy_returns (hs : list Element) :
  Forall scannable hs ->
  exists issues,
    AccessibilityRules.check_heading_hierarchy hs = Ok issues /\
    Forall (fun i => no_advisory i = true) issues.
Proof.
  intros Hs. destruct hs as [|first rest].
  - exists []. split; [reflexivity | constructor].
  - unfold AccessibilityRules.check_heading_hierarchy.
    set (init := if negb (Py.oeq (tag first) "h1")
                 then [AccessibilityRules.heading_no_h1] else []).
    destruct (heading_loop_scan (first :: rest) Hs 0 init) as [p' ->].
    cbn [rbind snd]. eexists. split; [reflexivity |].
    apply Forall_app. split; [| apply scan_no_advisory].
    unfold init. destruct (negb _); repeat constructor.
Qed.

Lemma collected_issues_no_advisory (soup : list Server.Node)
    (include_warnings : bool) :
  exists issues,
    Server.collected_issues soup include_warnings = Ok issues /\
    Forall (fun i => no_advisory i = true) issues.
Proof.
  unfold Server.collected_issues.
  destruct (extract_headings_parsed soup) as (hs & -> & Hhs).
  cbn [rbind].
  destruct (check_heading_hierarchy_returns hs) as (his & -> & Hhis).
  { eapply Forall_impl; [exact Hhs |]. apply heading_tag_scannable. }
  cbn [rbind]. eexists. split; [reflexivity |].
  assert (Hall : Forall (fun i => no_advisory i = true)
            (flat_map Server.element_checks
               (Server.parse_html_to_elements soup) ++ his)).
  { apply Forall_app. split; [| assumption].
    apply Forall_flat_map, Forall_forall. intros e _.
    apply element_checks_no_advisory. }
  destruct (negb include_warnings); [| assumption].
  apply Forall_forall. intros i Hi.
  apply list_elem_of_In, List.filter_In in Hi. destruct Hi as [Hi _].
  rewrite Forall_forall in Hall. now apply Hall, list_elem_of_In.
Qed.

Definition button_node : Server.Node :=
  {| Server.node_name := "button";
     Server.node_attrs := ∅;
     Server.node_text := "Send" |}.

(** C2, as stated, fails on the single element [<button>Send</button>]: the
    touch-target checker would return its advisory for it, and the full pass
    returns no issue at all. *)
Lemma check_html_accessibility_button :
  (exists i,
     map AccessibilityRules.check_touch_target_size
       (Server.parse_html_to_elements [button_node]) = [Some i] /\
     rule_id i = "touch-target-size" /\ severity i = Severity.INFO) /\
  Server.check_html_accessibility [button_node] true =
  Ok {| Server.total_issues := 0;
        Server.errors := []; Server.warnings := []; Server.info := [];
        Server.summary_errors := 0;
        Server.summary_warnings := 0;
        Server.summary_info := 0 |}.
Proof.
  split; [eexists; repeat split | reflexivity].
Qed.

Definition touch_target (e : Element) : bool :=
  Py.omem (tag e) ["button"; "a"] || Py.omem (attr e "role") ["button"; "link"].

(** What the result shows of one issue. *)
Definition reported (i : AccessibilityIssue) : Server.IssueDict :=
  {| Server.d_rule_id := rule_id i;
     Server.d_message := message i;
     Server.d_wcag_level := WCAGLevel.value (wcag_level i);
     Server.d_wcag_criteria := wcag_criteria i;
     Server.d_suggestion := suggestion i |}.

Definition errors_of (issues : list AccessibilityIssue)
    : list AccessibilityIssue :=
  List.filter (fun i => Severity.eqb (severity i) Severity.ERROR) issues.

Definition warnings_of (issues : list AccessibilityIssue)
    : list AccessibilityIssue :=
  List.filter (fun i => Severity.eqb (severity i) Severity.WARNING) issues.

(** The checks run on one element: the six checkers, in this order. *)
Definition six_checks (e : Element) : list AccessibilityIssue :=
  (option_list (AccessibilityRules.check_img_alt_text e) ++
   option_list (AccessibilityRules.check_form_labels e) ++
   option_list (AccessibilityRules.check_link_text e) ++
   option_list (AccessibilityRules.check_language_attribute e) ++
   option_list (AccessibilityRules.check_aria_roles e) ++
   option_list (AccessibilityRules.check_keyboard_accessibility e))%list.

(** C2, amended: for every input [check_html_accessibility] returns.  The
    issues it works on are those of the six checkers for images, form
    labels, link text, language, ARIA roles and keyboard access, run on each
    element in turn, followed by those of the heading checker (only the
    errors among them without [include_warnings]).  Its result sorts these
    issues by severity: the error list shows the errors among them, in
    order, the warning list the warnings, the total is their number and the
    summary counts are the lengths of the lists.  The touch-target checker
    is not among the checkers: the result has no advisory of severity [info]
    and no [touch-target-size] entry.  Called by itself on an element whose
    tag is [button] or [a] or whose role is [button] or [link],
    [check_touch_target_size] returns one [touch-target-size] advisory of
    severity [info]. *)
Theorem check_html_accessibility_pass (soup : list Server.Node)
    (include_warnings : bool) :
  (exists hs his issues res,
     Server.extract_headings (Server.parse_html_to_elements soup) = Ok hs /\
     AccessibilityRules.check_heading_hierarchy hs = Ok his /\
     issues =
       (if include_warnings then fun l => l else errors_of)
         (flat_map six_checks (Server.parse_html_to_elements soup) ++ his)%list
     /\
     Server.collected_issues soup include_warnings = Ok issues /\
     Server.check_html_accessibility soup include_warnings = Ok res /\
     Server.errors res = map reported (errors_of issues) /\
     Server.warnings res = map reported (warnings_of issues) /\
     Server.info res = [] /\
     Server.total_issues res = Z.of_nat (length issues) /\
     Server.summary_errors res = Z.of_nat (length (Server.errors res)) /\
     Server.summary_warnings res = Z.of_nat (length (Server.warnings res)) /\
     Server.summary_info res = 0 /\
     forall d, In d (Server.errors res ++ Server.warnings res ++
                     Server.info res)%list ->
               Server.d_rule_id d <> "touch-target-size") /\
  (forall e, touch_target e = true ->
     exists i, AccessibilityRules.check_touch_target_size e = Some i /\
               rule_id i = "touch-target-size" /\
               severity i = Severity.INFO).
Proof.
  split.
  - destruct (collected_issues_no_advisory soup include_warnings)
      as (issues & Hrun & Hall).
    pose proof Hrun as Hrun'. unfold Server.collected_issues in Hrun'.
    destruct (extract_headings_parsed soup) as (hs & Hhs & Htags).
    rewrite Hhs in Hrun'. cbn [rbind] in Hrun'.
    destruct (AccessibilityRules.check_heading_hierarchy hs) as [his|]
      eqn:Hhis; [| discriminate].
    cbn [rbind] in Hrun'.
    exists hs, his, issues. eexists.
    split; [exact Hhs |]. split; [exact Hhis |].
    split.
    { inversion Hrun' as [Hi]. now destruct include_warnings. }
    split; [exact Hrun |].
    unfold Server.check_html_accessibility. rewrite Hrun. cbn [rbind].
    split; [reflexivity |].
    assert (Hinfo : List.filter (Server.has_severity Severity.INFO) issues = []).
    { clear Hrun Hrun'. induction Hall as [|i l Hi _ IH]; [reflexivity |].
      simpl. rewrite IH. unfold no_advisory in Hi.
      unfold Server.has_severity.
      now destruct (Severity.eqb (severity i) Severity.INFO). }
    cbn [Server.info Server.summary_info Server.errors Server.warnings
         Server.total_issues Server.summary_errors Server.summary_warnings].
    rewrite Hinfo, !length_map.
    split; [reflexivity |]. split; [reflexivity |]. split; [reflexivity |].
    split; [reflexivity |]. split; [reflexivity |]. split; [reflexivity |].
    split; [reflexivity |].
    intros d Hd. rewrite <- !map_app in Hd. apply in_map_iff in Hd.
    destruct Hd as (i & <- & Hi).
    assert (Hin : In i issues).
    { rewrite !in_app_iff in Hi.
      destruct Hi as [Hi | [Hi | []]]; apply List.filter_In in Hi; tauto. }
    rewrite Forall_forall in Hall.
    specialize (Hall i (proj2 (list_elem_of_In _ _) Hin)).
    unfold no_advisory in Hall. apply andb_true_iff in Hall as [_ Hall].
    apply negb_true_iff, String.eqb_neq in Hall. exact Hall.
  - intros e He. unfold AccessibilityRules.check_touch_target_size.
    unfold touch_target in He. rewrite He. eexists. repeat split.
Qed.

(** ** The compliance report *)

(** The levels a target level asks for. *)
Definition levels_up_to (target : string) : list string :=
  if String.eqb target "A" then ["A"]
  else if String.eqb target "AA" then ["A"; "AA"]
  else ["A"; "AA"; "AAA"].

(** The numbers of the criteria of the data file that the target level
    requires: those at level A, with those at level AA from target AA on,
    with those at level AAA for target AAA. *)
Definition required_set (criteria : gmap string CriterionData)
    (target : string) : gset string :=
  dom (filter (fun kv => data_level kv.2 ∈ levels_up_to target) criteria).

Definition at_level (lv : string) (item : string * CriterionData) : Prop :=
  data_level item.2 = lv.

#[global] Instance at_level_dec (lv : string) (item : string * CriterionData)
    : Decision (at_level lv item) :=
  decide (data_level item.2 = lv).

Definition item_criterion (item : string * CriterionData) : WCAGCriterion :=
  WCAGData.make_criterion item.1 item.2.

Lemma process_items_levels (items : list (string * CriterionData)) :
  forall self self', WCAGData.process_items self items = Ok self' ->
  forall lv,
    _criteria_by_level self' !! lv =
    (fun l => l ++ map item_criterion (filter (at_level lv) items))%list
      <$> _criteria_by_level self !! lv.
Proof.
  induction items as [|item rest IH]; intros self self' Hrun lv.
  - inversion Hrun; subst. destruct (_ !! lv); simpl; [| reflexivity].
    now rewrite app_nil_r.
  - cbn [WCAGData.process_items] in Hrun.
    unfold WCAGData.process_item in Hrun.
    destruct (_criteria_by_level self !! _) as [l|] eqn:Hl; [| discriminate].
    cbn [rbind] in Hrun. rewrite (IH _ _ Hrun lv).
    cbn [_criteria_by_level]. rewrite filter_cons.
    change (level (WCAGData.make_criterion item.1 item.2))
      with (data_level item.2) in *.
    destruct (decide (at_level lv item)) as [Hlv | Hlv]; unfold at_level in Hlv.
    + subst lv. rewrite lookup_insert_eq, Hl. simpl.
      now rewrite <- app_assoc.
    + rewrite lookup_insert_ne by congruence. reflexivity.
Qed.

Lemma get_criteria_by_level_length (criteria : gmap string CriterionData)
    (wcag : WCAGDataLoader) (lv : string) :
  WCAGData._process_criteria criteria = Ok wcag ->
  In lv ["A"; "AA"; "AAA"] ->
  length (WCAGData.get_criteria_by_level wcag lv) =
  length (filter (at_level lv) (map_to_list criteria)).
Proof.
  intros Hrun Hlv. unfold WCAGData.get_criteria_by_level.
  rewrite (process_items_levels _ _ _ Hrun lv).
  destruct Hlv as [<- | [<- | [<- | []]]];
    (replace (_criteria_by_level WCAGData.init !! _)
       with (Some (@nil WCAGCriterion)) by (vm_compute; reflexivity));
    simpl; now rewrite length_map.
Qed.

Lemma NoDup_fst_filter {X Y} (P : X * Y -> Prop) `{!forall x, Decision (P x)}
    (l : list (X * Y)) :
  NoDup (l.*1) -> NoDup ((filter P l).*1).
Proof.
  induction l as [|x l IH]; [intros _; constructor |].
  rewrite fmap_cons, NoDup_cons. intros [Hx Hl].
  rewrite filter_cons. destruct (decide (P x)); [| auto].
  rewrite fmap_cons, NoDup_cons. split; [| auto].
  intros Hin. apply Hx. apply list_elem_of_fmap in Hin as (y & -> & Hy).
  apply list_elem_of_fmap. exists y. split; [reflexivity |].
  apply list_elem_of_filter in Hy. tauto.
Qed.

Lemma size_filter_map_to_list {Y} (P : string * Y -> Prop)
    `{!forall x, Decision (P x)} (m : gmap string Y) :
  size (filter P m) = length (filter P (map_to_list m)).
Proof.
  rewrite map_filter_alt. apply map_size_list_to_map.
  apply NoDup_fst_filter, NoDup_fst_map_to_list.
Qed.

Lemma length_filter_levels (l : list (string * CriterionData)) :
  length (filter (fun kv => data_level kv.2 ∈ ["A"]) l) =
    length (filter (at_level "A") l) /\
  length (filter (fun kv => data_level kv.2 ∈ ["A"; "AA"]) l) =
    (length (filter (at_level "A") l) +
     length (filter (at_level "AA") l))%nat /\
  length (filter (fun kv => data_level kv.2 ∈ ["A"; "AA"; "AAA"]) l) =
    (length (filter (at_level "A") l) +
     length (filter (at_level "AA") l) +
     length (filter (at_level "AAA") l))%nat.
Proof.
  induction l as [|x l (IH1 & IH2 & IH3)]; [repeat split |].
  rewrite !filter_cons. unfold at_level in *.
  repeat split;
    repeat match goal with
           | |- context [decide ?P] => destruct (decide P)
           end;
    simpl; rewrite ?IH1, ?IH2, ?IH3; try lia; exfalso;
    repeat match goal with
           | H : _ ∈ _ |- _ => apply list_elem_of_In in H; simpl in H
           | H : ¬ (_ ∈ _) |- _ => rewrite list_elem_of_In in H; simpl in H
           end;
    intuition congruence.
Qed.

(** The list [required_criteria] has one entry per required criterion. *)
Lemma required_for_length (criteria : gmap string CriterionData)
    (wcag : WCAGDataLoader) (target : string) :
  WCAGData._process_criteria criteria = Ok wcag ->
  In target ["A"; "AA"; "AAA"] ->
  length (Server.required_for wcag target) = size (required_set criteria target).
Proof.
  intros Hrun Htarget. unfold required_set.
  rewrite size_dom, size_filter_map_to_list.
  pose proof (length_filter_levels (map_to_list criteria)) as (H1 & H2 & H3).
  pose proof (get_criteria_by_level_length criteria wcag "A" Hrun) as HA.
  pose proof (get_criteria_by_level_length criteria wcag "AA" Hrun) as HAA.
  pose proof (get_criteria_by_level_length criteria wcag "AAA" Hrun) as HAAA.
  unfold Server.required_for.
  destruct Htarget as [<- | [<- | [<- | []]]];
    cbn [Py.mem existsb String.eqb Ascii.eqb Bool.eqb orb levels_up_to];
    rewrite ?length_app, ?app_nil_r; cbn [length];
    rewrite ?HA, ?HAA, ?HAAA by (simpl; tauto).
  - rewrite H1. lia.
  - rewrite H2. lia.
  - rewrite H3. lia.
Qed.

Definition criterion_data (t lv : string) : CriterionData :=
  {| data_id := "";
     data_title := t;
     data_level := lv;
     data_version := "2.0";
     data_description := "";
     data_principle := "";
     data_guideline := "";
     data_exceptions := None |}.

(** A data file with three criteria, all at level A. *)
Definition three_criteria : gmap string CriterionData :=
  {[ "1.1.1" := criterion_data "Non-text Content" "A";
     "1.3.1" := criterion_data "Info and Relationships" "A";
     "2.1.1" := criterion_data "Keyboard" "A" ]}.

Definition three_criteria_loader : WCAGDataLoader :=
  match WCAGData._process_criteria three_criteria with
  | Ok wcag => wcag
  | Raise _ => WCAGData.init
  end.

Lemma three_criteria_loaded :
  WCAGData._process_criteria three_criteria = Ok three_criteria_loader.
Proof. vm_compute. reflexivity. Qed.

Definition img_node : Server.Node :=
  {| Server.node_name := "img";
     Server.node_attrs := ∅;
     Server.node_text := "" |}.

(** The reading under which the report carries the quotient as computed. *)
Definition reports_unrounded (r : Server.ComplianceReport) : Prop :=
  Server.compliance_percentage r =
  Server.percentage (Server.total_required_criteria r)
    (Server.violated_criteria r).

(** C1, as stated, fails on a document made of one image without [alt],
    checked at level A against three level-A criteria: one of the three is
    violated, the quotient is 66.66666666666666, and the report carries
    66.7. *)
Lemma validate_three_criteria_rounds :
  exists r,
    Server.validate_wcag_compliance_level three_criteria_loader [img_node]
      "A" true = Ok (Server.Report r) /\
    Server.total_required_criteria r = 3 /\
    Server.violated_criteria r = 1 /\
    Server.compliance_status r = "FAIL" /\
    Server.percentage 3 1 = PFloat 0x1.0aaaaaaaaaaaap+6%float /\
    Server.compliance_percentage r = PFloat 0x1.0accccccccccdp+6%float /\
    ~ reports_unrounded r.
Proof.
  eexists. split; [vm_compute; reflexivity |].
  repeat split; try (vm_compute; reflexivity).
  unfold reports_unrounded. vm_compute. intros H. inversion H.
Qed.

(** C1, amended: for every element sequence and every target level among A,
    AA and AAA, [validate_wcag_compliance_level] returns a report whose
    [compliance_percentage] is
    [(required_count - violated_count) / required_count * 100] rounded to one
    decimal (the integer 100 when [required_count] is 0), where
    [required_count] is the size of the cumulative required-criteria set and
    [violated_count] the number of distinct criterion numbers with at least
    one violation; its status is [PASS] exactly when the list of violations
    is empty. *)
Theorem validate_wcag_compliance_level_report
    (criteria : gmap string CriterionData) (wcag : WCAGDataLoader)
    (soup : list Server.Node) (target_level : string)
    (include_suggestions : bool) :
  WCAGData._process_criteria criteria = Ok wcag ->
  In (Py.upper target_level) ["A"; "AA"; "AAA"] ->
  exists r (violated : gset string),
    Server.validate_wcag_compliance_level wcag soup target_level
      include_suggestions = Ok (Server.Report r) /\
    Server.total_required_criteria r =
      Z.of_nat (size (required_set criteria (Py.upper target_level))) /\
    (forall n, n ∈ violated <->
       exists v, In v (Server.violations r) /\ Server.criterion v = n) /\
    Server.violated_criteria r = Z.of_nat (size violated) /\
    Server.compliance_percentage r =
      (if Server.total_required_criteria r >? 0
       then PFloat (Num.round_float
                      (Num.int_truediv
                         (Server.total_required_criteria r -
                          Server.violated_criteria r)
                         (Server.total_required_criteria r) *
                       Num.of_int 100)%float 1)
       else PInt 100) /\
    (Server.compliance_status r = "PASS" <-> Server.violations r = []).
Proof.
  intros Hload Htarget. unfold Server.validate_wcag_compliance_level.
  rewrite (proj2 (mem_In _ _) Htarget). cbn [negb].
  destruct (extract_headings_parsed soup) as (hs & -> & Hhs). cbn [rbind].
  destruct (check_heading_hierarchy_returns hs) as (his & -> & _).
  { eapply Forall_impl; [exact Hhs |]. apply heading_tag_scannable. }
  cbn [rbind].
  eexists. eexists. split; [reflexivity |].
  cbn [Server.total_required_criteria Server.violated_criteria
       Server.compliance_percentage Server.compliance_status
       Server.violations].
  split; [| split; [| split; [reflexivity | split]]].
  - f_equal. now apply required_for_length.
  - intros n. rewrite elem_of_list_to_set, list_elem_of_fmap.
    split; intros (v & Hv & Hin).
    + exists v. split; [now apply list_elem_of_In | congruence].
    + exists v. split; [congruence | now apply list_elem_of_In].
  - unfold Server.percentage.
    destruct (_ >? 0); reflexivity.
  - match goal with |- context [length ?l] => destruct l end; simpl;
      split; congruence.
Qed.

Lemma validate_wcag_compliance_level_report_witness :
  exists r (violated : gset string),
    Server.validate_wcag_compliance_level three_criteria_loader [img_node]
      "aa" true = Ok (Server.Report r) /\
    Server.total_required_criteria r =
      Z.of_nat (size (required_set three_criteria (Py.upper "aa"))) /\
    (forall n, n ∈ violated <->
       exists v, In v (Server.violations r) /\ Server.criterion v = n) /\
    Server.violated_criteria r = Z.of_nat (size violated) /\
    Server.compliance_percentage r =
      (if Server.total_required_criteria r >? 0
       then PFloat (Num.round_float
                      (Num.int_truediv
                         (Server.total_required_criteria r -
                          Server.violated_criteria r)
                         (Server.total_required_criteria r) *
                       Num.of_int 100)%float 1)
       else PInt 100) /\
    (Server.compliance_status r = "PASS" <-> Server.violations r = []).
Proof.
  apply (validate_wcag_compliance_level_report three_criteria).
  - exact three_criteria_loaded.
  - vm_compute. tauto.
Defined.

(** ** Parsing of hex colours *)

Definition all_ascii : list ascii := map ascii_of_nat (seq 0 256).

Lemma all_ascii_complete (c : ascii) : In c all_ascii.
Proof.
  rewrite <- (ascii_nat_embedding c). apply in_map, in_seq.
  pose proof (nat_ascii_bounded c). lia.
Qed.

Lemma forall_ascii (P : ascii -> bool) :
  forallb P all_ascii = true -> forall c, P c = true.
Proof.
  intros H c. rewrite forallb_forall in H. apply H, all_ascii_complete.
Qed.

Definition is_hex_digit (c : ascii) : bool :=
  Py.between 48 57 c || Py.between 97 102 c || Py.between 65 70 c.

Definition hex_value (c : ascii) : Z := default 0 (Py.digit_value c).

Definition is_sign (c : ascii) : bool := (Py.code c =? 43) || (Py.code c =? 45).

(** The two-character texts [int(_, 16)] reads: two hex digits, or one hex
    digit with white space before or after it, or with a sign before it. *)
Definition pair_ok (a b : ascii) : bool :=
  (is_hex_digit a && is_hex_digit b) ||
  (Py.int_space a && is_hex_digit b) ||
  (is_hex_digit a && Py.int_space b) ||
  (is_sign a && is_hex_digit b).

Definition pair_value (a b : ascii) : Z :=
  if is_hex_digit a && is_hex_digit b then 16 * hex_value a + hex_value b
  else if is_hex_digit b
       then if Py.code a =? 45 then - hex_value b else hex_value b
       else hex_value a.

Definition result_Z_eqb (r1 r2 : result Z) : bool :=
  match r1, r2 with
  | Ok v1, Ok v2 => v1 =? v2
  | Raise ValueError, Raise ValueError => true
  | _, _ => false
  end.

Lemma result_Z_eqb_eq (r1 r2 : result Z) :
  result_Z_eqb r1 r2 = true -> r1 = r2.
Proof.
  destruct r1 as [v1 | []], r2 as [v2 | []]; simpl; try discriminate;
    try reflexivity.
  intros H. apply Z.eqb_eq in H. now subst.
Qed.

Lemma int16_empty : Py.int 16 "" = Raise ValueError.
Proof. reflexivity. Qed.

Lemma int16_single (a : ascii) :
  Py.int 16 (String a "") =
  if is_hex_digit a then Ok (hex_value a) else Raise ValueError.
Proof.
  apply result_Z_eqb_eq. revert a. apply forall_ascii.
  vm_compute. reflexivity.
Qed.

Lemma int16_pair (a b : ascii) :
  Py.int 16 (String a (String b "")) =
  if pair_ok a b then Ok (pair_value a b) else Raise ValueError.
Proof.
  apply result_Z_eqb_eq. revert b. apply forall_ascii. revert a.
  apply (forall_ascii (fun a => forallb (fun b =>
    result_Z_eqb (Py.int 16 (String a (String b "")))
      (if pair_ok a b then Ok (pair_value a b) else Raise ValueError))
    all_ascii)).
  vm_compute. reflexivity.
Qed.

(** [int] raises nothing but [ValueError]. *)
Lemma int_raises_ValueError (base : Z) (s : string) (e : exn) :
  Py.int base s = Raise e -> e = ValueError.
Proof.
  unfold Py.int. repeat case_match; intros Hr; inversion Hr; reflexivity.
Qed.

Lemma hex_to_rgb_raises_ValueError (s : string) (e : exn) :
  Contrast.hex_to_rgb s = Raise e -> e = ValueError.
Proof.
  unfold Contrast.hex_to_rgb.
  destruct (Py.int 16 (Py.slice 0 2 _)) eqn:H1; cbn [rbind];
    [| intros H; inversion H; subst; eapply int_raises_ValueError, H1].
  destruct (Py.int 16 (Py.slice 2 4 _)) eqn:H2; cbn [rbind];
    [| intros H; inversion H; subst; eapply int_raises_ValueError, H2].
  destruct (Py.int 16 (Py.slice 4 6 _)) eqn:H3; cbn [rbind];
    [discriminate |].
  intros H; inversion H; subst; eapply int_raises_ValueError, H3.
Qed.

(** The text [hex_to_rgb] cuts into three. *)
Definition stripped (s : string) : string := Py.lstrip_char "#" s.

(** The stripped texts [hex_to_rgb] reads, and what it reads from them: the
    three cuts are the first three pairs of characters, the last cut being
    one character when there are five in all. *)
Definition accepts (t : string) : bool :=
  match t with
  | String c0 (String c1 (String c2 (String c3 (String c4 r)))) =>
      pair_ok c0 c1 && pair_ok c2 c3 &&
      match r with
      | EmptyString => is_hex_digit c4
      | String c5 _ => pair_ok c4 c5
      end
  | _ => false
  end.

Definition rgb_of (t : string) : Z * Z * Z :=
  match t with
  | String c0 (String c1 (String c2 (String c3 (String c4 r)))) =>
      (pair_value c0 c1, pair_value c2 c3,
       match r with
       | EmptyString => hex_value c4
       | String c5 _ => pair_value c4 c5
       end)
  | _ => (0, 0, 0)
  end.

Lemma substring_0_0 (r : string) : String.substring 0 0 r = "".
Proof. destruct r; reflexivity. Qed.

Lemma hex_to_rgb_exact (s : string) :
  Contrast.hex_to_rgb s =
  if accepts (stripped s) then Ok (rgb_of (stripped s)) else Raise ValueError.
Proof.
  unfold Contrast.hex_to_rgb. fold (stripped s).
  destruct (stripped s) as [|c0 [|c1 [|c2 [|c3 [|c4 [|c5 r]]]]]];
    cbn [Py.slice String.substring Nat.sub accepts rgb_of];
    rewrite ?substring_0_0, ?int16_pair, ?int16_single, ?int16_empty;
    repeat match goal with
           | |- context [pair_ok ?a ?b] => destruct (pair_ok a b)
           | |- context [is_hex_digit ?a] => destruct (is_hex_digit a)
           end;
    reflexivity.
Qed.

Lemma first_six_accepts (t : string) :
  accepts (Py.slice 0 6 t) = accepts t /\ rgb_of (Py.slice 0 6 t) = rgb_of t.
Proof.
  destruct t as [|c0 [|c1 [|c2 [|c3 [|c4 [|c5 r]]]]]];
    cbn [Py.slice String.substring Nat.sub]; rewrite ?substring_0_0;
    split; reflexivity.
Qed.

Definition chars (s : string) : list ascii := list_ascii_of_string s.

(** A well-formed colour: six hex digits after the leading [#]s. *)
Definition is_hex_color (s : string) : bool :=
  (String.length (stripped s) =? 6)%nat &&
  forallb is_hex_digit (chars (stripped s)).

(** Six hex digits or more after the leading [#]s. *)
Definition has_hex_prefix (s : string) : bool :=
  (6 <=? String.length (stripped s))%nat &&
  forallb is_hex_digit (chars (Py.slice 0 6 (stripped s))).

Definition readable (c : ascii) : bool :=
  is_hex_digit c || Py.int_space c || is_sign c.

(** Fewer than five characters after the leading [#]s, or among the first
    six a character that is neither a hex digit, nor white space, nor a
    sign. *)
Definition unreadable (s : string) : bool :=
  (String.length (stripped s) <? 5)%nat ||
  negb (forallb readable (chars (Py.slice 0 6 (stripped s)))).

Lemma pair_ok_readable (a b : ascii) :
  pair_ok a b = true -> readable a = true /\ readable b = true.
Proof.
  unfold pair_ok, readable.
  destruct (is_hex_digit a), (is_hex_digit b), (Py.int_space a),
    (Py.int_space b), (is_sign a), (is_sign b); simpl; intros H;
    split; congruence.
Qed.

Lemma pair_ok_hex (a b : ascii) :
  is_hex_digit a = true -> is_hex_digit b = true ->
  pair_ok a b = true /\ pair_value a b = 16 * hex_value a + hex_value b.
Proof.
  intros Ha Hb. unfold pair_ok, pair_value. now rewrite Ha, Hb.
Qed.

Lemma unreadable_rejected (s : string) :
  unreadable s = true -> accepts (stripped s) = false.
Proof.
  unfold unreadable.
  destruct (stripped s) as [|c0 [|c1 [|c2 [|c3 [|c4 [|c5 r]]]]]];
    try reflexivity; intros H;
    cbn [Py.slice String.substring Nat.sub chars list_ascii_of_string
         forallb String.length Nat.ltb Nat.leb orb] in H;
    rewrite ?substring_0_0 in H; cbn [list_ascii_of_string forallb] in H;
    cbn [accepts];
    destruct (pair_ok c0 c1) eqn:H01; try reflexivity;
    destruct (pair_ok c2 c3) eqn:H23; try reflexivity;
    apply pair_ok_readable in H01 as [R0 R1];
    apply pair_ok_readable in H23 as [R2 R3].
  - destruct (is_hex_digit c4) eqn:H4; [| reflexivity].
    assert (R4 : readable c4 = true) by (unfold readable; now rewrite H4).
    rewrite R0, R1, R2, R3, R4 in H. discriminate.
  - destruct (pair_ok c4 c5) eqn:H45; [| reflexivity].
    apply pair_ok_readable in H45 as [R4 R5].
    rewrite R0, R1, R2, R3, R4, R5 in H. discriminate.
Qed.

Lemma has_hex_prefix_accepted (s : string) :
  has_hex_prefix s = true -> accepts (stripped s) = true.
Proof.
  unfold has_hex_prefix.
  destruct (stripped s) as [|c0 [|c1 [|c2 [|c3 [|c4 [|c5 r]]]]]];
    try discriminate; intros H; simpl in H.
  repeat match goal with
         | H : _ && _ = true |- _ => apply andb_true_iff in H as [? ?]
         end.
  cbn [accepts].
  rewrite (proj1 (pair_ok_hex c0 c1 ltac:(assumption) ltac:(assumption))).
  rewrite (proj1 (pair_ok_hex c2 c3 ltac:(assumption) ltac:(assumption))).
  rewrite (proj1 (pair_ok_hex c4 c5 ltac:(assumption) ltac:(assumption))).
  reflexivity.
Qed.

Lemma is_hex_color_prefix (s : string) :
  is_hex_color s = true -> has_hex_prefix s = true.
Proof.
  unfold is_hex_color, has_hex_prefix.
  destruct (stripped s) as [|c0 [|c1 [|c2 [|c3 [|c4 [|c5 [|c6 r]]]]]]];
    try discriminate; intros H; exact H.
Qed.

(** The three channels read from six hex digits. *)
Definition channels (t : string) : Z * Z * Z :=
  match chars t with
  | [c0; c1; c2; c3; c4; c5] =>
      (16 * hex_value c0 + hex_value c1,
       16 * hex_value c2 + hex_value c3,
       16 * hex_value c4 + hex_value c5)
  | _ => (0, 0, 0)
  end.

Lemma has_hex_prefix_channels (s : string) :
  has_hex_prefix s = true ->
  Contrast.hex_to_rgb s = Ok (channels (Py.slice 0 6 (stripped s))).
Proof.
  intros Hs. rewrite hex_to_rgb_exact, (has_hex_prefix_accepted s Hs).
  f_equal. unfold has_hex_prefix in Hs.
  destruct (stripped s) as [|c0 [|c1 [|c2 [|c3 [|c4 [|c5 r]]]]]];
    try discriminate.
  cbn [Py.slice String.substring Nat.sub chars list_ascii_of_string
       forallb String.length Nat.leb] in Hs.
  rewrite substring_0_0 in Hs. cbn [list_ascii_of_string forallb] in Hs.
  repeat match goal with
         | H : _ && _ = true |- _ => apply andb_true_iff in H as [? ?]
         end.
  cbn [Py.slice String.substring Nat.sub rgb_of].
  rewrite substring_0_0. unfold channels. cbn [chars list_ascii_of_string].
  rewrite (proj2 (pair_ok_hex c0 c1 ltac:(assumption) ltac:(assumption))).
  rewrite (proj2 (pair_ok_hex c2 c3 ltac:(assumption) ltac:(assumption))).
  rewrite (proj2 (pair_ok_hex c4 c5 ltac:(assumption) ltac:(assumption))).
  reflexivity.
Qed.

Lemma is_hex_color_channels (s : string) :
  is_hex_color s = true ->
  Contrast.hex_to_rgb s = Ok (channels (stripped s)).
Proof.
  intros Hs. rewrite (has_hex_prefix_channels s (is_hex_color_prefix s Hs)).
  unfold is_hex_color in Hs.
  destruct (stripped s) as [|c0 [|c1 [|c2 [|c3 [|c4 [|c5 [|c6 r]]]]]]];
    try discriminate; reflexivity.
Qed.

(** ** Binary64 numbers that are not below zero *)

(** The specification of the primitive floats is used directly: sums and
    products of numbers that are not below zero are not below zero, and a
    sum with 0.05 is then not zero. *)

Definition nonneg (x : spec_float) : Prop :=
  match x with
  | S754_zero _ | S754_infinity false | S754_finite false _ _ => True
  | _ => False
  end.

Definition positive_float (x : spec_float) : Prop :=
  match x with
  | S754_infinity false | S754_finite false _ _ => True
  | _ => False
  end.

Lemma leb_zero_nonneg (x : float) :
  (0 <=? x)%float = true <-> nonneg (Prim2SF x).
Proof.
  rewrite FloatAxioms.leb_spec.
  change (Prim2SF 0) with (S754_zero false).
  destruct (Prim2SF x) as [[] | [] | | [] m e]; simpl; split;
    intros H; try discriminate; try reflexivity; try exact I; destruct H.
Qed.

Lemma shr_1_nonneg (mrs : shr_record) :
  0 <= shr_m mrs -> 0 <= shr_m (shr_1 mrs).
Proof.
  destruct mrs as [[|[p|p|]|p] r s]; simpl; lia.
Qed.

Lemma iter_shr_1_nonneg (p : positive) :
  forall mrs, 0 <= shr_m mrs -> 0 <= shr_m (SpecFloat.iter_pos shr_1 p mrs).
Proof.
  induction p as [p IH | p IH |]; intros mrs H; simpl.
  - apply IH, IH, shr_1_nonneg, H.
  - apply IH, IH, H.
  - apply shr_1_nonneg, H.
Qed.

Lemma shr_record_of_loc_m (m : Z) (l : location) :
  shr_m (shr_record_of_loc m l) = m.
Proof. destruct l as [|[]]; reflexivity. Qed.

Lemma shr_fexp_nonneg (m e : Z) (l : location) :
  0 <= m -> 0 <= shr_m (fst (shr_fexp prec emax m e l)).
Proof.
  intros H. unfold shr_fexp, shr.
  destruct (fexp prec emax (Zdigits2 m + e) - e) as [|p|p]; simpl;
    rewrite ?shr_record_of_loc_m; try assumption.
  apply iter_shr_1_nonneg. now rewrite shr_record_of_loc_m.
Qed.

Lemma round_nearest_even_nonneg (m : Z) (l : location) :
  0 <= m -> 0 <= round_nearest_even m l.
Proof.
  intros H. destruct l as [|[]]; simpl; try lia.
  destruct (Z.even m); lia.
Qed.

Lemma binary_round_aux_nonneg (m e : Z) (l : location) :
  0 <= m -> nonneg (binary_round_aux prec emax false m e l).
Proof.
  intros H. unfold binary_round_aux.
  pose proof (shr_fexp_nonneg m e l H) as H1.
  destruct (shr_fexp prec emax m e l) as [mrs' e']. simpl in H1.
  pose proof (shr_fexp_nonneg _ e' loc_Exact
                (round_nearest_even_nonneg _ (loc_of_shr_record mrs') H1)) as H2.
  destruct (shr_fexp prec emax _ e' loc_Exact) as [mrs'' e'']. simpl in H2.
  destruct (shr_m mrs'') as [|p|p]; simpl; try exact I; [| lia].
  destruct (e'' <=? emax - prec); exact I.
Qed.

Lemma SFmul_nonneg (x y : spec_float) (m : positive) (e : Z) :
  x = S754_finite false m e -> nonneg y -> nonneg (SFmul prec emax x y).
Proof.
  intros -> Hy. destruct y as [[] | [] | | [] my ey]; simpl in *;
    try exact I; try destruct Hy.
  apply binary_round_aux_nonneg. lia.
Qed.

Lemma SFadd_nonneg (x y : spec_float) :
  nonneg x -> nonneg y -> nonneg (SFadd prec emax x y).
Proof.
  intros Hx Hy.
  destruct x as [[] | [] | | [] mx ex], y as [[] | [] | | [] my ey];
    simpl in *; try exact I; try destruct Hx; try destruct Hy.
  unfold binary_normalize, binary_round.
  destruct (shl_align _ _ _) as [mz ez].
  apply binary_round_aux_nonneg. lia.
Qed.

Lemma shr_1_m (mrs : shr_record) :
  0 <= shr_m mrs -> shr_m (shr_1 mrs) = shr_m mrs / 2.
Proof.
  destruct mrs as [[|[p|p|]|p] r s]; cbn [shr_m shr_1]; intros H;
    try lia; rewrite <- Z.div2_div; reflexivity.
Qed.

Lemma iter_shr_1_m (p : positive) :
  forall mrs, 0 <= shr_m mrs ->
    shr_m (SpecFloat.iter_pos shr_1 p mrs) = shr_m mrs / 2 ^ Zpos p.
Proof.
  induction p as [p IH | p IH |]; intros mrs H; simpl SpecFloat.iter_pos.
  - rewrite IH by now apply iter_shr_1_nonneg, shr_1_nonneg.
    rewrite IH by now apply shr_1_nonneg.
    rewrite shr_1_m by assumption.
    rewrite !Z.div_div by lia.
    replace (2 ^ Z.pos p~1) with (2 * (2 ^ Z.pos p * 2 ^ Z.pos p));
      [reflexivity |].
    replace (Z.pos p~1) with (1 + (Z.pos p + Z.pos p)) by lia.
    rewrite !Z.pow_add_r by lia. reflexivity.
  - rewrite IH by now apply iter_shr_1_nonneg.
    rewrite IH by assumption.
    rewrite Z.div_div by lia.
    replace (2 ^ Z.pos p~0) with (2 ^ Z.pos p * 2 ^ Z.pos p);
      [reflexivity |].
    replace (Z.pos p~0) with (Z.pos p + Z.pos p) by lia.
    rewrite Z.pow_add_r by lia. reflexivity.
  - now apply shr_1_m.
Qed.

Lemma digits2_pos_lower (m : positive) :
  2 ^ (Zpos (digits2_pos m) - 1) <= Zpos m.
Proof.
  induction m as [m IH | m IH |]; simpl digits2_pos;
    rewrite ?Pos2Z.inj_succ; [| | simpl; lia];
    replace (Z.succ (Z.pos (digits2_pos m)) - 1)
      with (1 + (Z.pos (digits2_pos m) - 1)) by lia;
    rewrite Z.pow_add_r by lia; change (2 ^ 1) with 2; lia.
Qed.

Definition emin64 : Z := SpecFloat.emin prec emax.

Lemma fexp_bounds (x : Z) :
  emin64 <= fexp prec emax x /\ (emin64 < x -> fexp prec emax x < x).
Proof.
  unfold fexp, emin64, SpecFloat.emin, prec, emax. lia.
Qed.

Lemma shr_fexp_positive (m : positive) (e : Z) (l : location) :
  emin64 < Zpos (digits2_pos m) + e ->
  (exists m', shr_m (fst (shr_fexp prec emax (Zpos m) e l)) = Zpos m') /\
  emin64 <= snd (shr_fexp prec emax (Zpos m) e l).
Proof.
  intros HE. unfold shr_fexp, shr. cbn [Zdigits2].
  destruct (fexp_bounds (Zpos (digits2_pos m) + e)) as [Hlo Hhi].
  specialize (Hhi HE).
  destruct (fexp prec emax (Zpos (digits2_pos m) + e) - e) as [|p|p] eqn:Hn;
    cbn [fst snd].
  - rewrite shr_record_of_loc_m. split; [eauto | lia].
  - rewrite iter_shr_1_m by (rewrite shr_record_of_loc_m; lia).
    rewrite shr_record_of_loc_m. split; [| lia].
    assert (Hpow : 2 ^ Zpos p <= Zpos m).
    { etransitivity; [| apply digits2_pos_lower].
      apply Z.pow_le_mono_r; lia. }
    assert (Hq : 0 < Zpos m / 2 ^ Zpos p).
    { apply Z.div_str_pos. split; [apply Z.pow_pos_nonneg; lia | exact Hpow]. }
    destruct (Zpos m / 2 ^ Zpos p) as [|q|q]; try lia. eauto.
  - rewrite shr_record_of_loc_m. split; [eauto | lia].
Qed.

Lemma round_nearest_even_positive (m : positive) (l : location) :
  exists m', round_nearest_even (Zpos m) l = Zpos m'.
Proof.
  destruct l as [|[]]; cbn [round_nearest_even]; eauto.
  destruct (Z.even (Zpos m)); cbn [Z.add]; eauto.
Qed.

Lemma binary_round_aux_positive (m : positive) (e : Z) (l : location) :
  emin64 < Zpos (digits2_pos m) + e ->
  positive_float (binary_round_aux prec emax false (Zpos m) e l).
Proof.
  intros HE. unfold binary_round_aux.
  destruct (shr_fexp_positive m e l HE) as [[m1 Hm1] He1].
  destruct (shr_fexp prec emax (Zpos m) e l) as [mrs' e'].
  cbn [fst snd] in Hm1, He1. rewrite Hm1.
  destruct (round_nearest_even_positive m1 (loc_of_shr_record mrs'))
    as [m2 ->].
  destruct (shr_fexp_positive m2 e' loc_Exact) as [[m3 Hm3] _]; [lia |].
  destruct (shr_fexp prec emax (Zpos m2) e' loc_Exact) as [mrs'' e''].
  cbn [fst] in Hm3. rewrite Hm3.
  destruct (e'' <=? emax - prec); exact I.
Qed.

Lemma binary_round_positive (m : positive) (e : Z) :
  emin64 <= e -> positive_float (binary_round prec emax false m e).
Proof.
  intros He. unfold binary_round, shl_align.
  destruct (fexp_bounds (Zpos (digits2_pos m) + e)) as [Hlo _].
  destruct (fexp prec emax (Zpos (digits2_pos m) + e) - e) as [|d|d] eqn:Hd;
    apply binary_round_aux_positive; lia.
Qed.

Lemma valid_exponent (x : float) (s : bool) (m : positive) (e : Z) :
  Prim2SF x = S754_finite s m e -> emin64 <= e.
Proof.
  intros H. pose proof (Prim2SF_valid x) as Hv. rewrite H in Hv.
  unfold valid_binary, bounded, canonical_mantissa in Hv.
  apply andb_true_iff in Hv as [Hc _]. apply Z.eqb_eq in Hc.
  rewrite <- Hc. apply fexp_bounds.
Qed.

(** Adding 0.05 to a number that is not below zero never gives zero. *)
Lemma add_nonzero (x : float) :
  (0 <=? x)%float = true -> ((x + 0.05) =? 0)%float = false.
Proof.
  intros Hx. apply leb_zero_nonneg in Hx.
  rewrite FloatAxioms.eqb_spec, FloatAxioms.add_spec.
  change (Prim2SF 0) with (S754_zero false).
  change (Prim2SF 0.05) with (S754_finite false 7205759403792794 (-57)).
  destruct (Prim2SF x) as [s | [] | | [] m e] eqn:Hp; try destruct Hx;
    try reflexivity.
  assert (Hpos : positive_float
            (SF64add (S754_finite false m e)
               (S754_finite false 7205759403792794 (-57)))).
  { unfold SF64add, SFadd, binary_normalize. cbn [cond_Zopp Z.add].
    apply binary_round_positive.
    pose proof (valid_exponent x false m e Hp).
    unfold emin64, SpecFloat.emin, prec, emax in *. lia. }
  destruct (SF64add _ _) as [? | [] | | [] ? ?]; try destruct Hpos;
    reflexivity.
Qed.

Lemma nonneg_not_nan (x : float) :
  (0 <=? x)%float = true -> PrimFloat.is_nan x = false.
Proof.
  intros Hx. apply leb_zero_nonneg in Hx.
  unfold PrimFloat.is_nan. rewrite FloatAxioms.eqb_spec.
  destruct (Prim2SF x) as [s | [] | | [] m e]; try destruct Hx;
    try reflexivity.
  unfold SFeqb, SFcompare.
  rewrite Z.compare_refl.
  change (Pos.compare_cont Eq m m) with (Pos.compare m m).
  now rewrite Pos.compare_refl.
Qed.

(** ** The luminance *)

(** What is asked of the C library's [pow]: raised to the power 2.4, a number
    that is not below zero gives a number that is not below zero. *)
Definition pow_nonneg (pow : float -> float -> float) : Prop :=
  forall x, (0 <=? x)%float = true -> (0 <=? pow x 2.4)%float = true.

Definition in_range (rgb : Z * Z * Z) : Prop :=
  let '(r, g, b) := rgb in
  (0 <= r <= 255) /\ (0 <= g <= 255) /\ (0 <= b <= 255).

(** On a channel from 0 to 255, the linear branch gives a number that is not
    below zero, and the other branch calls [pow] on such a number. *)
Definition linearize_branches (c : Z) : bool :=
  let x := (Num.of_int c / 255)%float in
  if (x <=? 0.03928)%float then (0 <=? x / 12.92)%float
  else (0 <=? (x + 0.055) / 1.055)%float.

Lemma linearize_branches_ok (c : Z) :
  0 <= c <= 255 -> linearize_branches c = true.
Proof.
  intros Hc.
  assert (H : forallb linearize_branches (map Z.of_nat (seq 0 256)) = true)
    by (vm_compute; reflexivity).
  rewrite forallb_forall in H. apply H.
  apply in_map_iff. exists (Z.to_nat c). split; [lia |].
  apply in_seq. lia.
Qed.

Lemma linearize_nonneg (pow : float -> float -> float) (c : Z) :
  pow_nonneg pow -> 0 <= c <= 255 ->
  (0 <=? Contrast.linearize pow c)%float = true.
Proof.
  intros Hpow Hc. pose proof (linearize_branches_ok c Hc) as H.
  unfold linearize_branches in H. unfold Contrast.linearize.
  destruct (_ <=? 0.03928)%float; [exact H | now apply Hpow].
Qed.

Lemma mul_nonneg (k x : float) (m : positive) (e : Z) :
  Prim2SF k = S754_finite false m e ->
  (0 <=? x)%float = true -> (0 <=? k * x)%float = true.
Proof.
  intros Hk Hx. apply leb_zero_nonneg. rewrite FloatAxioms.mul_spec.
  eapply SFmul_nonneg; [exact Hk | now apply leb_zero_nonneg].
Qed.

Lemma add_nonneg (x y : float) :
  (0 <=? x)%float = true -> (0 <=? y)%float = true ->
  (0 <=? x + y)%float = true.
Proof.
  intros Hx Hy. apply leb_zero_nonneg. rewrite FloatAxioms.add_spec.
  apply SFadd_nonneg; now apply leb_zero_nonneg.
Qed.

Lemma luminance_nonneg (pow : float -> float -> float) (rgb : Z * Z * Z) :
  pow_nonneg pow -> in_range rgb ->
  (0 <=? Contrast.rgb_to_relative_luminance pow rgb)%float = true.
Proof.
  intros Hpow. destruct rgb as [[r g] b]. intros (Hr & Hg & Hb).
  unfold Contrast.rgb_to_relative_luminance.
  repeat apply add_nonneg;
    (eapply mul_nonneg; [vm_compute; reflexivity |]);
    now apply linearize_nonneg.
Qed.

Lemma hex_value_range (c : ascii) :
  is_hex_digit c = true -> 0 <= hex_value c <= 15.
Proof.
  intros Hc.
  pose proof (forall_ascii
    (fun c => implb (is_hex_digit c)
                ((0 <=? hex_value c) && (hex_value c <=? 15)))) as H.
  specialize (H ltac:(vm_compute; reflexivity) c). cbv beta in H.
  rewrite Hc in H. simpl in H. apply andb_true_iff in H as [H1 H2]. lia.
Qed.

Lemma channels_in_range (t : string) :
  forallb is_hex_digit (chars t) = true -> in_range (channels t).
Proof.
  unfold channels.
  destruct (chars t) as [|c0 [|c1 [|c2 [|c3 [|c4 [|c5 [|c6 r]]]]]]];
    intros H; try (simpl; lia).
  cbn [forallb] in H.
  repeat match goal with
         | H : _ && _ = true |- _ => apply andb_true_iff in H as [? ?]
         end.
  repeat match goal with
         | H : is_hex_digit _ = true |- _ => apply hex_value_range in H
         end.
  simpl. lia.
Qed.

(** With such a [pow] the division of [calculate_contrast_ratio] has a
    divisor that is not zero. *)
Lemma ratio_returns (pow : float -> float -> float) (rgb1 rgb2 : Z * Z * Z) :
  pow_nonneg pow -> in_range rgb1 -> in_range rgb2 ->
  exists ratio,
    Contrast.truediv
      (Contrast.max (Contrast.rgb_to_relative_luminance pow rgb1)
         (Contrast.rgb_to_relative_luminance pow rgb2) + 0.05)
      (Contrast.min (Contrast.rgb_to_relative_luminance pow rgb1)
         (Contrast.rgb_to_relative_luminance pow rgb2) + 0.05) = Ok ratio.
Proof.
  intros Hpow H1 H2.
  pose proof (luminance_nonneg pow rgb1 Hpow H1) as Hl1.
  pose proof (luminance_nonneg pow rgb2 Hpow H2) as Hl2.
  unfold Contrast.truediv, Contrast.min.
  destruct (_ <? _)%float; rewrite add_nonzero by assumption; eauto.
Qed.

(** ** Parsing errors of the contrast calculator *)

Lemma evaluate_contrast_foreground_error (pow : float -> float -> float)
    (fg bg : string) (fs : Z) (bold : bool) :
  Contrast.hex_to_rgb fg = Raise ValueError ->
  Contrast.evaluate_contrast pow fg bg fs bold = Raise ValueError.
Proof.
  intros H. unfold Contrast.evaluate_contrast, Contrast.calculate_contrast_ratio.
  now rewrite H.
Qed.

Lemma evaluate_contrast_background_error (pow : float -> float -> float)
    (fg bg : string) (fs : Z) (bold : bool) :
  Contrast.hex_to_rgb bg = Raise ValueError ->
  Contrast.evaluate_contrast pow fg bg fs bold = Raise ValueError.
Proof.
  intros H. unfold Contrast.evaluate_contrast, Contrast.calculate_contrast_ratio.
  destruct (Contrast.hex_to_rgb fg) as [rgb | e] eqn:Hfg; cbn [rbind].
  - now rewrite H.
  - now rewrite (hex_to_rgb_raises_ValueError fg e Hfg).
Qed.

Lemma evaluate_contrast_returns (pow : float -> float -> float)
    (fg bg : string) (fs : Z) (bold : bool) (rgb1 rgb2 : Z * Z * Z) :
  pow_nonneg pow ->
  Contrast.hex_to_rgb fg = Ok rgb1 -> in_range rgb1 ->
  Contrast.hex_to_rgb bg = Ok rgb2 -> in_range rgb2 ->
  exists r, Contrast.evaluate_contrast pow fg bg fs bold = Ok r.
Proof.
  intros Hpow H1 R1 H2 R2.
  unfold Contrast.evaluate_contrast, Contrast.calculate_contrast_ratio.
  rewrite H1, H2. cbn [rbind].
  destruct (ratio_returns pow rgb1 rgb2 Hpow R1 R2) as [ratio ->].
  cbn [rbind]. eexists. reflexivity.
Qed.

Lemma is_hex_color_digits (s : string) :
  is_hex_color s = true -> forallb is_hex_digit (chars (stripped s)) = true.
Proof. unfold is_hex_color. intros H. now apply andb_true_iff in H. Qed.

Lemma has_hex_prefix_digits (s : string) :
  has_hex_prefix s = true ->
  forallb is_hex_digit (chars (Py.slice 0 6 (stripped s))) = true.
Proof. unfold has_hex_prefix. intros H. now apply andb_true_iff in H. Qed.

(** The reading under which [hex_to_rgb] raises exactly on what is not a
    colour of six hex digits. *)
Definition rejects_malformed (s : string) : Prop :=
  (is_hex_color s = false -> Contrast.hex_to_rgb s = Raise ValueError) /\
  (is_hex_color s = true -> exists rgb, Contrast.hex_to_rgb s = Ok rgb).

(** C8, as stated, fails on colours of the wrong length: eight hex digits
    are read as their first six, five hex digits as two pairs and a single
    digit, and [evaluate_contrast] carries on with what was read. *)
Lemma hex_to_rgb_wrong_length :
  is_hex_color "#0A0A0A00" = false /\
  Contrast.hex_to_rgb "#0A0A0A00" = Ok (10, 10, 10) /\
  is_hex_color "12345" = false /\
  Contrast.hex_to_rgb "12345" = Ok (18, 52, 5) /\
  ~ rejects_malformed "#0A0A0A00" /\
  (forall pow, exists r,
     Contrast.evaluate_contrast pow "#0A0A0A00" "#000000" 16 false = Ok r /\
     Contrast.overall_grade r = "FAIL").
Proof.
  repeat split; try (vm_compute; reflexivity).
  - intros [H _]. specialize (H eq_refl). vm_compute in H. discriminate.
  - intros pow. eexists. split; vm_compute; reflexivity.
Qed.

(** C8, amended, on texts of code points 0 to 255: [hex_to_rgb], and
    [evaluate_contrast] through it for either colour, raises a parsing error
    on every input that, after its leading [#]s, has fewer than five
    characters or has among its first six characters one that is neither a
    hex digit, nor white space, nor a sign; on every well-formed colour of
    six hex digits [hex_to_rgb] succeeds, and on two such colours
    [evaluate_contrast] returns its result.  A wrong length is not refused
    as such: with six hex digits or more the characters after the sixth are
    ignored, and five hex digits are read as two pairs and a single
    digit. *)
Theorem hex_to_rgb_parsing (s : string) :
  (unreadable s = true ->
   Contrast.hex_to_rgb s = Raise ValueError /\
   forall pow other fs bold,
     Contrast.evaluate_contrast pow s other fs bold = Raise ValueError /\
     Contrast.evaluate_contrast pow other s fs bold = Raise ValueError) /\
  (is_hex_color s = true ->
   (exists rgb, Contrast.hex_to_rgb s = Ok rgb) /\
   forall pow other fs bold, pow_nonneg pow -> is_hex_color other = true ->
     exists r, Contrast.evaluate_contrast pow s other fs bold = Ok r) /\
  (has_hex_prefix s = true ->
   Contrast.hex_to_rgb s = Ok (channels (Py.slice 0 6 (stripped s)))) /\
  (forall c0 c1 c2 c3 c4,
     stripped s = String c0 (String c1 (String c2 (String c3 (String c4 "")))) ->
     forallb is_hex_digit [c0; c1; c2; c3; c4] = true ->
     Contrast.hex_to_rgb s =
     Ok (16 * hex_value c0 + hex_value c1, 16 * hex_value c2 + hex_value c3,
         hex_value c4)).
Proof.
  split; [| split; [| split]].
  - intros Hs.
    assert (Hraise : Contrast.hex_to_rgb s = Raise ValueError).
    { rewrite hex_to_rgb_exact. now rewrite (unreadable_rejected s Hs). }
    split; [exact Hraise |]. intros pow other fs bold. split.
    + now apply evaluate_contrast_foreground_error.
    + now apply evaluate_contrast_background_error.
  - intros Hs. split; [rewrite (is_hex_color_channels s Hs); eauto |].
    intros pow other fs bold Hpow Ho.
    eapply evaluate_contrast_returns; try eassumption.
    + now apply is_hex_color_channels.
    + now apply channels_in_range, is_hex_color_digits.
    + now apply is_hex_color_channels.
    + now apply channels_in_range, is_hex_color_digits.
  - apply has_hex_prefix_channels.
  - intros c0 c1 c2 c3 c4 Hst Hhex. rewrite hex_to_rgb_exact, Hst.
    cbn [forallb] in Hhex.
    repeat match goal with
           | H : _ && _ = true |- _ => apply andb_true_iff in H as [? ?]
           end.
    cbn [accepts rgb_of].
    destruct (pair_ok_hex c0 c1) as [-> ->]; try assumption.
    destruct (pair_ok_hex c2 c3) as [-> ->]; try assumption.
    match goal with H : is_hex_digit c4 = true |- _ => rewrite H end.
    reflexivity.
Qed.

Lemma hex_to_rgb_parsing_witness :
  Contrast.hex_to_rgb "#12G456" = Raise ValueError /\
  (exists rgb, Contrast.hex_to_rgb "#FAFAFA" = Ok rgb) /\
  Contrast.hex_to_rgb "#0A0A0A00" =
    Ok (channels (Py.slice 0 6 (stripped "#0A0A0A00"))) /\
  Contrast.hex_to_rgb "12345" =
    Ok (16 * hex_value "1" + hex_value "2", 16 * hex_value "3" + hex_value "4",
        hex_value "5").
Proof.
  split; [| split; [| split]].
  - apply (proj1 (hex_to_rgb_parsing "#12G456")). vm_compute. reflexivity.
  - apply (proj1 (proj2 (hex_to_rgb_parsing "#FAFAFA"))).
    vm_compute. reflexivity.
  - apply (proj1 (proj2 (proj2 (hex_to_rgb_parsing "#0A0A0A00")))).
    vm_compute. reflexivity.
  - apply (proj2 (proj2 (proj2 (hex_to_rgb_parsing "12345")))).
    + vm_compute. reflexivity.
    + vm_compute. reflexivity.
Defined.

(** C9: when the text, after its leading [#]s, has six characters or more
    and its first six are hex digits, [hex_to_rgb] succeeds with the three
    channels those six digits spell; any text with the same first six
    characters gives the same result, so what comes after them is dropped
    without complaint, and on two such colours [evaluate_contrast] returns
    its result. *)
Theorem hex_to_rgb_truncates (s : string) :
  has_hex_prefix s = true ->
  Contrast.hex_to_rgb s = Ok (channels (Py.slice 0 6 (stripped s))) /\
  (forall s', Py.slice 0 6 (stripped s') = Py.slice 0 6 (stripped s) ->
     Contrast.hex_to_rgb s' = Contrast.hex_to_rgb s) /\
  (forall pow other fs bold, pow_nonneg pow -> has_hex_prefix other = true ->
     exists r, Contrast.evaluate_contrast pow s other fs bold = Ok r).
Proof.
  intros Hs. split; [| split].
  - now apply has_hex_prefix_channels.
  - intros s' Hs'. rewrite !hex_to_rgb_exact.
    destruct (first_six_accepts (stripped s')) as [<- <-].
    destruct (first_six_accepts (stripped s)) as [<- <-].
    now rewrite Hs'.
  - intros pow other fs bold Hpow Ho.
    eapply evaluate_contrast_returns; try eassumption.
    + now apply has_hex_prefix_channels.
    + now apply channels_in_range, has_hex_prefix_digits.
    + now apply has_hex_prefix_channels.
    + now apply channels_in_range, has_hex_prefix_digits.
Qed.

Lemma hex_to_rgb_truncates_witness :
  Contrast.hex_to_rgb "#FFFFFF00" =
    Ok (channels (Py.slice 0 6 (stripped "#FFFFFF00"))) /\
  (forall s',
     Py.slice 0 6 (stripped s') = Py.slice 0 6 (stripped "#FFFFFF00") ->
     Contrast.hex_to_rgb s' = Contrast.hex_to_rgb "#FFFFFF00") /\
  (forall pow other fs bold, pow_nonneg pow -> has_hex_prefix other = true ->
     exists r,
       Contrast.evaluate_contrast pow "#FFFFFF00" other fs bold = Ok r).
Proof.
  apply (hex_to_rgb_truncates "#FFFFFF00"). vm_compute. reflexivity.
Defined.

Example hex_to_rgb_ffffff00 :
  Contrast.hex_to_rgb "#FFFFFF00" = Ok (255, 255, 255) /\
  Contrast.hex_to_rgb "#FFFFFF" = Ok (255, 255, 255).
Proof. split; reflexivity. Qed.

(** ** Symmetry of the contrast ratio *)

Lemma SFcompare_Lt_Gt (x y : spec_float) :
  SFcompare x y = Some Lt -> SFcompare y x = Some Gt.
Proof.
  destruct x as [sx | sx | | sx mx ex], y as [sy | sy | | sy my ey];
    try destruct sx; try destruct sy; simpl; try discriminate;
    try reflexivity;
    rewrite (Z.compare_antisym ex ey);
    change (Pos.compare_cont Eq my mx) with (Pos.compare my mx);
    change (Pos.compare_cont Eq mx my) with (Pos.compare mx my);
    rewrite (Pos.compare_antisym mx my);
    destruct (ex ?= ey); simpl; try discriminate; try reflexivity;
    destruct (mx ?= my)%positive; simpl; try discriminate; reflexivity.
Qed.

Lemma SFcompare_Gt_Lt (x y : spec_float) :
  SFcompare x y = Some Gt -> SFcompare y x = Some Lt.
Proof.
  destruct x as [sx | sx | | sx mx ex], y as [sy | sy | | sy my ey];
    try destruct sx; try destruct sy; simpl; try discriminate;
    try reflexivity;
    rewrite (Z.compare_antisym ex ey);
    change (Pos.compare_cont Eq my mx) with (Pos.compare my mx);
    change (Pos.compare_cont Eq mx my) with (Pos.compare mx my);
    rewrite (Pos.compare_antisym mx my);
    destruct (ex ?= ey); simpl; try discriminate; try reflexivity;
    destruct (mx ?= my)%positive; simpl; try discriminate; reflexivity.
Qed.

(** Two numbers that compare equal are the same number, or two zeros. *)
Lemma SFcompare_Eq (x y : spec_float) :
  SFcompare x y = Some Eq ->
  x = y \/ exists sx sy, x = S754_zero sx /\ y = S754_zero sy.
Proof.
  destruct x as [sx | sx | | sx mx ex], y as [sy | sy | | sy my ey];
    try destruct sx; try destruct sy; simpl; try discriminate;
    try (left; reflexivity); try (right; eauto; fail);
    change (Pos.compare_cont Eq mx my) with (Pos.compare mx my);
    destruct (ex ?= ey) eqn:He; simpl; try discriminate;
    destruct (mx ?= my)%positive eqn:Hm; simpl; try discriminate;
    intros _; left; apply Z.compare_eq in He; apply Pos.compare_eq in Hm;
    now subst.
Qed.

Lemma SFcompare_None (x y : spec_float) :
  SFcompare x y = None -> x = S754_nan \/ y = S754_nan.
Proof.
  destruct x as [sx | sx | | sx mx ex], y as [sy | sy | | sy my ey];
    try destruct sx; try destruct sy; simpl; try discriminate; auto.
Qed.

Lemma is_nan_false (x : float) :
  PrimFloat.is_nan x = false -> Prim2SF x <> S754_nan.
Proof.
  unfold PrimFloat.is_nan. rewrite FloatAxioms.eqb_spec. intros H Hn.
  rewrite Hn in H. discriminate.
Qed.

Lemma zero_cases (x : float) (s : bool) :
  Prim2SF x = S754_zero s -> x = 0%float \/ x = (-0)%float.
Proof.
  intros H. rewrite <- (SF2Prim_Prim2SF x), H.
  destruct s; [right | left]; reflexivity.
Qed.

(** The quotient does not depend on the order in which [max] and [min] get
    their two arguments, as long as both are numbers. *)
Lemma ratio_symmetric (x y : float) :
  PrimFloat.is_nan x = false -> PrimFloat.is_nan y = false ->
  Contrast.truediv (Contrast.max x y + 0.05) (Contrast.min x y + 0.05) =
  Contrast.truediv (Contrast.max y x + 0.05) (Contrast.min y x + 0.05).
Proof.
  intros Hx Hy. apply is_nan_false in Hx, Hy.
  unfold Contrast.max, Contrast.min. rewrite !FloatAxioms.ltb_spec.
  unfold SFltb.
  destruct (SFcompare (Prim2SF x) (Prim2SF y)) as [[| |]|] eqn:Hxy.
  - destruct (SFcompare_Eq _ _ Hxy) as [Heq | (sx & sy & Hzx & Hzy)].
    + apply Prim2SF_inj in Heq. subst y. rewrite Hxy. reflexivity.
    + rewrite Hzx, Hzy. simpl.
      destruct (zero_cases x sx Hzx) as [-> | ->],
        (zero_cases y sy Hzy) as [-> | ->]; vm_compute; reflexivity.
  - now rewrite (SFcompare_Lt_Gt _ _ Hxy).
  - now rewrite (SFcompare_Gt_Lt _ _ Hxy).
  - destruct (SFcompare_None _ _ Hxy); contradiction.
Qed.

(** C7: for every pair of valid colours of six hex digits,
    [calculate_contrast_ratio] returns the same ratio for the pair and for
    the swapped pair: it is the quotient of the lighter luminance plus 0.05
    by the darker plus 0.05, the lighter and the darker being the [max] and
    the [min] of the two luminances. *)
Theorem calculate_contrast_ratio_symmetric (pow : float -> float -> float)
    (a b : string) :
  pow_nonneg pow -> is_hex_color a = true -> is_hex_color b = true ->
  exists ratio,
    Contrast.calculate_contrast_ratio pow a b = Ok ratio /\
    Contrast.calculate_contrast_ratio pow b a = Ok ratio /\
    ratio =
      ((Contrast.max
          (Contrast.rgb_to_relative_luminance pow (channels (stripped a)))
          (Contrast.rgb_to_relative_luminance pow (channels (stripped b)))
        + 0.05) /
       (Contrast.min
          (Contrast.rgb_to_relative_luminance pow (channels (stripped a)))
          (Contrast.rgb_to_relative_luminance pow (channels (stripped b)))
        + 0.05))%float.
Proof.
  intros Hpow Ha Hb.
  pose proof (channels_in_range _ (is_hex_color_digits a Ha)) as Ra.
  pose proof (channels_in_range _ (is_hex_color_digits b Hb)) as Rb.
  pose proof (luminance_nonneg pow _ Hpow Ra) as La.
  pose proof (luminance_nonneg pow _ Hpow Rb) as Lb.
  destruct (ratio_returns pow _ _ Hpow Ra Rb) as [ratio Hratio].
  exists ratio. unfold Contrast.calculate_contrast_ratio.
  rewrite (is_hex_color_channels a Ha), (is_hex_color_channels b Hb).
  cbn [rbind]. split; [exact Hratio |]. split.
  - rewrite <- (ratio_symmetric _ _ (nonneg_not_nan _ La)
                  (nonneg_not_nan _ Lb)).
    exact Hratio.
  - unfold Contrast.truediv in Hratio.
    destruct (_ =? 0)%float; [discriminate |]. now inversion Hratio.
Qed.

(** With a [pow] that returns NaN the order of the arguments shows: [max]
    and [min] keep their first argument next to a NaN. *)
Example calculate_contrast_ratio_nan_pow :
  Contrast.calculate_contrast_ratio (fun _ _ => nan) "#000000" "#FFFFFF" =
    Ok 1%float /\
  Contrast.calculate_contrast_ratio (fun _ _ => nan) "#FFFFFF" "#000000" =
    Ok nan.
Proof. split; vm_compute; reflexivity. Qed.

Lemma calculate_contrast_ratio_symmetric_witness :
  exists ratio,
    Contrast.calculate_contrast_ratio (fun x _ => x) "#000000" "#0A0A0A"
      = Ok ratio /\
    Contrast.calculate_contrast_ratio (fun x _ => x) "#0A0A0A" "#000000"
      = Ok ratio /\
    ratio =
      ((Contrast.max
          (Contrast.rgb_to_relative_luminance (fun x _ => x)
             (channels (stripped "#000000")))
          (Contrast.rgb_to_relative_luminance (fun x _ => x)
             (channels (stripped "#0A0A0A")))
        + 0.05) /
       (Contrast.min
          (Contrast.rgb_to_relative_luminance (fun x _ => x)
             (channels (stripped "#000000")))
          (Contrast.rgb_to_relative_luminance (fun x _ => x)
             (channels (stripped "#0A0A0A")))
        + 0.05))%float.
Proof.
  apply (calculate_contrast_ratio_symmetric (fun x _ => x)
           "#000000" "#0A0A0A").
  - intros x Hx. exact Hx.
  - vm_compute. reflexivity.
  - vm_compute. reflexivity.
Defined.

(** * The rest of the rule engine *)

(** ** Link text *)



Definition link_click_here : Element :=
  {| tag := Some "a"; attributes := Some ∅; text := Some "  Click HERE " |}.

(** Case and surrounding white space do not hide a generic phrase. *)
Example check_link_text_click_here :
  option_map message (AccessibilityRules.check_link_text link_click_here) =
  Some "Link text 'Click HERE' is not descriptive".
Proof. reflexivity. Qed.

(** ** ARIA roles *)

(** X2: [check_aria_roles] reports [aria-invalid-role] exactly when the
    [role] attribute is there, is not empty, and is not, as written, one of
    the roles of the list; it returns nothing otherwise, so every role of the
    list passes and a missing or empty role passes. *)
Theorem check_aria_roles_iff (e : Element) :
  ((exists i, AccessibilityRules.check_aria_roles e = Some i /\
              rule_id i = "aria-invalid-role" /\
              severity i = Severity.ERROR) <->
   (exists r, attr e "role" = Some r /\ r <> "" /\
              ~ In r AccessibilityRules.valid_roles)) /\
  (~ (exists r, attr e "role" = Some r /\ r <> "" /\
                ~ In r AccessibilityRules.valid_roles) ->
   AccessibilityRules.check_aria_roles e = None).
Proof.
  unfold AccessibilityRules.check_aria_roles.
  destruct (attr e "role") as [r|] eqn:Hr; cbn [Py.truthy Py.omem].
  - destruct r as [|c r'].
    + split; [split |]; try reflexivity.
      * intros (i & Hi & _). discriminate.
      * intros (r & Hr' & Hne & _). inversion Hr'. congruence.
    + destruct (Py.mem (String c r') AccessibilityRules.valid_roles) eqn:Hm;
        cbn [negb].
      * apply mem_In in Hm. split; [split |]; try reflexivity.
        -- intros (i & Hi & _). discriminate.
        -- intros (r & Hr' & _ & Hn). inversion Hr'; subst. contradiction.
      * apply mem_not_In in Hm. split; [split |].
        -- intros _. exists (String c r'). repeat split; [discriminate | exact Hm].
        -- intros _. eexists. repeat split.
        -- intros Hn. exfalso. apply Hn. exists (String c r').
           repeat split; [discriminate | exact Hm].
  - split; [split |]; try reflexivity.
    + intros (i & Hi & _). discriminate.
    + intros (r & Hr' & _). discriminate.
Qed.

(** The comparison is with the role as written: another case does not
    match. *)
Example check_aria_roles_case :
  option_map rule_id
    (AccessibilityRules.check_aria_roles
       {| tag := Some "div"; attributes := Some {[ "role" := "Button" ]};
          text := Some "" |}) = Some "aria-invalid-role".
Proof. reflexivity. Qed.

(** ** Keyboard access *)

Definition native_interactive : list string :=
  ["a"; "button"; "input"; "select"; "textarea"].

(** X3: [check_keyboard_accessibility] reports [keyboard-no-access] exactly
    when the element has a non-empty [onclick], its tag is none of [a],
    [button], [input], [select], [textarea], its role is neither [button]
    nor [link], and it has no [tabindex] attribute at all; a [tabindex]
    given with any value, the empty one included, silences it. *)
Theorem check_keyboard_accessibility_iff (e : Element) :
  ((exists i, AccessibilityRules.check_keyboard_accessibility e = Some i /\
              rule_id i = "keyboard-no-access" /\
              severity i = Severity.ERROR) <->
   ((exists h, attr e "onclick" = Some h /\ h <> "") /\
    (forall t, tag e = Some t -> ~ In t native_interactive) /\
    attr e "role" <> Some "button" /\ attr e "role" <> Some "link" /\
    attr e "tabindex" = None)) /\
  (AccessibilityRules.check_keyboard_accessibility e = None \/
   exists i, AccessibilityRules.check_keyboard_accessibility e = Some i /\
             rule_id i = "keyboard-no-access").
Proof.
  unfold AccessibilityRules.check_keyboard_accessibility.
  fold native_interactive.
  assert (Htag : Py.omem (tag e) native_interactive = false <->
                 forall t, tag e = Some t -> ~ In t native_interactive).
  { destruct (tag e) as [t|]; cbn [Py.omem].
    - rewrite mem_not_In.
      split; [intros H t' Ht'; inversion Ht'; subst; exact H | auto].
    - split; [intros _ t Ht; discriminate | reflexivity]. }
  assert (Hrole : Py.omem (attr e "role") ["button"; "link"] = false <->
                  attr e "role" <> Some "button" /\
                  attr e "role" <> Some "link").
  { destruct (attr e "role") as [r|]; cbn [Py.omem].
    - rewrite mem_not_In. simpl. split.
      + intros H. split; intros Heq; inversion Heq; subst; tauto.
      + intros [H1 H2] [<- | [<- | []]]; congruence.
    - split; [intros _; split; discriminate | reflexivity]. }
  destruct (Py.truthy (attr e "onclick")) eqn:Hc; cbn [andb].
  - apply truthy_true in Hc.
    destruct (Py.omem (tag e) native_interactive) eqn:Ht; cbn [negb andb].
    + split; [| now left]. split; [intros (i & Hi & _); discriminate |].
      intros (_ & Hn & _). pose proof (proj2 Htag Hn). discriminate.
    + destruct (Py.omem (attr e "role") ["button"; "link"]) eqn:Hr;
        cbn [negb andb].
      * split; [| now left]. split; [intros (i & Hi & _); discriminate |].
        intros (_ & _ & H1 & H2 & _).
        pose proof (proj2 Hrole (conj H1 H2)). discriminate.
      * destruct (attr e "tabindex") as [ti|] eqn:Hti.
        -- split; [| now left].
           split; [intros (i & Hi & _); discriminate |].
           intros (_ & _ & _ & _ & H). discriminate.
        -- split; [| right; eexists; split; reflexivity].
           split; [| intros _; eexists; repeat split].
           intros _. pose proof (proj1 Htag eq_refl).
           pose proof (proj1 Hrole eq_refl). tauto.
  - split; [| now left]. split; [intros (i & Hi & _); discriminate |].
    intros ((h & Hh & Hne) & _). apply truthy_false in Hc.
    destruct Hc as [Hc | Hc]; rewrite Hc in Hh; inversion Hh; congruence.
Qed.

(** * The catalog after loading *)

Definition catalog_levels : list string := ["A"; "AA"; "AAA"].

(** The per-level index keeps the three keys [__init__] gave it. *)
Definition three_levels (self : WCAGDataLoader) : Prop :=
  forall lv, is_Some (_criteria_by_level self !! lv) <-> In lv catalog_levels.

Lemma init_three_levels : three_levels WCAGData.init.
Proof.
  intros lv. unfold WCAGData.init, catalog_levels. cbn [_criteria_by_level].
  split.
  - intros [l Hl].
    destruct (decide (lv = "A")) as [-> | HA]; [simpl; tauto |].
    destruct (decide (lv = "AA")) as [-> | HAA]; [simpl; tauto |].
    destruct (decide (lv = "AAA")) as [-> | HAAA]; [simpl; tauto |].
    rewrite !lookup_insert_ne in Hl by congruence.
    rewrite lookup_singleton_ne in Hl by congruence. discriminate.
  - intros [<- | [<- | [<- | []]]]; eexists; vm_compute; reflexivity.
Qed.

Lemma process_item_three_levels (self self' : WCAGDataLoader)
    (item : string * CriterionData) :
  three_levels self -> WCAGData.process_item self item = Ok self' ->
  three_levels self'.
Proof.
  intros H3 Hrun lv. unfold WCAGData.process_item in Hrun.
  destruct (_criteria_by_level self !! _) as [l|] eqn:Hl; [| discriminate].
  inversion Hrun; subst. cbn [_criteria_by_level].
  etransitivity; [| apply H3].
  destruct (decide (level (WCAGData.make_criterion item.1 item.2) = lv))
    as [<- | Hne].
  - rewrite lookup_insert_eq, Hl. split; eauto.
  - now rewrite lookup_insert_ne.
Qed.

Lemma process_item_outcome (self : WCAGDataLoader)
    (item : string * CriterionData) :
  three_levels self ->
  (In (data_level item.2) catalog_levels ->
   exists self', WCAGData.process_item self item = Ok self') /\
  (~ In (data_level item.2) catalog_levels ->
   WCAGData.process_item self item = Raise KeyError).
Proof.
  intros H3. unfold WCAGData.process_item.
  change (level (WCAGData.make_criterion item.1 item.2))
    with (data_level item.2).
  destruct (_criteria_by_level self !! data_level item.2) as [l|] eqn:Hl.
  - split; [eauto |]. intros Hn. exfalso. apply Hn, H3. eauto.
  - split; [| reflexivity]. intros Hin. apply H3 in Hin as [l Hl'].
    congruence.
Qed.

Lemma process_items_outcome (items : list (string * CriterionData)) :
  forall self, three_levels self ->
  (Forall (fun item => In (data_level item.2) catalog_levels) items ->
   exists self', WCAGData.process_items self items = Ok self') /\
  (~ Forall (fun item => In (data_level item.2) catalog_levels) items ->
   WCAGData.process_items self items = Raise KeyError).
Proof.
  induction items as [|item rest IH]; intros self H3;
    cbn [WCAGData.process_items].
  - split; [eauto |]. intros Hn. exfalso. apply Hn. constructor.
  - destruct (process_item_outcome self item H3) as [Hok Hbad].
    destruct (decide (In (data_level item.2) catalog_levels)) as [Hin | Hout].
    + destruct (Hok Hin) as [self1 H1]. rewrite H1. cbn [rbind].
      destruct (IH self1 (process_item_three_levels _ _ _ H3 H1))
        as [IHok IHbad].
      split.
      * intros Hall. apply IHok. now inversion Hall.
      * intros Hn. apply IHbad. intros Hall. apply Hn. now constructor.
    + rewrite (Hbad Hout). cbn [rbind]. split; [| reflexivity].
      intros Hall. inversion Hall; subst. contradiction.
Qed.

Lemma process_items_numbers (items : list (string * CriterionData)) :
  NoDup (items.*1) ->
  forall self self', WCAGData.process_items self items = Ok self' ->
  forall n,
    (forall d, (n, d) ∈ items ->
       _criteria_by_number self' !! n = Some (WCAGData.make_criterion n d)) /\
    (n ∉ items.*1 ->
       _criteria_by_number self' !! n = _criteria_by_number self !! n).
Proof.
  induction items as [|[k dk] rest IH]; intros Hnd self self' Hrun n.
  - inversion Hrun; subst. split; [| reflexivity].
    intros d Hin. now apply elem_of_nil in Hin.
  - rewrite fmap_cons, NoDup_cons in Hnd. destruct Hnd as [Hk Hrest].
    cbn [WCAGData.process_items] in Hrun.
    unfold WCAGData.process_item in Hrun.
    destruct (_criteria_by_level self !! _) as [l|]; [| discriminate].
    cbn [rbind] in Hrun.
    destruct (IH Hrest _ _ Hrun n) as [IHin IHout]. split.
    + intros d Hin. apply elem_of_cons in Hin as [Heq | Hin]; [| auto].
      inversion Heq; subst. rewrite IHout by exact Hk.
      cbn [_criteria_by_number fst snd]. apply lookup_insert_eq.
    + intros Hn. rewrite fmap_cons in Hn. apply not_elem_of_cons in Hn.
      destruct Hn as [Hne Hn]. rewrite (IHout Hn).
      cbn [_criteria_by_number fst]. rewrite lookup_insert_ne; [reflexivity |].
      intros Heq. apply Hne. now subst.
Qed.

Lemma get_criterion_loaded_eq (criteria : gmap string CriterionData)
    (wcag : WCAGDataLoader) (n : string) :
  WCAGData._process_criteria criteria = Ok wcag ->
  WCAGData.get_criterion wcag n =
  WCAGData.make_criterion n <$> criteria !! n.
Proof.
  intros Hrun. unfold WCAGData.get_criterion.
  destruct (process_items_numbers (map_to_list criteria)
              (NoDup_fst_map_to_list criteria) _ _ Hrun n) as [Hin Hout].
  destruct (criteria !! n) as [d|] eqn:Hd; simpl.
  - apply Hin. now apply elem_of_map_to_list.
  - rewrite Hout; [reflexivity |].
    intros Hn. apply list_elem_of_fmap in Hn as ([k d] & -> & Hkd).
    apply elem_of_map_to_list in Hkd. simpl in Hd. congruence.
Qed.

(** X5: once the catalog is loaded, [get_criterion] finds exactly the numbers
    of the data file and returns, for each, the criterion the file
    describes; it returns [None] for any other number. *)
Theorem get_criterion_loaded (criteria : gmap string CriterionData)
    (wcag : WCAGDataLoader) (n : string) :
  WCAGData._process_criteria criteria = Ok wcag ->
  WCAGData.get_criterion wcag n =
  WCAGData.make_criterion n <$> criteria !! n.
Proof.
  intros Hrun. unfold WCAGData.get_criterion.
  destruct (process_items_numbers (map_to_list criteria)
              (NoDup_fst_map_to_list criteria) _ _ Hrun n) as [Hin Hout].
  destruct (criteria !! n) as [d|] eqn:Hd; simpl.
  - apply Hin. now apply elem_of_map_to_list.
  - rewrite Hout; [reflexivity |].
    intros Hn. apply list_elem_of_fmap in Hn as ([k d] & -> & Hkd).
    apply elem_of_map_to_list in Hkd. simpl in Hd. congruence.
Qed.

Lemma get_criterion_loaded_witness :
  WCAGData.get_criterion three_criteria_loader "1.3.1" =
  WCAGData.make_criterion "1.3.1" <$> three_criteria !! "1.3.1".
Proof.
  apply (get_criterion_loaded three_criteria). exact three_criteria_loaded.
Defined.

Lemma get_criteria_by_level_loaded (criteria : gmap string CriterionData)
    (wcag : WCAGDataLoader) (lv : string) :
  WCAGData._process_criteria criteria = Ok wcag ->
  WCAGData.get_criteria_by_level wcag lv =
  if decide (In lv catalog_levels)
  then map item_criterion (filter (at_level lv) (map_to_list criteria))
  else [].
Proof.
  intros Hrun. unfold WCAGData.get_criteria_by_level.
  rewrite (process_items_levels _ _ _ Hrun lv).
  destruct (decide (In lv catalog_levels)) as [Hin | Hout].
  - apply init_three_levels in Hin as [l Hl].
    assert (l = []) as ->.
    { unfold catalog_levels in *.
      destruct (decide (lv = "A")) as [-> | HA];
        [vm_compute in Hl; congruence |].
      destruct (decide (lv = "AA")) as [-> | HAA];
        [vm_compute in Hl; congruence |].
      destruct (decide (lv = "AAA")) as [-> | HAAA];
        [vm_compute in Hl; congruence |].
      unfold WCAGData.init in Hl. cbn [_criteria_by_level] in Hl.
      rewrite !lookup_insert_ne in Hl by congruence.
      rewrite lookup_singleton_ne in Hl by congruence. discriminate. }
    rewrite Hl. reflexivity.
  - destruct (_criteria_by_level WCAGData.init !! lv) as [l|] eqn:Hl;
      [| reflexivity].
    exfalso. apply Hout, init_three_levels. eauto.
Qed.

Lemma get_criteria_by_level_In (criteria : gmap string CriterionData)
    (wcag : WCAGDataLoader) (lv : string) (c : WCAGCriterion) :
  WCAGData._process_criteria criteria = Ok wcag ->
  In c (WCAGData.get_criteria_by_level wcag lv) <->
  In lv catalog_levels /\
  exists n d, criteria !! n = Some d /\ data_level d = lv /\
              c = WCAGData.make_criterion n d.
Proof.
  intros Hrun. rewrite (get_criteria_by_level_loaded _ _ lv Hrun).
  destruct (decide (In lv catalog_levels)) as [Hin | Hout].
  - rewrite in_map_iff. split.
    + intros ([n d] & <- & Hnd). apply list_elem_of_In in Hnd.
      apply list_elem_of_filter in Hnd as [Hlv Hnd].
      apply elem_of_map_to_list in Hnd.
      split; [assumption |]. exists n, d. repeat split; assumption.
    + intros (_ & n & d & Hnd & Hlv & ->). exists (n, d).
      split; [reflexivity |]. apply list_elem_of_In.
      apply list_elem_of_filter. split; [exact Hlv |].
      now apply elem_of_map_to_list.
  - split; [intros [] | tauto].
Qed.

(** * The compliance report and the issue list *)

(** The issue names this success criterion in its [wcag_criteria] field. *)
Definition cites (k : string) (i : AccessibilityIssue) : Prop :=
  wcag_criteria i = Some k.

(** The criteria under which [validate_wcag_compliance_level] files the
    issues of its checkers. *)
Definition filing_criteria : list string :=
  ["1.1.1"; "3.3.2"; "2.4.4"; "3.1.1"; "4.1.2"; "2.1.1"; "1.3.1"].

Lemma img_alt_cites (e : Element) (i : AccessibilityIssue) :
  AccessibilityRules.check_img_alt_text e = Some i -> cites "1.1.1" i.
Proof.
  unfold cites, AccessibilityRules.check_img_alt_text. checker_cases.
Qed.

Lemma form_labels_cites (e : Element) (i : AccessibilityIssue) :
  AccessibilityRules.check_form_labels e = Some i -> cites "3.3.2" i.
Proof.
  unfold cites, AccessibilityRules.check_form_labels. checker_cases.
Qed.

Lemma link_text_cites (e : Element) (i : AccessibilityIssue) :
  AccessibilityRules.check_link_text e = Some i -> cites "2.4.4" i.
Proof. unfold cites, AccessibilityRules.check_link_text. checker_cases. Qed.

Lemma language_cites (e : Element) (i : AccessibilityIssue) :
  AccessibilityRules.check_language_attribute e = Some i -> cites "3.1.1" i.
Proof.
  unfold cites, AccessibilityRules.check_language_attribute. checker_cases.
Qed.

Lemma aria_roles_cites (e : Element) (i : AccessibilityIssue) :
  AccessibilityRules.check_aria_roles e = Some i -> cites "4.1.2" i.
Proof. unfold cites, AccessibilityRules.check_aria_roles. checker_cases. Qed.

Lemma keyboard_cites (e : Element) (i : AccessibilityIssue) :
  AccessibilityRules.check_keyboard_accessibility e = Some i ->
  cites "2.1.1" i.
Proof.
  unfold cites, AccessibilityRules.check_keyboard_accessibility.
  checker_cases.
Qed.

Lemma scan_cites (p : Z) (hs : list Element) :
  Forall (cites "1.3.1") (scan p hs).
Proof.
  revert p. induction hs as [|h rest IH]; intros p; simpl; [constructor |].
  destruct (heading_level h) as [l|]; [| apply IH].
  apply Forall_app. split; [| apply IH].
  destruct (jumps p l); repeat constructor.
Qed.

(** The warning owed to a list of headings that does not open with [h1]. *)
Definition opening (hs : list Element) : list AccessibilityIssue :=
  match hs with
  | [] => []
  | first :: _ =>
      if negb (Py.oeq (tag first) "h1")
      then [AccessibilityRules.heading_no_h1] else []
  end.

Lemma check_heading_hierarchy_scan (hs : list Element) :
  Forall scannable hs ->
  AccessibilityRules.check_heading_hierarchy hs =
  Ok (opening hs ++ scan 0 hs)%list.
Proof.
  intros Hs. destruct hs as [|first rest]; [reflexivity |].
  unfold AccessibilityRules.check_heading_hierarchy, opening.
  destruct (heading_loop_scan (first :: rest) Hs 0
              (if negb (Py.oeq (tag first) "h1")
               then [AccessibilityRules.heading_no_h1] else []))
    as [p' ->].
  reflexivity.
Qed.

Lemma opening_cites (hs : list Element) : Forall (cites "1.3.1") (opening hs).
Proof.
  destruct hs as [|first rest]; [constructor |]. unfold opening.
  destruct (negb _); repeat constructor.
Qed.

(** The issues of a document, before any filtering: those of the six
    element checkers, element by element, then those of the headings. *)
Definition document_issues (soup : list Server.Node)
    : list AccessibilityIssue :=
  let elements := Server.parse_html_to_elements soup in
  (flat_map Server.element_checks elements ++
   match Server.extract_headings elements with
   | Ok hs => opening hs ++ scan 0 hs
   | Raise _ => []
   end)%list.

Lemma parsed_headings (soup : list Server.Node) :
  exists hs,
    Server.extract_headings (Server.parse_html_to_elements soup) = Ok hs /\
    AccessibilityRules.check_heading_hierarchy hs =
      Ok (opening hs ++ scan 0 hs)%list.
Proof.
  destruct (extract_headings_parsed soup) as (hs & Hhs & Htags).
  exists hs. split; [exact Hhs |]. apply check_heading_hierarchy_scan.
  eapply Forall_impl; [exact Htags |]. apply heading_tag_scannable.
Qed.

Lemma collected_issues_document (soup : list Server.Node)
    (include_warnings : bool) :
  Server.collected_issues soup include_warnings =
  Ok (if include_warnings then document_issues soup
      else List.filter (Server.has_severity Severity.ERROR)
             (document_issues soup)).
Proof.
  unfold Server.collected_issues, document_issues.
  destruct (parsed_headings soup) as (hs & Hhs & Hhis).
  rewrite Hhs. cbn [rbind]. rewrite Hhis. cbn [rbind].
  now destruct include_warnings.
Qed.

Lemma element_checks_cite (e : Element) :
  Forall (fun i => exists k, In k filing_criteria /\ cites k i)
    (Server.element_checks e).
Proof.
  unfold Server.element_checks.
  repeat (apply Forall_app; split); apply Forall_option_list; intros i Hi.
  - exists "1.1.1". split; [simpl; tauto | eapply img_alt_cites, Hi].
  - exists "3.3.2". split; [simpl; tauto | eapply form_labels_cites, Hi].
  - exists "2.4.4". split; [simpl; tauto | eapply link_text_cites, Hi].
  - exists "3.1.1". split; [simpl; tauto | eapply language_cites, Hi].
  - exists "4.1.2". split; [simpl; tauto | eapply aria_roles_cites, Hi].
  - exists "2.1.1". split; [simpl; tauto | eapply keyboard_cites, Hi].
Qed.

Lemma document_issues_cite (soup : list Server.Node) :
  Forall (fun i => exists k, In k filing_criteria /\ cites k i)
    (document_issues soup).
Proof.
  unfold document_issues. apply Forall_app. split.
  - apply Forall_flat_map, Forall_forall. intros e _.
    apply element_checks_cite.
  - destruct (Server.extract_headings _) as [hs|]; [| constructor].
    eapply Forall_impl;
      [apply Forall_app; split; [apply opening_cites | apply scan_cites] |].
    intros i Hi. exists "1.3.1". split; [simpl; tauto | exact Hi].
Qed.

(** ** Grouping by criterion *)

(** Every issue of the dictionary sits under the criterion it cites. *)
Definition filed (d : list (string * list AccessibilityIssue)) : Prop :=
  Forall (fun kv => Forall (cites kv.1) kv.2) d.

Lemma setdefault_extend_issues (k : string) (vs : list AccessibilityIssue)
    (d : list (string * list AccessibilityIssue)) :
  Permutation (flat_map snd (Server.setdefault_extend k vs d))
    (flat_map snd d ++ vs).
Proof.
  induction d as [|[k' l] rest IH];
    cbn [Server.setdefault_extend flat_map snd].
  - now rewrite app_nil_r.
  - destruct (String.eqb k' k); cbn [flat_map snd].
    + rewrite <- !app_assoc. apply Permutation_app_head, Permutation_app_comm.
    + rewrite IH. now rewrite app_assoc.
Qed.

Lemma setdefault_extend_filed (k : string) (vs : list AccessibilityIssue)
    (d : list (string * list AccessibilityIssue)) :
  Forall (cites k) vs -> filed d -> filed (Server.setdefault_extend k vs d).
Proof.
  intros Hvs. unfold filed.
  induction d as [|[k' l] rest IH]; intros Hd;
    cbn [Server.setdefault_extend].
  - repeat constructor. exact Hvs.
  - inversion Hd as [|? ? Hl Hrest]; subst.
    destruct (String.eqb k' k) eqn:Hk.
    + apply String.eqb_eq in Hk. subst k'. constructor; [| assumption].
      cbn [fst snd] in *. apply Forall_app. now split.
    + constructor; [assumption | now apply IH].
Qed.

Lemma record_issue_issues (k : string) (o : option AccessibilityIssue)
    (d : list (string * list AccessibilityIssue)) :
  Permutation (flat_map snd (Server.record_issue k o d))
    (flat_map snd d ++ option_list o).
Proof.
  destruct o as [i|]; cbn [Server.record_issue option_list].
  - apply setdefault_extend_issues.
  - now rewrite app_nil_r.
Qed.

Lemma record_issue_filed (k : string) (o : option AccessibilityIssue)
    (d : list (string * list AccessibilityIssue)) :
  (forall i, o = Some i -> cites k i) -> filed d ->
  filed (Server.record_issue k o d).
Proof.
  intros Ho Hd. destruct o as [i|]; cbn [Server.record_issue]; [| exact Hd].
  apply setdefault_extend_filed; [| exact Hd].
  repeat constructor. now apply Ho.
Qed.

Lemma group_element_issues (d : list (string * list AccessibilityIssue))
    (e : Element) :
  Permutation (flat_map snd (Server.group_element d e))
    (flat_map snd d ++ Server.element_checks e).
Proof.
  unfold Server.group_element, Server.element_checks.
  rewrite !record_issue_issues. now rewrite <- !app_assoc.
Qed.

Lemma group_element_filed (d : list (string * list AccessibilityIssue))
    (e : Element) :
  filed d -> filed (Server.group_element d e).
Proof.
  intros Hd. unfold Server.group_element.
  apply record_issue_filed; [apply keyboard_cites |].
  apply record_issue_filed; [apply aria_roles_cites |].
  apply record_issue_filed; [apply language_cites |].
  apply record_issue_filed; [apply link_text_cites |].
  apply record_issue_filed; [apply form_labels_cites |].
  apply record_issue_filed; [apply img_alt_cites | exact Hd].
Qed.

Lemma fold_group_element (es : list Element) :
  forall d, filed d ->
  filed (fold_left Server.group_element es d) /\
  Permutation (flat_map snd (fold_left Server.group_element es d))
    (flat_map snd d ++ flat_map Server.element_checks es).
Proof.
  induction es as [|e es IH]; intros d Hd; cbn [fold_left flat_map].
  - split; [exact Hd | now rewrite app_nil_r].
  - destruct (IH _ (group_element_filed d e Hd)) as [Hf Hp].
    split; [exact Hf |]. rewrite Hp, group_element_issues.
    now rewrite <- app_assoc.
Qed.

(** ** Violations *)

(** What the report says about one issue: a violation of the criterion the
    issue cites, when the data file has that criterion and the target level
    requires it; nothing otherwise. *)
Definition cited_violation (criteria : gmap string CriterionData)
    (target : string) (include_suggestions : bool) (i : AccessibilityIssue)
    : list Server.Violation :=
  match wcag_criteria i with
  | Some k =>
      match criteria !! k with
      | Some d =>
          if decide (k ∈ required_set criteria target)
          then [Server.make_violation include_suggestions
                  (WCAGData.make_criterion k d) k i]
          else []
      | None => []
      end
  | None => []
  end.

Lemma required_set_lookup (criteria : gmap string CriterionData)
    (target k : string) :
  k ∈ required_set criteria target <->
  exists d, criteria !! k = Some d /\ data_level d ∈ levels_up_to target.
Proof.
  unfold required_set. rewrite elem_of_dom. unfold is_Some.
  setoid_rewrite map_lookup_filter_Some. reflexivity.
Qed.

Lemma required_for_In (criteria : gmap string CriterionData)
    (wcag : WCAGDataLoader) (target : string) (c : WCAGCriterion) :
  WCAGData._process_criteria criteria = Ok wcag ->
  In target catalog_levels ->
  In c (Server.required_for wcag target) <->
  exists n d, criteria !! n = Some d /\
              data_level d ∈ levels_up_to target /\
              c = WCAGData.make_criterion n d.
Proof.
  intros Hrun Htarget. unfold Server.required_for.
  assert (Hlevel : forall lv, In lv (levels_up_to target) ->
            (In c (WCAGData.get_criteria_by_level wcag lv) <->
             exists n d, criteria !! n = Some d /\ data_level d = lv /\
                         c = WCAGData.make_criterion n d)).
  { intros lv Hlv. rewrite (get_criteria_by_level_In _ _ _ _ Hrun).
    split; [tauto |]. intros H. split; [| exact H].
    destruct Htarget as [<- | [<- | [<- | []]]]; simpl in Hlv |- *; tauto. }
  assert (Hup : (exists n d, criteria !! n = Some d /\
                   data_level d ∈ levels_up_to target /\
                   c = WCAGData.make_criterion n d) <->
                exists lv, In lv (levels_up_to target) /\
                  exists n d, criteria !! n = Some d /\ data_level d = lv /\
                              c = WCAGData.make_criterion n d).
  { split.
    - intros (n & d & Hnd & Hlv & Hc). exists (data_level d).
      split; [now apply list_elem_of_In |]. now exists n, d.
    - intros (lv & Hlv & n & d & Hnd & <- & Hc). exists n, d.
      repeat split; [assumption | now apply list_elem_of_In | assumption]. }
  rewrite Hup. clear Hup.
  destruct Htarget as [<- | [<- | [<- | []]]];
    cbn [Py.mem existsb String.eqb Ascii.eqb Bool.eqb orb levels_up_to]
      in Hlevel |- *;
    rewrite !in_app_iff.
  - rewrite (Hlevel "A") by (simpl; tauto). split.
    + intros [H | [[] | []]]. exists "A". split; [simpl; tauto | exact H].
    + intros (lv & [<- | []] & H). now left.
  - rewrite (Hlevel "A"), (Hlevel "AA") by (simpl; tauto). split.
    + intros [H | [H | []]];
        [exists "A" | exists "AA"]; (split; [simpl; tauto | exact H]).
    + intros (lv & [<- | [<- | []]] & H); [now left | right; now left].
  - rewrite (Hlevel "A"), (Hlevel "AA"), (Hlevel "AAA") by (simpl; tauto).
    split.
    + intros [H | [H | H]];
        [exists "A" | exists "AA" | exists "AAA"];
        (split; [simpl; tauto | exact H]).
    + intros (lv & [<- | [<- | [<- | []]]] & H);
        [now left | right; now left | right; now right].
Qed.

Lemma required_for_number (criteria : gmap string CriterionData)
    (wcag : WCAGDataLoader) (target k : string) :
  WCAGData._process_criteria criteria = Ok wcag ->
  In target catalog_levels ->
  existsb (fun c' => String.eqb (number c') k)
    (Server.required_for wcag target) =
  bool_decide (k ∈ required_set criteria target).
Proof.
  intros Hrun Htarget. apply Bool.eq_iff_eq_true.
  rewrite existsb_exists, bool_decide_eq_true, required_set_lookup.
  split.
  - intros (c & Hin & Heq).
    apply (required_for_In _ _ _ _ Hrun Htarget) in Hin
      as (n & d & Hnd & Hlv & ->).
    apply String.eqb_eq in Heq. cbn [WCAGData.make_criterion number] in Heq.
    subst n. eauto.
  - intros (d & Hd & Hlv). exists (WCAGData.make_criterion k d). split.
    + apply (required_for_In _ _ _ _ Hrun Htarget). eauto.
    + apply String.eqb_refl.
Qed.

Lemma entry_violations_cited (criteria : gmap string CriterionData)
    (wcag : WCAGDataLoader) (target : string) (include_suggestions : bool)
    (k : string) (l : list AccessibilityIssue) :
  WCAGData._process_criteria criteria = Ok wcag ->
  In target catalog_levels ->
  Forall (cites k) l ->
  Server.entry_violations wcag (Server.required_for wcag target)
    include_suggestions (k, l) =
  flat_map (cited_violation criteria target include_suggestions) l.
Proof.
  intros Hrun Htarget Hl. unfold Server.entry_violations.
  rewrite (get_criterion_loaded_eq criteria wcag k Hrun).
  rewrite (required_for_number criteria wcag target k Hrun Htarget).
  induction Hl as [|i l Hi _ IH]; cbn [flat_map map].
  - destruct (criteria !! k); simpl; [now destruct (bool_decide _) |].
    reflexivity.
  - unfold cited_violation at 1. rewrite Hi. rewrite <- IH.
    destruct (criteria !! k) as [d|]; simpl; [| reflexivity].
    destruct (decide (k ∈ required_set criteria target)) as [Hin | Hout].
    + now rewrite bool_decide_eq_true_2.
    + now rewrite bool_decide_eq_false_2.
Qed.

Lemma grouped_violations (criteria : gmap string CriterionData)
    (wcag : WCAGDataLoader) (target : string) (include_suggestions : bool)
    (d : list (string * list AccessibilityIssue)) :
  WCAGData._process_criteria criteria = Ok wcag ->
  In target catalog_levels ->
  filed d ->
  flat_map (Server.entry_violations wcag (Server.required_for wcag target)
              include_suggestions) d =
  flat_map (cited_violation criteria target include_suggestions)
    (flat_map snd d).
Proof.
  intros Hrun Htarget Hd.
  induction Hd as [|[k l] rest Hl _ IH]; [reflexivity |].
  cbn [flat_map snd]. rewrite flat_map_app, <- IH. f_equal.
  now apply (entry_violations_cited criteria).
Qed.

(** The report of [validate_wcag_compliance_level] on a loaded catalog and a
    valid target level. *)
Lemma validate_report (criteria : gmap string CriterionData)
    (wcag : WCAGDataLoader) (soup : list Server.Node) (target_level : string)
    (include_suggestions : bool) :
  WCAGData._process_criteria criteria = Ok wcag ->
  In (Py.upper target_level) catalog_levels ->
  exists r,
    Server.validate_wcag_compliance_level wcag soup target_level
      include_suggestions = Ok (Server.Report r) /\
    Permutation (Server.violations r)
      (flat_map (cited_violation criteria (Py.upper target_level)
                   include_suggestions) (document_issues soup)) /\
    Server.total_violations r = Z.of_nat (length (Server.violations r)) /\
    Server.violated_criteria r =
      Z.of_nat (size (list_to_set (map Server.criterion (Server.violations r))
                        : gset string)) /\
    Server.total_required_criteria r =
      Z.of_nat (size (required_set criteria (Py.upper target_level))) /\
    Server.compliance_status r =
      (if (length (Server.violations r) =? 0)%nat then "PASS" else "FAIL").
Proof.
  intros Hrun Htarget. unfold Server.validate_wcag_compliance_level.
  pose proof Htarget as Hmem. unfold catalog_levels in Hmem.
  rewrite (proj2 (mem_In _ _) Hmem). cbn [negb].
  unfold document_issues.
  destruct (parsed_headings soup) as (hs & Hhs & Hhis).
  rewrite Hhs. cbn [rbind]. rewrite Hhis. cbn [rbind].
  eexists. split; [reflexivity |].
  cbn [Server.violations Server.total_violations Server.violated_criteria
       Server.total_required_criteria Server.compliance_status].
  split; [| split; [reflexivity | split; [reflexivity | split;
    [| reflexivity]]]].
  - assert (Hnil : filed []) by constructor.
    destruct (fold_group_element (Server.parse_html_to_elements soup) []
                Hnil) as [Hf Hp].
    cbn [flat_map app] in Hp.
    set (d := fold_left Server.group_element
                (Server.parse_html_to_elements soup) []) in *.
    set (his := (opening hs ++ scan 0 hs)%list).
    assert (Hcite : Forall (cites "1.3.1") his).
    { apply Forall_app. split; [apply opening_cites | apply scan_cites]. }
    assert (Hd' : filed (match his with
                         | [] => d
                         | _ => Server.setdefault_extend "1.3.1" his d
                         end) /\
                  Permutation (flat_map snd (match his with
                         | [] => d
                         | _ => Server.setdefault_extend "1.3.1" his d
                         end)) (flat_map snd d ++ his)).
    { destruct his as [|i his'].
      - split; [exact Hf | now rewrite app_nil_r].
      - split; [now apply setdefault_extend_filed
               | apply setdefault_extend_issues]. }
    destruct Hd' as [Hf' Hp'].
    rewrite (grouped_violations criteria wcag _ _ _ Hrun Htarget Hf').
    apply Permutation_flat_map. rewrite Hp', Hp. reflexivity.
  - f_equal. now apply required_for_length.
Qed.

Lemma cited_violation_In (criteria : gmap string CriterionData)
    (target : string) (include_suggestions : bool) (i : AccessibilityIssue)
    (v : Server.Violation) :
  In v (cited_violation criteria target include_suggestions i) ->
  cites (Server.criterion v) i /\
  Server.criterion v ∈ required_set criteria target /\
  Server.issue v = message i.
Proof.
  unfold cited_violation, cites.
  destruct (wcag_criteria i) as [k|]; [| intros []].
  destruct (criteria !! k) as [d|]; [| intros []].
  destruct (decide (k ∈ required_set criteria target)); [| intros []].
  intros [<- | []]. now repeat split.
Qed.

Lemma cited_violation_length (criteria : gmap string CriterionData)
    (target : string) (include_suggestions : bool) (i : AccessibilityIssue) :
  (length (cited_violation criteria target include_suggestions i) <= 1)%nat.
Proof.
  unfold cited_violation.
  destruct (wcag_criteria i) as [k|]; [| simpl; lia].
  destruct (criteria !! k) as [d|]; [| simpl; lia].
  destruct (decide _); simpl; lia.
Qed.

Lemma cited_violation_required (criteria : gmap string CriterionData)
    (target : string) (include_suggestions : bool) (i : AccessibilityIssue)
    (k : string) :
  cites k i -> k ∈ required_set criteria target ->
  length (cited_violation criteria target include_suggestions i) = 1%nat.
Proof.
  intros Hk Hin. unfold cited_violation. rewrite Hk.
  pose proof Hin as Hd. apply required_set_lookup in Hd as (d & -> & _).
  now destruct (decide _).
Qed.

Lemma cited_violation_nil (criteria : gmap string CriterionData)
    (target : string) (include_suggestions : bool) (i : AccessibilityIssue) :
  cited_violation criteria target include_suggestions i = [] <->
  forall k, cites k i -> k ∉ required_set criteria target.
Proof.
  split.
  - intros Hnil k Hk Hin.
    pose proof (cited_violation_required criteria target include_suggestions
                  i k Hk Hin) as Hlen.
    rewrite Hnil in Hlen. discriminate.
  - intros Hall. unfold cited_violation.
    destruct (wcag_criteria i) as [k|] eqn:Hk; [| reflexivity].
    destruct (criteria !! k) as [d|]; [| reflexivity].
    destruct (decide _) as [Hin | Hout]; [| reflexivity].
    now destruct (Hall k Hk).
Qed.

Lemma flat_map_length_le {X Y : Type} (f : X -> list Y) (l : list X) :
  (forall x, length (f x) <= 1)%nat ->
  (length (flat_map f l) <= length l)%nat.
Proof.
  intros Hf. induction l as [|x l IH]; cbn [flat_map]; [reflexivity |].
  rewrite length_app. cbn [length]. specialize (Hf x). lia.
Qed.

Lemma flat_map_length_mono {X Y Z : Type} (f : X -> list Y)
    (g : X -> list Z) (l : list X) :
  (forall x, length (f x) <= length (g x))%nat ->
  (length (flat_map f l) <= length (flat_map g l))%nat.
Proof.
  intros Hfg. induction l as [|x l IH]; cbn [flat_map]; [reflexivity |].
  rewrite !length_app. specialize (Hfg x). lia.
Qed.

Lemma flat_map_length_all {X Y : Type} (f : X -> list Y) (l : list X) :
  Forall (fun x => length (f x) = 1%nat) l ->
  length (flat_map f l) = length l.
Proof.
  induction 1 as [|x l Hx _ IH]; cbn [flat_map]; [reflexivity |].
  rewrite length_app. cbn [length]. lia.
Qed.

Lemma flat_map_nil_iff {X Y : Type} (f : X -> list Y) (l : list X) :
  flat_map f l = [] <-> forall x, In x l -> f x = [].
Proof.
  induction l as [|x l IH]; cbn [flat_map].
  - split; [intros _ y [] | reflexivity].
  - split.
    + intros H. apply app_eq_nil in H as [Hx Hl].
      intros y [<- | Hy]; [exact Hx | now apply IH].
    + intros H. rewrite (H x) by now left. apply IH.
      intros y Hy. apply H. now right.
Qed.

Lemma size_list_to_set_le (l : list string) :
  (size (list_to_set l : gset string) <= length l)%nat.
Proof.
  induction l as [|x l IH]; cbn [list_to_set length].
  - rewrite size_empty. lia.
  - rewrite size_union_alt, size_singleton.
    assert (Hsub : list_to_set l ∖ {[x]} ⊆ (list_to_set l : gset string)).
    { intros y Hy. apply elem_of_difference in Hy. tauto. }
    apply subseteq_size in Hsub. lia.
Qed.

Lemma length_zero_status (X : Type) (l : list X) :
  (if (length l =? 0)%nat then "PASS" else "FAIL") = "PASS" <-> l = [].
Proof.
  destruct l; simpl; split; congruence.
Qed.

(** X7: on a loaded catalog and a valid target level the report of
    [validate_wcag_compliance_level] holds, up to order, one violation for
    every issue of the document whose cited criterion the target level
    requires, filed under that criterion, and nothing else; the issues are
    those [check_html_accessibility] collects with warnings included.  The
    status is [PASS] exactly when no issue of the document cites a required
    criterion. *)
Theorem validate_violations_cited (criteria : gmap string CriterionData)
    (wcag : WCAGDataLoader) (soup : list Server.Node) (target_level : string)
    (include_suggestions : bool) :
  WCAGData._process_criteria criteria = Ok wcag ->
  In (Py.upper target_level) catalog_levels ->
  exists r,
    Server.validate_wcag_compliance_level wcag soup target_level
      include_suggestions = Ok (Server.Report r) /\
    Server.collected_issues soup true = Ok (document_issues soup) /\
    Permutation (Server.violations r)
      (flat_map (cited_violation criteria (Py.upper target_level)
                   include_suggestions) (document_issues soup)) /\
    (Server.compliance_status r = "PASS" <->
     forall i k, In i (document_issues soup) -> cites k i ->
                 k ∉ required_set criteria (Py.upper target_level)).
Proof.
  intros Hrun Htarget.
  destruct (validate_report criteria wcag soup target_level
              include_suggestions Hrun Htarget)
    as (r & Hr & Hperm & _ & _ & _ & Hstatus).
  exists r. split; [exact Hr |].
  split; [apply (collected_issues_document soup true) |].
  split; [exact Hperm |].
  rewrite Hstatus, length_zero_status. split.
  - intros Hnil i k Hi Hk. rewrite Hnil in Hperm.
    apply Permutation_nil in Hperm.
    pose proof (proj1 (flat_map_nil_iff _ _) Hperm i Hi) as Hci.
    now apply (proj1 (cited_violation_nil _ _ _ _) Hci).
  - intros Hall. apply Permutation_nil. symmetry.
    replace (flat_map _ (document_issues soup)) with (@nil Server.Violation)
      in Hperm; [exact Hperm |].
    symmetry. apply flat_map_nil_iff. intros i Hi.
    apply cited_violation_nil. intros k Hk. now apply (Hall i).
Qed.

Lemma validate_violations_cited_witness :
  exists r,
    Server.validate_wcag_compliance_level three_criteria_loader [img_node]
      "aa" true = Ok (Server.Report r) /\
    Server.collected_issues [img_node] true = Ok (document_issues [img_node]) /\
    Permutation (Server.violations r)
      (flat_map (cited_violation three_criteria (Py.upper "aa") true)
         (document_issues [img_node])) /\
    (Server.compliance_status r = "PASS" <->
     forall i k, In i (document_issues [img_node]) -> cites k i ->
                 k ∉ required_set three_criteria (Py.upper "aa")).
Proof.
  apply (validate_violations_cited three_criteria).
  - exact three_criteria_loaded.
  - vm_compute. tauto.
Defined.

(** X8: the numbers of the report are bounded by those of the issue list:
    there are no more violations than [check_html_accessibility] counts
    issues (warnings included), no more violated criteria than violations,
    than required criteria, or than the seven criteria the checkers file
    under; and when the target level requires all seven, the report has
    exactly one violation per issue. *)
Theorem validate_counts (criteria : gmap string CriterionData)
    (wcag : WCAGDataLoader) (soup : list Server.Node) (target_level : string)
    (include_suggestions : bool) :
  WCAGData._process_criteria criteria = Ok wcag ->
  In (Py.upper target_level) catalog_levels ->
  exists r res,
    Server.validate_wcag_compliance_level wcag soup target_level
      include_suggestions = Ok (Server.Report r) /\
    Server.check_html_accessibility soup true = Ok res /\
    0 <= Server.violated_criteria r <= Server.total_violations r /\
    Server.total_violations r <= Server.total_issues res /\
    Server.violated_criteria r <= Server.total_required_criteria r /\
    Server.violated_criteria r <= 7 /\
    ((forall k, In k filing_criteria ->
                k ∈ required_set criteria (Py.upper target_level)) ->
     Server.total_violations r = Server.total_issues res).
Proof.
  intros Hrun Htarget.
  destruct (validate_report criteria wcag soup target_level
              include_suggestions Hrun Htarget)
    as (r & Hr & Hperm & Htv & Hvc & Htr & _).
  exists r. eexists. split; [exact Hr |].
  unfold Server.check_html_accessibility.
  rewrite (collected_issues_document soup true). cbn [rbind].
  split; [reflexivity |]. cbn [Server.total_issues].
  rewrite Htv, Hvc, Htr.
  pose proof (Permutation_length Hperm) as Hlen.
  assert (Hin : forall v, In v (Server.violations r) ->
            Server.criterion v ∈ required_set criteria (Py.upper target_level)
            /\ In (Server.criterion v) filing_criteria).
  { intros v Hv. apply (Permutation_in _ Hperm) in Hv.
    apply in_flat_map in Hv as (i & Hi & Hv).
    apply cited_violation_In in Hv as (Hc & Hreq & _).
    split; [exact Hreq |].
    pose proof (document_issues_cite soup) as Hall.
    rewrite Forall_forall in Hall.
    destruct (Hall i (proj2 (list_elem_of_In _ _) Hi)) as (k & Hk & Hk').
    unfold cites in *. congruence. }
  assert (Hsub : (list_to_set (map Server.criterion (Server.violations r))
                    : gset string) ⊆
                 required_set criteria (Py.upper target_level)).
  { intros k Hk. apply elem_of_list_to_set, list_elem_of_In, in_map_iff in Hk
      as (v & <- & Hv). now apply Hin. }
  assert (Hsub7 : (list_to_set (map Server.criterion (Server.violations r))
                     : gset string) ⊆ list_to_set filing_criteria).
  { intros k Hk. apply elem_of_list_to_set, list_elem_of_In, in_map_iff in Hk
      as (v & <- & Hv). apply elem_of_list_to_set, list_elem_of_In.
    now apply Hin. }
  apply subseteq_size in Hsub, Hsub7.
  pose proof (size_list_to_set_le filing_criteria) as H7.
  cbn [filing_criteria length] in H7.
  pose proof (size_list_to_set_le
                (map Server.criterion (Server.violations r))) as Hle.
  rewrite length_map in Hle.
  pose proof (flat_map_length_le
                (cited_violation criteria (Py.upper target_level)
                   include_suggestions) (document_issues soup)
                (cited_violation_length _ _ _)) as Hbound.
  repeat split; try lia.
  intros Hall7. f_equal. rewrite Hlen. apply flat_map_length_all.
  pose proof (document_issues_cite soup) as Hall.
  eapply Forall_impl; [exact Hall |].
  intros i (k & Hk & Hc). cbv beta.
  apply (cited_violation_required _ _ _ _ k Hc). now apply Hall7.
Qed.

Lemma validate_counts_witness :
  exists r res,
    Server.validate_wcag_compliance_level three_criteria_loader [img_node]
      "aa" true = Ok (Server.Report r) /\
    Server.check_html_accessibility [img_node] true = Ok res /\
    0 <= Server.violated_criteria r <= Server.total_violations r /\
    Server.total_violations r <= Server.total_issues res /\
    Server.violated_criteria r <= Server.total_required_criteria r /\
    Server.violated_criteria r <= 7 /\
    ((forall k, In k filing_criteria ->
                k ∈ required_set three_criteria (Py.upper "aa")) ->
     Server.total_violations r = Server.total_issues res).
Proof.
  apply (validate_counts three_criteria).
  - exact three_criteria_loaded.
  - vm_compute. tauto.
Defined.

Lemma required_set_mono (criteria : gmap string CriterionData)
    (t t' : string) :
  (forall lv, In lv (levels_up_to t) -> In lv (levels_up_to t')) ->
  forall k, k ∈ required_set criteria t -> k ∈ required_set criteria t'.
Proof.
  intros Hsub k. rewrite !required_set_lookup.
  intros (d & Hd & Hlv). exists d. split; [exact Hd |].
  apply list_elem_of_In, Hsub, list_elem_of_In, Hlv.
Qed.

Lemma cited_violation_mono (criteria : gmap string CriterionData)
    (t t' : string) (include_suggestions : bool) (i : AccessibilityIssue) :
  (forall k, k ∈ required_set criteria t -> k ∈ required_set criteria t') ->
  (length (cited_violation criteria t include_suggestions i) <=
   length (cited_violation criteria t' include_suggestions i))%nat.
Proof.
  intros Hsub. unfold cited_violation.
  destruct (wcag_criteria i) as [k|]; [| reflexivity].
  destruct (criteria !! k) as [d|]; [| reflexivity].
  destruct (decide (k ∈ required_set criteria t)) as [Hin | Hout];
    [| simpl; lia].
  destruct (decide (k ∈ required_set criteria t')) as [Hin' | Hout'];
    [reflexivity |].
  destruct Hout'. now apply Hsub.
Qed.

(** X9: the report is monotone in the target level: for one document and
    one loaded catalog, level AA requires at least the criteria of level A
    and reports at least its violations, and likewise AAA against AA; so a
    document that passes at AAA passes at AA, and one that passes at AA
    passes at A. *)
Theorem validate_monotone (criteria : gmap string CriterionData)
    (wcag : WCAGDataLoader) (soup : list Server.Node)
    (include_suggestions : bool) :
  WCAGData._process_criteria criteria = Ok wcag ->
  exists rA rAA rAAA,
    Server.validate_wcag_compliance_level wcag soup "A" include_suggestions
      = Ok (Server.Report rA) /\
    Server.validate_wcag_compliance_level wcag soup "AA" include_suggestions
      = Ok (Server.Report rAA) /\
    Server.validate_wcag_compliance_level wcag soup "AAA" include_suggestions
      = Ok (Server.Report rAAA) /\
    Server.total_required_criteria rA <= Server.total_required_criteria rAA
      <= Server.total_required_criteria rAAA /\
    Server.total_violations rA <= Server.total_violations rAA
      <= Server.total_violations rAAA /\
    (Server.compliance_status rAAA = "PASS" ->
     Server.compliance_status rAA = "PASS") /\
    (Server.compliance_status rAA = "PASS" ->
     Server.compliance_status rA = "PASS").
Proof.
  intros Hrun.
  destruct (validate_report criteria wcag soup "A" include_suggestions Hrun)
    as (rA & HrA & HpA & HtvA & _ & HtrA & HsA); [simpl; tauto |].
  destruct (validate_report criteria wcag soup "AA" include_suggestions Hrun)
    as (rAA & HrAA & HpAA & HtvAA & _ & HtrAA & HsAA); [simpl; tauto |].
  destruct (validate_report criteria wcag soup "AAA" include_suggestions Hrun)
    as (rAAA & HrAAA & HpAAA & HtvAAA & _ & HtrAAA & HsAAA); [simpl; tauto |].
  exists rA, rAA, rAAA.
  split; [exact HrA |]. split; [exact HrAA |]. split; [exact HrAAA |].
  change (Py.upper "A") with "A" in *.
  change (Py.upper "AA") with "AA" in *.
  change (Py.upper "AAA") with "AAA" in *.
  assert (H1 : forall k, k ∈ required_set criteria "A" ->
                         k ∈ required_set criteria "AA").
  { apply required_set_mono. simpl. tauto. }
  assert (H2 : forall k, k ∈ required_set criteria "AA" ->
                         k ∈ required_set criteria "AAA").
  { apply required_set_mono. simpl. tauto. }
  pose proof (subseteq_size _ _ H1) as Hs1.
  pose proof (subseteq_size _ _ H2) as Hs2.
  apply Permutation_length in HpA, HpAA, HpAAA.
  pose proof (flat_map_length_mono _ _ (document_issues soup)
                (fun i => cited_violation_mono criteria "A" "AA"
                            include_suggestions i H1)) as Hm1.
  pose proof (flat_map_length_mono _ _ (document_issues soup)
                (fun i => cited_violation_mono criteria "AA" "AAA"
                            include_suggestions i H2)) as Hm2.
  assert (Hlen : (length (Server.violations rA) <=
                  length (Server.violations rAA) <=
                  length (Server.violations rAAA))%nat) by lia.
  split; [lia |]. split; [lia |].
  rewrite HsA, HsAA, HsAAA, !length_zero_status.
  split; intros Hnil; rewrite Hnil in Hlen; cbn [length] in Hlen.
  - destruct (Server.violations rAA); [reflexivity | simpl in Hlen; lia].
  - destruct (Server.violations rA); [reflexivity | simpl in Hlen; lia].
Qed.

Lemma validate_monotone_witness :
  exists rA rAA rAAA,
    Server.validate_wcag_compliance_level three_criteria_loader [img_node]
      "A" true = Ok (Server.Report rA) /\
    Server.validate_wcag_compliance_level three_criteria_loader [img_node]
      "AA" true = Ok (Server.Report rAA) /\
    Server.validate_wcag_compliance_level three_criteria_loader [img_node]
      "AAA" true = Ok (Server.Report rAAA) /\
    Server.total_required_criteria rA <= Server.total_required_criteria rAA
      <= Server.total_required_criteria rAAA /\
    Server.total_violations rA <= Server.total_violations rAA
      <= Server.total_violations rAAA /\
    (Server.compliance_status rAAA = "PASS" ->
     Server.compliance_status rAA = "PASS") /\
    (Server.compliance_status rAA = "PASS" ->
     Server.compliance_status rA = "PASS").
Proof.
  apply (validate_monotone three_criteria). exact three_criteria_loaded.
Defined.

(** * The issue list of [check_html_accessibility] *)

Lemma severity_split (l : list AccessibilityIssue) :
  Forall (fun i => no_advisory i = true) l ->
  (length l =
   length (List.filter (Server.has_severity Severity.ERROR) l) +
   length (List.filter (Server.has_severity Severity.WARNING) l))%nat /\
  List.filter (Server.has_severity Severity.INFO) l = [].
Proof.
  induction 1 as [|i l Hi _ [IHlen IHinfo]]; [split; reflexivity |].
  cbn [List.filter]. unfold no_advisory in Hi.
  replace (Server.has_severity Severity.ERROR i)
    with (Severity.eqb (severity i) Severity.ERROR) by reflexivity.
  replace (Server.has_severity Severity.WARNING i)
    with (Severity.eqb (severity i) Severity.WARNING) by reflexivity.
  replace (Server.has_severity Severity.INFO i)
    with (Severity.eqb (severity i) Severity.INFO) by reflexivity.
  destruct (severity i); cbn [Severity.eqb negb andb length] in *;
    try discriminate; split; try assumption; lia.
Qed.

Lemma filter_errors_only (l : list AccessibilityIssue) :
  List.filter (Server.has_severity Severity.ERROR)
    (List.filter (Server.has_severity Severity.ERROR) l) =
  List.filter (Server.has_severity Severity.ERROR) l /\
  List.filter (Server.has_severity Severity.WARNING)
    (List.filter (Server.has_severity Severity.ERROR) l) = [] /\
  List.filter (Server.has_severity Severity.INFO)
    (List.filter (Server.has_severity Severity.ERROR) l) = [].
Proof.
  induction l as [|i l (IH1 & IH2 & IH3)]; [repeat split |].
  cbn [List.filter].
  destruct (Server.has_severity Severity.ERROR i) eqn:Hs;
    [| repeat split; assumption].
  cbn [List.filter]. rewrite Hs, IH1.
  unfold Server.has_severity in Hs |- *.
  destruct (severity i); cbn [Severity.eqb] in Hs |- *; try discriminate.
  repeat split; assumption.
Qed.

(** X10: the result of [check_html_accessibility] is consistent with itself
    and across its flag: [total_issues] is the number of issues of the
    document and the sum of the error and warning counts, each count is the
    length of its list, and there is never an info entry; without
    [include_warnings] the error list is the same as with it, the warning
    list is empty and [total_issues] counts the errors alone. *)
Theorem check_html_accessibility_counts (soup : list Server.Node) :
  exists full errs,
    Server.check_html_accessibility soup true = Ok full /\
    Server.check_html_accessibility soup false = Ok errs /\
    Server.total_issues full = Z.of_nat (length (document_issues soup)) /\
    Server.total_issues full =
      Server.summary_errors full + Server.summary_warnings full /\
    Server.summary_errors full = Z.of_nat (length (Server.errors full)) /\
    Server.summary_warnings full = Z.of_nat (length (Server.warnings full)) /\
    Server.summary_info full = 0 /\
    Server.errors errs = Server.errors full /\
    Server.warnings errs = [] /\
    Server.summary_warnings errs = 0 /\
    Server.total_issues errs = Server.summary_errors full.
Proof.
  unfold Server.check_html_accessibility.
  rewrite !collected_issues_document. cbn [rbind].
  eexists. eexists. split; [reflexivity |]. split; [reflexivity |].
  cbn [Server.total_issues Server.summary_errors Server.summary_warnings
       Server.summary_info Server.errors Server.warnings].
  assert (Hall : Forall (fun i => no_advisory i = true)
                   (document_issues soup)).
  { destruct (collected_issues_no_advisory soup true) as (l & Hl & Hall).
    rewrite collected_issues_document in Hl. congruence. }
  destruct (severity_split _ Hall) as [Hlen Hinfo].
  destruct (filter_errors_only (document_issues soup)) as (H1 & H2 & H3).
  rewrite !length_map, Hinfo, H1, H2.
  repeat split; try reflexivity. lia.
Qed.

(** * Headings *)

Lemma scan_length (hs : list Element) :
  forall p, (length (scan p hs) <= length hs)%nat.
Proof.
  induction hs as [|h rest IH]; intros p; cbn [scan length]; [lia |].
  destruct (heading_level h) as [l|].
  - rewrite length_app. specialize (IH l).
    destruct (jumps p l); cbn [length]; lia.
  - specialize (IH p). lia.
Qed.

Lemma scan_first_length (hs : list Element) :
  (length (opening hs) + length (scan 0 hs) <= length hs)%nat.
Proof.
  destruct hs as [|h rest]; [reflexivity |].
  cbn [scan length]. unfold opening.
  assert (Ho : (length (if negb (Py.oeq (tag h) "h1")
                        then [AccessibilityRules.heading_no_h1]
                        else []) <= 1)%nat)
    by (destruct (negb _); simpl; lia).
  destruct (heading_level h) as [l|].
  - change (jumps 0 l) with false. cbn [app].
    pose proof (scan_length rest l). lia.
  - pose proof (scan_length rest 0). lia.
Qed.

Lemma scan_is_skip (p : Z) (hs : list Element) (i : AccessibilityIssue) :
  In i (scan p hs) -> is_skip i = true.
Proof.
  intros Hi. rewrite <- filter_skip_scan in Hi.
  now apply List.filter_In in Hi.
Qed.

(** X11: on headings the scan gets through, [check_heading_hierarchy]
    returns at most one issue per heading; every issue is the
    [heading-no-h1] warning or a [heading-skipped-level] error; the warning
    is reported, once and first, exactly when the first heading is not an
    [h1]. *)
Theorem check_heading_hierarchy_opening (hs : list Element) :
  Forall scannable hs ->
  exists issues,
    AccessibilityRules.check_heading_hierarchy hs = Ok issues /\
    (length issues <= length hs)%nat /\
    issues = (opening hs ++ List.filter is_skip issues)%list /\
    (forall i, In i issues ->
       i = AccessibilityRules.heading_no_h1 \/
       rule_id i = "heading-skipped-level" /\ severity i = Severity.ERROR) /\
    (forall first rest, hs = first :: rest ->
       (opening hs = [AccessibilityRules.heading_no_h1] <->
        tag first <> Some "h1") /\
       (opening hs = [] <-> tag first = Some "h1")).
Proof.
  intros Hs. exists (opening hs ++ scan 0 hs)%list.
  split; [now apply check_heading_hierarchy_scan |].
  split; [rewrite length_app; apply scan_first_length |].
  split; [| split].
  - rewrite List.filter_app, filter_skip_scan.
    replace (List.filter is_skip (opening hs))
      with (@nil AccessibilityIssue); [reflexivity |].
    destruct hs as [|first rest]; [reflexivity |].
    unfold opening. now destruct (negb _).
  - intros i Hi. apply in_app_iff in Hi as [Hi | Hi].
    + left. destruct hs as [|first rest]; [destruct Hi |].
      unfold opening in Hi. destruct (negb _); [| destruct Hi].
      destruct Hi as [<- | []]. reflexivity.
    + right. pose proof (scan_is_skip _ _ _ Hi) as Hskip.
      split; [now apply String.eqb_eq |].
      pose proof (scan_no_advisory 0 hs) as Hall.
      revert Hi. clear. revert i. generalize 0.
      induction hs as [|h rest IH]; intros p i Hi; [destruct Hi |].
      cbn [scan] in Hi. destruct (heading_level h) as [l|];
        [| now apply (IH p)].
      apply in_app_iff in Hi as [Hi | Hi]; [| now apply (IH l)].
      destruct (jumps p l); [| destruct Hi].
      destruct Hi as [<- | []]. reflexivity.
  - intros first rest ->. unfold opening.
    destruct (Py.oeq (tag first) "h1") eqn:Hh1; cbn [negb].
    + pose proof (proj1 (oeq_true _ _) Hh1) as Ht.
      split; split; try congruence; tauto.
    + pose proof (proj1 (oeq_false _ _) Hh1) as Ht.
      split; split; try congruence; tauto.
Qed.

Lemma check_heading_hierarchy_opening_witness :
  exists issues,
    AccessibilityRules.check_heading_hierarchy [heading "h1"; heading "h3"]
      = Ok issues /\
    (length issues <= length [heading "h1"; heading "h3"])%nat /\
    issues = (opening [heading "h1"; heading "h3"] ++
              List.filter is_skip issues)%list /\
    (forall i, In i issues ->
       i = AccessibilityRules.heading_no_h1 \/
       rule_id i = "heading-skipped-level" /\ severity i = Severity.ERROR) /\
    (forall first rest, [heading "h1"; heading "h3"] = first :: rest ->
       (opening [heading "h1"; heading "h3"]
          = [AccessibilityRules.heading_no_h1] <->
        tag first <> Some "h1") /\
       (opening [heading "h1"; heading "h3"] = [] <->
        tag first = Some "h1")).
Proof.
  apply (check_heading_hierarchy_opening [heading "h1"; heading "h3"]).
  exact scannable_heading_h1_h3.
Defined.




(** * Grades of the contrast calculator *)

(** Two finite numbers above zero in order, and a third one not below the
    second: it is not below the first. *)
Lemma leb_above (a b r : float) (ma mb : positive) (ea eb : Z) :
  Prim2SF a = S754_finite false ma ea ->
  Prim2SF b = S754_finite false mb eb ->
  (a <=? b)%float = true -> (b <=? r)%float = true ->
  (a <=? r)%float = true.
Proof.
  rewrite !FloatAxioms.leb_spec. intros -> ->. unfold SFleb.
  destruct (Prim2SF r) as [s | s | | s m e]; cbn [SFcompare];
    try discriminate; try (destruct s; intros; assumption).
  destruct s; [intros _ H; exact H |].
  change (Pos.compare_cont Eq) with Pos.compare.
  destruct (Z.compare_spec ea eb) as [Hab | Hab | Hab]; try discriminate;
    destruct (Z.compare_spec eb e) as [Hbr | Hbr | Hbr]; try discriminate;
    destruct (Z.compare_spec ea e) as [Har | Har | Har];
    try reflexivity; try lia; subst.
  destruct (Pos.compare_spec ma mb) as [Hm | Hm | Hm]; try discriminate;
    destruct (Pos.compare_spec mb m) as [Hn | Hn | Hn]; try discriminate;
    destruct (Pos.compare_spec ma m) as [Hk | Hk | Hk];
    try reflexivity; lia.
Qed.

Lemma leb_3_from_4_5 (r : float) :
  (4.5 <=? r)%float = true -> (3.0 <=? r)%float = true.
Proof.
  apply (leb_above 3.0 4.5 r 6755399441055744 5066549580791808 (-51) (-50));
    vm_compute; reflexivity.
Qed.

Lemma leb_4_5_from_7 (r : float) :
  (7.0 <=? r)%float = true -> (4.5 <=? r)%float = true.
Proof.
  apply (leb_above 4.5 7.0 r 5066549580791808 7881299347898368 (-50) (-50));
    vm_compute; reflexivity.
Qed.

Definition large_text (font_size : Z) (is_bold : bool) : Prop :=
  18 <= font_size \/ (14 <= font_size /\ is_bold = true).

(** X13: in every result of [evaluate_contrast] the text counts as large
    exactly from 18 px, or from 14 px when bold; the required ratios are 3.0
    and 4.5 for large text, 4.5 and 7.0 otherwise; passing AAA implies
    passing AA, so the grade is [FAIL] exactly when AA fails and [AA] exactly
    when AA passes and AAA does not; and colours that pass a level at some
    size pass it as large text. *)
Theorem evaluate_contrast_grades (pow : float -> float -> float)
    (fg bg : string) (fs : Z) (bold : bool) (r : Contrast.ContrastResult) :
  Contrast.evaluate_contrast pow fg bg fs bold = Ok r ->
  (Contrast.is_large_text r = true <-> large_text fs bold) /\
  (Contrast.aa_required r, Contrast.aaa_required r) =
    (if Contrast.is_large_text r then (3.0, 4.5) else (4.5, 7.0))%float /\
  (Contrast.aaa_passes r = true -> Contrast.aa_passes r = true) /\
  (Contrast.overall_grade r = "AAA" <-> Contrast.aaa_passes r = true) /\
  (Contrast.overall_grade r = "AA" <->
   Contrast.aa_passes r = true /\ Contrast.aaa_passes r = false) /\
  (Contrast.overall_grade r = "FAIL" <-> Contrast.aa_passes r = false) /\
  (forall fs' bold' r',
     Contrast.evaluate_contrast pow fg bg fs' bold' = Ok r' ->
     Contrast.is_large_text r' = true ->
     (Contrast.aa_passes r = true -> Contrast.aa_passes r' = true) /\
     (Contrast.aaa_passes r = true -> Contrast.aaa_passes r' = true)).
Proof.
  unfold Contrast.evaluate_contrast. intros Hr.
  destruct (Contrast.calculate_contrast_ratio pow fg bg) as [ratio|];
    [| discriminate].
  cbn [rbind] in *. inversion Hr; subst r; clear Hr.
  cbn [Contrast.is_large_text Contrast.aa_required Contrast.aaa_required
       Contrast.aa_passes Contrast.aaa_passes Contrast.overall_grade].
  assert (Himp : ((if (fs >=? 18) || (fs >=? 14) && bold
                   then 4.5 else 7.0) <=? ratio)%float = true ->
                 ((if (fs >=? 18) || (fs >=? 14) && bold
                   then 3.0 else 4.5) <=? ratio)%float = true).
  { destruct ((fs >=? 18) || (fs >=? 14) && bold);
      [apply leb_3_from_4_5 | apply leb_4_5_from_7]. }
  split; [| split; [| split; [| split; [| split; [| split]]]]].
  - unfold large_text. rewrite orb_true_iff, andb_true_iff. 
    destruct bold; split; intros [H | H]; try lia; intuition lia.
  - now destruct ((fs >=? 18) || (fs >=? 14) && bold).
  - exact Himp.
  - destruct (_ <=? ratio)%float; [tauto |].
    destruct (_ <=? ratio)%float; split; discriminate.
  - destruct ((if (fs >=? 18) || (fs >=? 14) && bold then 4.5 else 7.0)
                <=? ratio)%float.
    + rewrite Himp by reflexivity. split; [discriminate | intros []; discriminate].
    + destruct (_ <=? ratio)%float; split; try tauto; try discriminate.
      intros []; discriminate.
  - destruct ((if (fs >=? 18) || (fs >=? 14) && bold then 4.5 else 7.0)
                <=? ratio)%float.
    + rewrite Himp by reflexivity. split; discriminate.
    + destruct (_ <=? ratio)%float; split; try tauto; discriminate.
  - intros fs' bold' r' Hr' Hlarge. inversion Hr'; subst r'; clear Hr'.
    cbn [Contrast.is_large_text Contrast.aa_passes Contrast.aaa_passes]
      in *.
    rewrite Hlarge.
    destruct ((fs >=? 18) || (fs >=? 14) && bold);
      [tauto |].
    split; [apply leb_3_from_4_5 | apply leb_4_5_from_7].
Qed.

Definition black_on_white : Contrast.ContrastResult :=
  match Contrast.evaluate_contrast (fun x _ => x) "#000000" "#FFFFFF" 16 false
  with
  | Ok r => r
  | Raise _ =>
      {| Contrast.foreground := ""; Contrast.background := "";
         Contrast.contrast_ratio := 0; Contrast.font_size := 0;
         Contrast.is_bold := false; Contrast.is_large_text := false;
         Contrast.aa_required := 0; Contrast.aa_passes := false;
         Contrast.aaa_required := 0; Contrast.aaa_passes := false;
         Contrast.overall_grade := "" |}
  end.

Lemma black_on_white_evaluated :
  Contrast.evaluate_contrast (fun x _ => x) "#000000" "#FFFFFF" 16 false =
  Ok black_on_white.
Proof. vm_compute. reflexivity. Qed.

Lemma evaluate_contrast_grades_witness :
  (Contrast.is_large_text black_on_white = true <-> large_text 16 false) /\
  (Contrast.aa_required black_on_white,
   Contrast.aaa_required black_on_white) =
    (if Contrast.is_large_text black_on_white
     then (3.0, 4.5) else (4.5, 7.0))%float /\
  (Contrast.aaa_passes black_on_white = true ->
   Contrast.aa_passes black_on_white = true) /\
  (Contrast.overall_grade black_on_white = "AAA" <->
   Contrast.aaa_passes black_on_white = true) /\
  (Contrast.overall_grade black_on_white = "AA" <->
   Contrast.aa_passes black_on_white = true /\
   Contrast.aaa_passes black_on_white = false) /\
  (Contrast.overall_grade black_on_white = "FAIL" <->
   Contrast.aa_passes black_on_white = false) /\
  (forall fs' bold' r',
     Contrast.evaluate_contrast (fun x _ => x) "#000000" "#FFFFFF" fs' bold'
       = Ok r' ->
     Contrast.is_large_text r' = true ->
     (Contrast.aa_passes black_on_white = true ->
      Contrast.aa_passes r' = true) /\
     (Contrast.aaa_passes black_on_white = true ->
      Contrast.aaa_passes r' = true)).
Proof.
  apply (evaluate_contrast_grades (fun x _ => x) "#000000" "#FFFFFF" 16 false).
  exact black_on_white_evaluated.
Defined.

Lemma ratio_swap (pow : float -> float -> float) (a b : string) :
  pow_nonneg pow -> is_hex_color a = true -> is_hex_color b = true ->
  exists ratio,
    Contrast.calculate_contrast_ratio pow a b = Ok ratio /\
    Contrast.calculate_contrast_ratio pow b a = Ok ratio.
Proof.
  intros Hpow Ha Hb.
  pose proof (channels_in_range _ (is_hex_color_digits a Ha)) as Ra.
  pose proof (channels_in_range _ (is_hex_color_digits b Hb)) as Rb.
  pose proof (luminance_nonneg pow _ Hpow Ra) as La.
  pose proof (luminance_nonneg pow _ Hpow Rb) as Lb.
  destruct (ratio_returns pow _ _ Hpow Ra Rb) as [ratio Hratio].
  exists ratio. unfold Contrast.calculate_contrast_ratio.
  rewrite (is_hex_color_channels a Ha), (is_hex_color_channels b Hb).
  cbn [rbind]. split; [exact Hratio |].
  rewrite <- (ratio_symmetric _ _ (nonneg_not_nan _ La)
                (nonneg_not_nan _ Lb)).
  exact Hratio.
Qed.

(** X14: the verdict of [evaluate_contrast] does not depend on which of two
    well-formed colours is the foreground: for a [pow] that maps numbers
    not below zero to such numbers, both orders return, with the same
    rounded ratio, the same thresholds, the same two passes and the same
    grade; only the two echoed colours are exchanged. *)
Theorem evaluate_contrast_swap (pow : float -> float -> float)
    (a b : string) (fs : Z) (bold : bool) :
  pow_nonneg pow -> is_hex_color a = true -> is_hex_color b = true ->
  exists r r',
    Contrast.evaluate_contrast pow a b fs bold = Ok r /\
    Contrast.evaluate_contrast pow b a fs bold = Ok r' /\
    Contrast.contrast_ratio r' = Contrast.contrast_ratio r /\
    Contrast.aa_required r' = Contrast.aa_required r /\
    Contrast.aaa_required r' = Contrast.aaa_required r /\
    Contrast.aa_passes r' = Contrast.aa_passes r /\
    Contrast.aaa_passes r' = Contrast.aaa_passes r /\
    Contrast.overall_grade r' = Contrast.overall_grade r /\
    Contrast.foreground r' = Contrast.background r /\
    Contrast.background r' = Contrast.foreground r.
Proof.
  intros Hpow Ha Hb.
  destruct (ratio_swap pow a b Hpow Ha Hb) as (ratio & Hab & Hba).
  unfold Contrast.evaluate_contrast. rewrite Hab, Hba. cbn [rbind].
  eexists. eexists. repeat split.
Qed.

Lemma evaluate_contrast_swap_witness :
  exists r r',
    Contrast.evaluate_contrast (fun x _ => x) "#000000" "#0A0A0A" 16 false
      = Ok r /\
    Contrast.evaluate_contrast (fun x _ => x) "#0A0A0A" "#000000" 16 false
      = Ok r' /\
    Contrast.contrast_ratio r' = Contrast.contrast_ratio r /\
    Contrast.aa_required r' = Contrast.aa_required r /\
    Contrast.aaa_required r' = Contrast.aaa_required r /\
    Contrast.aa_passes r' = Contrast.aa_passes r /\
    Contrast.aaa_passes r' = Contrast.aaa_passes r /\
    Contrast.overall_grade r' = Contrast.overall_grade r /\
    Contrast.foreground r' = Contrast.background r /\
    Contrast.background r' = Contrast.foreground r.
Proof.
  apply (evaluate_contrast_swap (fun x _ => x) "#000000" "#0A0A0A" 16 false).
  - intros x Hx. exact Hx.
  - vm_compute. reflexivity.
  - vm_compute. reflexivity.
Defined.

(** * Spellings of a colour *)

(** Two characters that differ at most by ASCII case: when one is a hex
    digit the other is, with the same value, and neither is [#] unless both
    are. *)
Definition same_case_hex (c c' : ascii) : bool :=
  implb (Ascii.eqb (Py.lower_char c) (Py.lower_char c'))
    (Bool.eqb (Ascii.eqb c "#") (Ascii.eqb c' "#") &&
     implb (is_hex_digit c)
       (is_hex_digit c' && (hex_value c' =? hex_value c))).

Lemma lower_char_hex (c c' : ascii) :
  Py.lower_char c = Py.lower_char c' ->
  Ascii.eqb c "#" = Ascii.eqb c' "#" /\
  (is_hex_digit c = true ->
   is_hex_digit c' = true /\ hex_value c' = hex_value c).
Proof.
  intros Heq.
  pose proof (forall_ascii
    (fun c => forallb (same_case_hex c) all_ascii)) as H.
  specialize (H ltac:(vm_compute; reflexivity) c). cbv beta in H.
  rewrite forallb_forall in H. specialize (H c' (all_ascii_complete c')).
  unfold same_case_hex in H. rewrite Heq, Ascii.eqb_refl in H.
  cbn [implb] in H. apply andb_true_iff in H as [H1 H2].
  split; [now apply Bool.eqb_prop |].
  intros Hc. rewrite Hc in H2. cbn [implb] in H2.
  apply andb_true_iff in H2 as [H2 H3]. split; [exact H2 | lia].
Qed.

Lemma lower_stripped (s : string) :
  forall s', Py.lower s' = Py.lower s ->
  Py.lower (stripped s') = Py.lower (stripped s).
Proof.
  unfold stripped, Py.lower.
  induction s as [|c s IH]; intros [|c' s'] Heq;
    cbn [Py.map_string] in Heq; try discriminate; [reflexivity |].
  injection Heq as Hc Hs.
  destruct (lower_char_hex c' c Hc) as [Hhash _].
  cbn [Py.lstrip_char]. rewrite Hhash.
  destruct (Ascii.eqb c "#"); [now apply IH |].
  cbn [Py.map_string]. now rewrite Hc, Hs.
Qed.

Lemma lower_channels (t : string) :
  forall t', Py.lower t' = Py.lower t ->
  (String.length t =? 6)%nat && forallb is_hex_digit (chars t) = true ->
  (String.length t' =? 6)%nat && forallb is_hex_digit (chars t') = true /\
  channels t' = channels t.
Proof.
  intros t' Heq Ht. unfold Py.lower in Heq.
  destruct t as [|c0 [|c1 [|c2 [|c3 [|c4 [|c5 [|c6 r]]]]]]];
    try discriminate.
  destruct t' as [|d0 [|d1 [|d2 [|d3 [|d4 [|d5 [|d6 r']]]]]]];
    try discriminate.
  cbn [Py.map_string] in Heq.
  injection Heq as H0 H1 H2 H3 H4 H5.
  cbn [String.length Nat.eqb andb chars list_ascii_of_string forallb]
    in Ht |- *.
  repeat match goal with
         | H : _ && _ = true |- _ => apply andb_true_iff in H as [? ?]
         end.
  destruct (proj2 (lower_char_hex c0 d0 (eq_sym H0)) ltac:(assumption))
    as [? E0].
  destruct (proj2 (lower_char_hex c1 d1 (eq_sym H1)) ltac:(assumption))
    as [? E1].
  destruct (proj2 (lower_char_hex c2 d2 (eq_sym H2)) ltac:(assumption))
    as [? E2].
  destruct (proj2 (lower_char_hex c3 d3 (eq_sym H3)) ltac:(assumption))
    as [? E3].
  destruct (proj2 (lower_char_hex c4 d4 (eq_sym H4)) ltac:(assumption))
    as [? E4].
  destruct (proj2 (lower_char_hex c5 d5 (eq_sym H5)) ltac:(assumption))
    as [? E5].
  unfold channels. cbn [chars list_ascii_of_string].
  split; [| now rewrite E0, E1, E2, E3, E4, E5].
  repeat (apply andb_true_iff; split); assumption.
Qed.

(** X15: a well-formed colour parses to three channels from 0 to 255, and
    its spelling does not matter: any text that differs from it only by the
    case of its letters parses to the same channels, and so do the colour
    with one more [#] in front and the colour without its [#]s. *)
Theorem hex_to_rgb_spelling (s : string) :
  is_hex_color s = true ->
  (exists rgb, Contrast.hex_to_rgb s = Ok rgb /\ in_range rgb) /\
  (forall s', Py.lower s' = Py.lower s ->
     Contrast.hex_to_rgb s' = Contrast.hex_to_rgb s) /\
  Contrast.hex_to_rgb (String "#" s) = Contrast.hex_to_rgb s /\
  Contrast.hex_to_rgb (stripped s) = Contrast.hex_to_rgb s.
Proof.
  intros Hs. split; [| split; [| split]].
  - exists (channels (stripped s)).
    split; [now apply is_hex_color_channels |].
    now apply channels_in_range, is_hex_color_digits.
  - intros s' Heq.
    destruct (lower_channels (stripped s) (stripped s')
                (lower_stripped s s' Heq) Hs) as [Hs' Hch].
    rewrite (is_hex_color_channels s Hs), (is_hex_color_channels s' Hs').
    now rewrite Hch.
  - reflexivity.
  - unfold Contrast.hex_to_rgb.
    replace (Py.lstrip_char "#" (stripped s)) with (stripped s);
      [reflexivity |].
    unfold stripped. induction s as [|c s IH]; [reflexivity |].
    cbn [Py.lstrip_char].
    destruct (Ascii.eqb c "#") eqn:Hc.
    + apply IH. unfold is_hex_color, stripped in Hs |- *.
      cbn [Py.lstrip_char] in Hs. now rewrite Hc in Hs.
    + cbn [Py.lstrip_char]. now rewrite Hc.
Qed.

Lemma hex_to_rgb_spelling_witness :
  (exists rgb, Contrast.hex_to_rgb "#FaFAfa" = Ok rgb /\ in_range rgb) /\
  (forall s', Py.lower s' = Py.lower "#FaFAfa" ->
     Contrast.hex_to_rgb s' = Contrast.hex_to_rgb "#FaFAfa") /\
  Contrast.hex_to_rgb (String "#" "#FaFAfa") = Contrast.hex_to_rgb "#FaFAfa" /\
  Contrast.hex_to_rgb (stripped "#FaFAfa") = Contrast.hex_to_rgb "#FaFAfa".
Proof.
  apply (hex_to_rgb_spelling "#FaFAfa"). vm_compute. reflexivity.
Defined.

(** * Focus indicators *)

(** More of the string operations of Python, on texts of code points 0 to
    255. *)
Module Str.

(** [needle in s] on strings. *)
Fixpoint contains (needle s : string) : bool :=
  Py.startswith needle s ||
  match s with
  | EmptyString => false
  | String _ r => contains needle r
  end.

(** [s.lower()]: the letters A to Z, and the capital letters of Latin-1
    (192 to 222 without the multiplication sign 215), move up by 32. *)
Definition lower_char (c : ascii) : ascii :=
  if Py.between 65 90 c ||
     (Py.between 192 222 c && negb (Py.code c =? 215))
  then ascii_of_N (N_of_ascii c + 32) else c.

Definition lower : string -> string := Py.map_string lower_char.

(** [s.split(sep)] for a one-character separator. *)
Fixpoint split (sep : ascii) (s : string) : list string :=
  match s with
  | EmptyString => [EmptyString]
  | String c r =>
      if Ascii.eqb c sep then EmptyString :: split sep r
      else
        match split sep r with
        | [] => [String c EmptyString]
        | part :: parts => String c part :: parts
        end
  end.

(** [a < b] on strings: by code points, a proper prefix first. *)
Fixpoint ltb (a b : string) : bool :=
  match a, b with
  | _, EmptyString => false
  | EmptyString, String _ _ => true
  | String x a', String y b' =>
      if Py.code x <? Py.code y then true
      else if Py.code y <? Py.code x then false
      else ltb a' b'
  end.

(** [a < b] on lists of integers. *)
Fixpoint list_ltb (a b : list Z) : bool :=
  match a, b with
  | _, [] => false
  | [], _ :: _ => true
  | x :: a', y :: b' =>
      if x <? y then true else if y <? x then false else list_ltb a' b'
  end.

(** [len(s)] and [s[:n]] *)
Definition len (s : string) : Z := Z.of_nat (String.length s).

End Str.

Definition focus_not_visible : AccessibilityIssue :=
  {| rule_id := "focus-not-visible";
     severity := Severity.WARNING;
     wcag_level := WCAGLevel.AA;
     message := "Focus indicator may be removed without alternative";
     element := None;
     suggestion :=
       Some "Provide visible focus indicators using border, box-shadow, or background changes";
     wcag_criteria := Some "2.4.7" |}.

(** [AccessibilityRules.check_focus_visible]: the loop returns at the first
    rule that removes the outline and names no other indicator. *)
Fixpoint check_focus_visible (css_rules : list string)
    : option AccessibilityIssue :=
  match css_rules with
  | [] => None
  | rule :: rest =>
      if Str.contains "outline: none" rule || Str.contains "outline: 0" rule
      then
        if negb (existsb (fun indicator => Str.contains indicator rule)
                   ["border"; "box-shadow"; "background"])
        then Some focus_not_visible
        else check_focus_visible rest
      else check_focus_visible rest
  end.

(** The text [s] has [needle] at some position. *)
Definition occurs (needle s : string) : Prop :=
  exists before after, s = before +:+ needle +:+ after.

Lemma startswith_prefix (p s : string) :
  Py.startswith p s = true <-> exists after, s = p +:+ after.
Proof.
  revert s. induction p as [|a p IH]; intros s; cbn [Py.startswith].
  - split; [intros _; now exists s | reflexivity].
  - destruct s as [|b s].
    + split; [discriminate | intros [after H]; discriminate].
    + rewrite andb_true_iff, Ascii.eqb_eq, IH. split.
      * intros [-> [after ->]]. now exists after.
      * intros [after H]. injection H as -> ->. split; [reflexivity |].
        now exists after.
Qed.

Lemma contains_occurs (needle s : string) :
  Str.contains needle s = true <-> occurs needle s.
Proof.
  unfold occurs. induction s as [|c s IH]; cbn [Str.contains].
  - rewrite orb_false_r, startswith_prefix. split.
    + intros [after H]. now exists "", after.
    + intros ([|b before] & after & H).
      * now exists after.
      * discriminate.
  - rewrite orb_true_iff, startswith_prefix, IH. split.
    + intros [[after H] | (before & after & H)].
      * now exists "", after.
      * exists (String c before), after. now rewrite H.
    + intros ([|b before] & after & H).
      * left. now exists after.
      * right. injection H as -> ->. now exists before, after.
Qed.

(** A rule that takes the outline away and names none of the three other
    indicators. *)
Definition hides_focus (rule : string) : Prop :=
  (occurs "outline: none" rule \/ occurs "outline: 0" rule) /\
  ~ occurs "border" rule /\ ~ occurs "box-shadow" rule /\
  ~ occurs "background" rule.

Lemma hides_focus_test (rule : string) :
  (Str.contains "outline: none" rule || Str.contains "outline: 0" rule) &&
  negb (existsb (fun indicator => Str.contains indicator rule)
          ["border"; "box-shadow"; "background"]) = true <->
  hides_focus rule.
Proof.
  unfold hides_focus. cbn [existsb].
  pose proof (contains_occurs "outline: none" rule) as H1.
  pose proof (contains_occurs "outline: 0" rule) as H2.
  pose proof (contains_occurs "border" rule) as H3.
  pose proof (contains_occurs "box-shadow" rule) as H4.
  pose proof (contains_occurs "background" rule) as H5.
  destruct (Str.contains "outline: none" rule),
           (Str.contains "outline: 0" rule),
           (Str.contains "border" rule),
           (Str.contains "box-shadow" rule),
           (Str.contains "background" rule);
    cbn [orb andb negb]; intuition congruence.
Qed.

(** X16: [check_focus_visible] reports [focus-not-visible] (a warning
    citing 2.4.7) exactly when some single rule text contains
    [outline: none] or [outline: 0] and contains none of [border],
    [box-shadow], [background]; it reports nothing else.  Each rule is
    judged by itself, so the verdict does not depend on the order of the
    rules, and adding rules never removes the warning. *)
Theorem check_focus_visible_iff (css_rules : list string) :
  (check_focus_visible css_rules = Some focus_not_visible <->
   exists rule, In rule css_rules /\ hides_focus rule) /\
  (check_focus_visible css_rules = None <->
   forall rule, In rule css_rules -> ~ hides_focus rule) /\
  (forall more, Permutation css_rules more ->
     check_focus_visible more = check_focus_visible css_rules) /\
  (forall more, check_focus_visible css_rules = Some focus_not_visible ->
     check_focus_visible (css_rules ++ more) = Some focus_not_visible /\
     check_focus_visible (more ++ css_rules) = Some focus_not_visible).
Proof.
  assert (Hsome : forall l,
    check_focus_visible l = Some focus_not_visible <->
    exists rule, In rule l /\ hides_focus rule).
  { induction l as [|rule rest IH]; cbn [check_focus_visible].
    - split; [discriminate | intros (r & [] & _)].
    - pose proof (hides_focus_test rule) as Ht.
      destruct (Str.contains "outline: none" rule ||
                Str.contains "outline: 0" rule);
        [destruct (negb _) |]; cbn [andb] in Ht.
      + split; [| reflexivity]. intros _. exists rule.
        split; [now left | now apply Ht].
      + rewrite IH. split.
        * intros (r & Hr & Hh). exists r. split; [now right | exact Hh].
        * intros (r & [<- | Hr] & Hh); [| now exists r].
          apply Ht in Hh. discriminate.
      + rewrite IH. split.
        * intros (r & Hr & Hh). exists r. split; [now right | exact Hh].
        * intros (r & [<- | Hr] & Hh); [| now exists r].
          apply Ht in Hh. discriminate. }
  assert (Hcases : forall l,
    check_focus_visible l = Some focus_not_visible \/
    check_focus_visible l = None).
  { induction l as [|rule rest IH]; cbn [check_focus_visible];
      [now right |].
    destruct (_ || _); [destruct (negb _) |]; auto. }
  assert (Hnone : forall l,
    check_focus_visible l = None <->
    forall rule, In rule l -> ~ hides_focus rule).
  { intros l. split.
    - intros Hn rule Hr Hh.
      assert (check_focus_visible l = Some focus_not_visible)
        by (apply Hsome; eauto).
      congruence.
    - intros Hall. destruct (Hcases l) as [Hs | Hn]; [| exact Hn].
      apply Hsome in Hs as (r & Hr & Hh). now destruct (Hall r Hr). }
  split; [apply Hsome |]. split; [apply Hnone |]. split.
  - intros more Hperm.
    destruct (Hcases css_rules) as [Hs | Hn].
    + rewrite Hs. apply Hsome. apply Hsome in Hs as (r & Hr & Hh).
      exists r. split; [| exact Hh]. now apply (Permutation_in _ Hperm).
    + rewrite Hn. apply Hnone. intros r Hr.
      apply (proj1 (Hnone css_rules) Hn).
      now apply (Permutation_in _ (Permutation_sym Hperm)).
  - intros more Hs. apply Hsome in Hs as (r & Hr & Hh).
    split; apply Hsome; exists r; (split; [| exact Hh]);
      apply in_app_iff; auto.
Qed.

(** The spelling matters: without the space after the colon the rule is
    not seen, and a border named in another rule does not count. *)
Example check_focus_visible_cases :
  check_focus_visible ["a:focus { outline: none; }"] = Some focus_not_visible /\
  check_focus_visible ["a:focus { outline:none; }"] = None /\
  check_focus_visible ["a:focus { outline: none; }";
                       "a:focus { border: 1px solid; }"]
    = Some focus_not_visible /\
  check_focus_visible ["a:focus { outline: none; border: 1px solid; }"] = None.
Proof. repeat split; vm_compute; reflexivity. Qed.

(** * The catalog in file order *)

(** A Python dictionary with string keys: its items in insertion order. *)
Module Dict.

Definition t (V : Type) : Type := list (string * V).

(** [d.get(k)] *)
Fixpoint get {V : Type} (k : string) (d : t V) : option V :=
  match d with
  | [] => None
  | (k', v) :: rest => if String.eqb k' k then Some v else get k rest
  end.

(** [d[k] = v]: a key already present keeps its place. *)
Fixpoint set {V : Type} (k : string) (v : V) (d : t V) : t V :=
  match d with
  | [] => [(k, v)]
  | (k', v') :: rest =>
      if String.eqb k' k then (k', v) :: rest else (k', v') :: set k v rest
  end.

(** [d.values()] *)
Definition values {V : Type} (d : t V) : list V := map snd d.

End Dict.

(** [l.sort(key=f)]: the keys are computed first, and any of them may raise;
    the sort is stable, an element going after those that are not above
    it. *)
Module Sorting.

Section Keyed.
Context {K V : Type}.
Variable lt : K -> K -> bool.

Fixpoint insert (x : K * V) (sorted : list (K * V)) : list (K * V) :=
  match sorted with
  | [] => [x]
  | y :: rest =>
      if lt (fst x) (fst y) then x :: y :: rest else y :: insert x rest
  end.

Definition sort_keyed (l : list (K * V)) : list (K * V) :=
  fold_left (fun sorted x => insert x sorted) l [].

Fixpoint keyed (f : V -> result K) (l : list V) : result (list (K * V)) :=
  match l with
  | [] => Ok []
  | x :: rest =>
      k <- f x ;;
      ks <- keyed f rest ;;
      Ok ((k, x) :: ks)
  end.

Definition sort (f : V -> result K) (l : list V) : result (list V) :=
  ks <- keyed f l ;;
  Ok (map snd (sort_keyed ks)).

End Keyed.

End Sorting.

(** [WCAGDataLoader] with its three indexes, each in insertion order. *)
Module Catalog.

Record Loader := {
  _criteria_by_number : Dict.t WCAGCriterion;
  _criteria_by_level : Dict.t (list WCAGCriterion);
  _criteria_by_principle : Dict.t (list WCAGCriterion)
}.

Definition init : Loader :=
  {| _criteria_by_number := [];
     _criteria_by_level := [("A", []); ("AA", []); ("AAA", [])];
     _criteria_by_principle := [] |}.

(** The body of the loop of [_process_criteria]. *)
Definition process_item (self : Loader) (item : string * CriterionData)
    : result Loader :=
  let criterion := WCAGData.make_criterion (fst item) (snd item) in
  let by_number :=
    Dict.set (fst item) criterion (_criteria_by_number self) in
  match Dict.get (level criterion) (_criteria_by_level self) with
  | None => Raise KeyError
  | Some l =>
      let by_level :=
        Dict.set (level criterion) (l ++ [criterion])%list
          (_criteria_by_level self) in
      let by_principle :=
        match Dict.get (principle criterion) (_criteria_by_principle self)
        with
        | None => Dict.set (principle criterion) []
                    (_criteria_by_principle self)
        | Some _ => _criteria_by_principle self
        end in
      let by_principle :=
        Dict.set (principle criterion)
          (default [] (Dict.get (principle criterion) by_principle)
             ++ [criterion])%list by_principle in
      Ok {| _criteria_by_number := by_number;
            _criteria_by_level := by_level;
            _criteria_by_principle := by_principle |}
  end.

Fixpoint process_items (self : Loader)
    (items : list (string * CriterionData)) : result Loader :=
  match items with
  | [] => Ok self
  | item :: rest =>
      self' <- process_item self item ;;
      process_items self' rest
  end.

(** [_process_criteria], from the items of the ["criteria"] object of the
    data file, in the order of the file. *)
Definition _process_criteria (criteria : Dict.t CriterionData)
    : result Loader :=
  process_items init criteria.

Definition get_criterion (self : Loader) (number : string)
    : option WCAGCriterion :=
  Dict.get number (_criteria_by_number self).

Definition get_criteria_by_level (self : Loader) (level : string)
    : list WCAGCriterion :=
  default [] (Dict.get level (_criteria_by_level self)).

Definition get_criteria_by_principle (self : Loader) (principle : string)
    : list WCAGCriterion :=
  default [] (Dict.get principle (_criteria_by_principle self)).

Definition get_all_criteria (self : Loader) : list WCAGCriterion :=
  Dict.values (_criteria_by_number self).

Definition search_criteria (self : Loader) (search_term : string)
    : list WCAGCriterion :=
  let search_term := Str.lower search_term in
  List.filter
    (fun criterion =>
       Str.contains search_term (Str.lower (title criterion)) ||
       Str.contains search_term (Str.lower (description criterion)) ||
       Str.contains search_term (Str.lower (guideline criterion)))
    (Dict.values (_criteria_by_number self)).

Definition technique_mappings : Dict.t (list string) :=
  [("images", ["1.1.1"; "1.4.5"; "1.4.9"]);
   ("forms", ["1.3.1"; "3.3.1"; "3.3.2"; "3.3.3"; "3.3.4"; "4.1.2"]);
   ("color", ["1.4.1"; "1.4.3"; "1.4.6"; "1.4.11"]);
   ("keyboard", ["2.1.1"; "2.1.2"; "2.1.4"; "2.4.3"; "2.4.7"]);
   ("headings", ["1.3.1"; "2.4.6"; "2.4.10"]);
   ("links", ["2.4.4"; "2.4.9"; "4.1.2"]);
   ("language", ["3.1.1"; "3.1.2"]);
   ("media", ["1.2.1"; "1.2.2"; "1.2.3"; "1.2.4"; "1.2.5"; "1.2.6"; "1.2.7";
              "1.2.8"; "1.2.9"]);
   ("timing", ["2.2.1"; "2.2.2"; "2.2.3"; "2.2.4"; "2.2.5"; "2.2.6"]);
   ("seizures", ["2.3.1"; "2.3.2"; "2.3.3"]);
   ("navigation", ["2.4.1"; "2.4.2"; "2.4.5"; "2.4.8"; "3.2.3"; "3.2.4"]);
   ("input", ["1.3.5"; "2.5.1"; "2.5.2"; "2.5.3"; "2.5.4"; "2.5.6"; "3.3.7";
              "3.3.8"]);
   ("focus", ["2.4.7"; "2.4.11"; "2.4.12"; "2.4.13"])].

Definition get_criteria_for_techniques (self : Loader)
    (technique_type : string) : list WCAGCriterion :=
  let numbers :=
    default [] (Dict.get (Str.lower technique_type) technique_mappings) in
  omap (fun num => Dict.get num (_criteria_by_number self)) numbers.

Definition get_principles : list string :=
  ["Perceivable"; "Operable"; "Understandable"; "Robust"].

End Catalog.

(** The catalog tools of [server.py]. *)
Module Tools.

Inductive CriterionInfo :=
  | NotFound (error : string) (available_criteria : string)
  | Found (number id title level version description principle guideline
             : string)
      (exceptions : list string) (conformance : string).

Definition conformance_of (level : string) : string :=
  default "Unknown level"
    (Dict.get ("Level " +:+ level)
       [("Level A", "Must comply for basic accessibility");
        ("Level AA",
         "Should comply for standard accessibility (recommended minimum)");
        ("Level AAA",
         "May comply for enhanced accessibility (not required for general compliance)")]).

Definition get_wcag_criterion (wcag_data : Catalog.Loader)
    (criterion_number : string) : CriterionInfo :=
  match Catalog.get_criterion wcag_data criterion_number with
  | None =>
      NotFound ("WCAG criterion " +:+ criterion_number +:+ " not found")
        "Use search_wcag_criteria or list_wcag_criteria to find valid criteria"
  | Some criterion =>
      Found (number criterion) (id criterion) (title criterion)
        (level criterion) ("WCAG " +:+ version criterion)
        (description criterion) (principle criterion) (guideline criterion)
        (default [] (exceptions criterion))
        (conformance_of (level criterion))
  end.

Record SearchEntry := {
  se_number : string;
  se_title : string;
  se_level : string;
  se_version : string;
  se_principle : string;
  se_guideline : string;
  brief_description : string
}.

Inductive SearchOutcome :=
  | NoResults (search_term : string) (message : string)
  | Results (search_term : string) (total_results showing : Z)
      (results : list SearchEntry).

Definition search_entry (criterion : WCAGCriterion) : SearchEntry :=
  {| se_number := number criterion;
     se_title := title criterion;
     se_level := level criterion;
     se_version := version criterion;
     se_principle := principle criterion;
     se_guideline := guideline criterion;
     brief_description :=
       if Str.len (description criterion) >? 200
       then Py.slice 0 200 (description criterion) +:+ "..."
       else description criterion |}.

Definition search_wcag_criteria (wcag_data : Catalog.Loader)
    (search_term : string) : SearchOutcome :=
  let criteria := Catalog.search_criteria wcag_data search_term in
  match criteria with
  | [] => NoResults search_term "No criteria found matching the search term"
  | _ =>
      let results := map search_entry (firstn 20 criteria) in
      Results search_term (Z.of_nat (length criteria))
        (Z.of_nat (length results)) results
  end.

Record ListEntry := {
  le_number : string;
  le_title : string;
  le_level : string;
  le_version : string;
  le_principle : string;
  le_guideline : string
}.

Inductive ListOutcome :=
  | ListError (error : string)
  | Listing (filter_level filter_principle : string) (total_criteria : Z)
      (criteria : list ListEntry).

Definition list_entry (criterion : WCAGCriterion) : ListEntry :=
  {| le_number := number criterion;
     le_title := title criterion;
     le_level := level criterion;
     le_version := version criterion;
     le_principle := principle criterion;
     le_guideline := guideline criterion |}.

(** [int(n)] on a text of any length: since Python 3.11 the interpreter
    refuses, with [ValueError], a decimal text of more than
    [sys.get_int_max_str_digits()] digits, 4300 unless it is configured
    otherwise. *)
Definition int_max_str_digits : Z := 4300.

Fixpoint count_digits (s : string) : Z :=
  match s with
  | EmptyString => 0
  | String c r => (if Py.between 48 57 c then 1 else 0) + count_digits r
  end.

Definition int10 (s : string) : result Z :=
  if int_max_str_digits <? count_digits s then Raise ValueError
  else Py.int 10 s.

(** [[int(n) for n in x.number.split('.')]] *)
Fixpoint ints (parts : list string) : result (list Z) :=
  match parts with
  | [] => Ok []
  | n :: rest =>
      z <- int10 n ;;
      zs <- ints rest ;;
      Ok (z :: zs)
  end.

Definition number_key (x : WCAGCriterion) : result (list Z) :=
  ints (Str.split "." (number x)).

(** [c.level], where the name [level] is taken by a parameter. *)
Definition level_of (c : WCAGCriterion) : string := level c.

(** [list_wcag_criteria].  The list it sorts is, for a filter on the level
    alone or on the principle alone, the list the loader keeps in its index:
    the sort is in place, so the tool returns the loader as it leaves it. *)
Definition list_wcag_criteria (wcag_data : Catalog.Loader)
    (level principle : string) : result (Catalog.Loader * ListOutcome) :=
  if negb (Py.mem (Py.upper level) ["A"; "AA"; "AAA"; "ALL"])
  then Ok (wcag_data, ListError "Level must be A, AA, AAA, or 'all'")
  else
    let valid_principles := (Catalog.get_principles ++ ["all"])%list in
    if negb (Py.mem principle valid_principles)
    then Ok (wcag_data,
             ListError ("Principle must be one of: " +:+
                        String.concat ", " valid_principles))
    else
      let listing criteria :=
        let results := map list_entry criteria in
        Listing level principle (Z.of_nat (length results)) results in
      if String.eqb (Py.upper level) "ALL" &&
         String.eqb (Str.lower principle) "all"
      then
        criteria <- Sorting.sort Str.list_ltb number_key
                      (Catalog.get_all_criteria wcag_data) ;;
        Ok (wcag_data, listing criteria)
      else if String.eqb (Py.upper level) "ALL" then
        criteria <- Sorting.sort Str.list_ltb number_key
                      (Catalog.get_criteria_by_principle wcag_data principle) ;;
        let wcag_data :=
          match Dict.get principle (Catalog._criteria_by_principle wcag_data)
          with
          | Some _ =>
              {| Catalog._criteria_by_number :=
                   Catalog._criteria_by_number wcag_data;
                 Catalog._criteria_by_level :=
                   Catalog._criteria_by_level wcag_data;
                 Catalog._criteria_by_principle :=
                   Dict.set principle criteria
                     (Catalog._criteria_by_principle wcag_data) |}
          | None => wcag_data
          end in
        Ok (wcag_data, listing criteria)
      else if String.eqb (Str.lower principle) "all" then
        criteria <- Sorting.sort Str.list_ltb number_key
                      (Catalog.get_criteria_by_level wcag_data
                         (Py.upper level)) ;;
        let wcag_data :=
          match Dict.get (Py.upper level)
                  (Catalog._criteria_by_level wcag_data) with
          | Some _ =>
              {| Catalog._criteria_by_number :=
                   Catalog._criteria_by_number wcag_data;
                 Catalog._criteria_by_level :=
                   Dict.set (Py.upper level) criteria
                     (Catalog._criteria_by_level wcag_data);
                 Catalog._criteria_by_principle :=
                   Catalog._criteria_by_principle wcag_data |}
          | None => wcag_data
          end in
        Ok (wcag_data, listing criteria)
      else
        let all_for_principle :=
          Catalog.get_criteria_by_principle wcag_data principle in
        criteria <- Sorting.sort Str.list_ltb number_key
                      (List.filter
                         (fun c => String.eqb (level_of c) (Py.upper level))
                         all_for_principle) ;;
        Ok (wcag_data, listing criteria).

Record GuidanceEntry := {
  g_number : string;
  g_title : string;
  g_level : string;
  g_description : string;
  g_guideline : string;
  implementation_priority : string
}.

Inductive GuidanceOutcome :=
  | NoGuidance (element_type context message : string)
      (available_types : list string)
  | Guidance (element_type context : string) (applicable_criteria : Z)
      (guidance : list GuidanceEntry) (summary : string).

Definition level_order (level : string) : Z :=
  default 4 (Dict.get level [("A", 1); ("AA", 2); ("AAA", 3)]).

(** [a < b] on the pairs [(level_order, number)]. *)
Definition pair_ltb (a b : Z * string) : bool :=
  (fst a <? fst b) || ((fst a =? fst b) && Str.ltb (snd a) (snd b)).

Definition guidance_entry (criterion : WCAGCriterion) : GuidanceEntry :=
  {| g_number := number criterion;
     g_title := title criterion;
     g_level := level criterion;
     g_description := description criterion;
     g_guideline := guideline criterion;
     implementation_priority :=
       default "Unknown"
         (Dict.get (level criterion)
            [("A", "Required - Must implement for basic accessibility");
             ("AA", "Recommended - Standard accessibility level");
             ("AAA", "Enhanced - Additional accessibility improvement")]) |}.

Definition available_types : list string :=
  ["images"; "forms"; "color"; "keyboard"; "headings"; "links"; "language";
   "media"; "timing"; "seizures"; "navigation"; "input"; "focus"].

Definition get_wcag_guidance_for_element (wcag_data : Catalog.Loader)
    (element_type context : string) : GuidanceOutcome :=
  let criteria := Catalog.get_criteria_for_techniques wcag_data element_type in
  match criteria with
  | [] =>
      NoGuidance element_type context
        ("No specific guidance found for '" +:+ element_type +:+ "'")
        available_types
  | _ =>
      let criteria :=
        map snd
          (Sorting.sort_keyed pair_ltb
             (map (fun x => ((level_order (level x), number x), x))
                criteria)) in
      let guidance := map guidance_entry criteria in
      Guidance element_type context (Z.of_nat (length guidance)) guidance
        ("Found " +:+ Py.str_of_int (Z.of_nat (length guidance)) +:+
         " WCAG criteria applicable to " +:+ element_type)
  end.

End Tools.

(** ** Dictionaries *)

Lemma dict_get_In {V : Type} (k : string) (d : Dict.t V) :
  Dict.get k d = None <-> ~ In k (map fst d).
Proof.
  induction d as [|[k' v] rest IH]; cbn [Dict.get map fst In].
  - tauto.
  - destruct (String.eqb k' k) eqn:Hk.
    + apply String.eqb_eq in Hk. split; [discriminate | tauto].
    + apply String.eqb_neq in Hk. rewrite IH. tauto.
Qed.

Lemma dict_set_fresh {V : Type} (k : string) (v : V) (d : Dict.t V) :
  ~ In k (map fst d) -> Dict.set k v d = (d ++ [(k, v)])%list.
Proof.
  induction d as [|[k' v'] rest IH]; cbn [Dict.set map fst In app];
    intros Hk; [reflexivity |].
  destruct (String.eqb k' k) eqn:Hkk.
  - apply String.eqb_eq in Hkk. tauto.
  - rewrite IH by tauto. reflexivity.
Qed.

Lemma dict_set_keys {V : Type} (k : string) (v : V) (d : Dict.t V) :
  In k (map fst d) -> map fst (Dict.set k v d) = map fst d.
Proof.
  induction d as [|[k' v'] rest IH]; cbn [Dict.set map fst In];
    intros Hk; [destruct Hk |].
  destruct (String.eqb k' k) eqn:Hkk; [reflexivity |].
  apply String.eqb_neq in Hkk. cbn [map fst]. rewrite IH; tauto.
Qed.

Lemma dict_get_set_eq {V : Type} (k : string) (v : V) (d : Dict.t V) :
  Dict.get k (Dict.set k v d) = Some v.
Proof.
  induction d as [|[k' v'] rest IH]; cbn [Dict.set Dict.get].
  - now rewrite String.eqb_refl.
  - destruct (String.eqb k' k) eqn:Hkk; cbn [Dict.get]; now rewrite Hkk.
Qed.

Lemma dict_get_set_ne {V : Type} (k k' : string) (v : V) (d : Dict.t V) :
  k <> k' -> Dict.get k' (Dict.set k v d) = Dict.get k' d.
Proof.
  intros Hne. induction d as [|[k0 v0] rest IH]; cbn [Dict.set Dict.get].
  - now rewrite (proj2 (String.eqb_neq _ _) Hne).
  - destruct (String.eqb k0 k) eqn:Hk0; cbn [Dict.get].
    + apply String.eqb_eq in Hk0. subst k0.
      now rewrite (proj2 (String.eqb_neq _ _) Hne).
    + now rewrite IH.
Qed.

Lemma dict_get_map {V W : Type} (f : string -> V -> W) (k : string)
    (d : Dict.t V) :
  Dict.get k (map (fun kv => (fst kv, f (fst kv) (snd kv))) d) =
  f k <$> Dict.get k d.
Proof.
  induction d as [|[k' v] rest IH]; cbn [map Dict.get fst snd];
    [reflexivity |].
  destruct (String.eqb k' k) eqn:Hk; [| exact IH].
  apply String.eqb_eq in Hk. now subst.
Qed.

(** ** Stable sorting *)

Section SortFacts.
Context {K V : Type}.
Variable lt : K -> K -> bool.

(** [a] may stand before [b]. *)
Definition before (a b : K * V) : Prop := lt (fst b) (fst a) = false.

Hypothesis lt_asym : forall a b, lt a b = true -> lt b a = false.

Lemma insert_perm (x : K * V) (l : list (K * V)) :
  Permutation (Sorting.insert lt x l) (x :: l).
Proof.
  induction l as [|y rest IH]; cbn [Sorting.insert]; [reflexivity |].
  destruct (lt (fst x) (fst y)); [reflexivity |].
  rewrite IH. apply perm_swap.
Qed.

Lemma fold_insert_perm (l : list (K * V)) :
  forall acc,
    Permutation (fold_left (fun sorted x => Sorting.insert lt x sorted) l acc)
      (acc ++ l).
Proof.
  induction l as [|x l IH]; intros acc; cbn [fold_left].
  - now rewrite app_nil_r.
  - rewrite IH, insert_perm. cbn [app]. apply Permutation_middle.
Qed.

Lemma sort_keyed_perm (l : list (K * V)) :
  Permutation (Sorting.sort_keyed lt l) l.
Proof. apply (fold_insert_perm l []). Qed.

Lemma insert_sorted (x : K * V) (l : list (K * V)) :
  Sorted before l -> Sorted before (Sorting.insert lt x l).
Proof.
  induction 1 as [|y rest Hrest IH Hhd]; cbn [Sorting.insert].
  - repeat constructor.
  - destruct (lt (fst x) (fst y)) eqn:Hxy.
    + constructor; [now constructor |]. constructor.
      unfold before. now apply lt_asym.
    + constructor; [exact IH |].
      destruct rest as [|z rest']; cbn [Sorting.insert].
      * constructor. exact Hxy.
      * destruct (lt (fst x) (fst z)); constructor;
          [exact Hxy | now inversion Hhd].
Qed.

Lemma sort_keyed_sorted (l : list (K * V)) :
  Sorted before (Sorting.sort_keyed lt l).
Proof.
  unfold Sorting.sort_keyed.
  assert (H : forall acc, Sorted before acc ->
            Sorted before
              (fold_left (fun sorted x => Sorting.insert lt x sorted) l acc)).
  { induction l as [|x l IH]; intros acc Hacc; cbn [fold_left];
      [exact Hacc |].
    apply IH. now apply insert_sorted. }
  apply H. constructor.
Qed.

Lemma insert_last (x : K * V) (l : list (K * V)) :
  Forall (fun y => before y x) l ->
  Sorting.insert lt x l = (l ++ [x])%list.
Proof.
  induction 1 as [|y rest Hy _ IH]; cbn [Sorting.insert app]; [reflexivity |].
  unfold before in Hy. now rewrite Hy, IH.
Qed.

(** A list already in order is left as it is. *)
Lemma sort_keyed_ordered (l : list (K * V)) :
  StronglySorted before l -> Sorting.sort_keyed lt l = l.
Proof.
  unfold Sorting.sort_keyed.
  assert (H : forall acc,
            StronglySorted before l ->
            Forall (fun a => Forall (before a) l) acc ->
            fold_left (fun sorted x => Sorting.insert lt x sorted) l acc =
            (acc ++ l)%list).
  { induction l as [|x l IH]; intros acc Hl Hacc; cbn [fold_left].
    - now rewrite app_nil_r.
    - inversion Hl as [|? ? Hl' Hx]; subst.
      rewrite insert_last.
      + rewrite IH; [now rewrite <- app_assoc | exact Hl' |].
        apply Forall_app. split.
        * eapply Forall_impl; [exact Hacc |].
          intros a Ha. now inversion Ha.
        * constructor; [exact Hx | constructor].
      + eapply Forall_impl; [exact Hacc |].
        intros a Ha. now inversion Ha. }
  intros Hl. apply (H [] Hl). constructor.
Qed.

Lemma keyed_values (f : V -> result K) (l : list V) (ks : list (K * V)) :
  Sorting.keyed f l = Ok ks ->
  map snd ks = l /\ Forall (fun kx => f (snd kx) = Ok (fst kx)) ks.
Proof.
  revert ks. induction l as [|x l IH]; intros ks; cbn [Sorting.keyed].
  - intros H. inversion H; subst. split; [reflexivity | constructor].
  - destruct (f x) as [k|] eqn:Hk; cbn [rbind]; [| discriminate].
    destruct (Sorting.keyed f l) as [ks'|]; cbn [rbind]; [| discriminate].
    intros H. inversion H; subst. destruct (IH ks' eq_refl) as [Hm Hf].
    split; [cbn [map snd]; now rewrite Hm |].
    constructor; [exact Hk | exact Hf].
Qed.

Lemma keyed_outcome (f : V -> result K) (l : list V) :
  (Forall (fun x => exists k, f x = Ok k) l ->
   exists ks, Sorting.keyed f l = Ok ks) /\
  (forall e, (forall x e', f x = Raise e' -> e' = e) ->
     ~ Forall (fun x => exists k, f x = Ok k) l ->
     Sorting.keyed f l = Raise e).
Proof.
  induction l as [|x l [IHok IHbad]]; cbn [Sorting.keyed].
  - split; [eauto |]. intros e _ Hn. destruct Hn. constructor.
  - split.
    + intros Hall. inversion Hall as [|? ? [k Hk] Hl]; subst.
      destruct (IHok Hl) as [ks Hks]. rewrite Hk, Hks. cbn [rbind]. eauto.
    + intros e He Hn. destruct (f x) as [k|e'] eqn:Hk; cbn [rbind].
      * rewrite (IHbad e He); [reflexivity |].
        intros Hl. apply Hn. constructor; eauto.
      * f_equal. now apply (He x).
Qed.

End SortFacts.

Section StableFacts.
Context {K V : Type}.
Variable lt : K -> K -> bool.
Hypothesis lt_asym : forall a b, lt a b = true -> lt b a = false.
Hypothesis lt_below :
  forall x y z, lt x y = true -> lt z y = false -> lt x z = true.
Hypothesis before_trans :
  forall a b c, lt b a = false -> lt c b = false -> lt c a = false.

Lemma before_transitive : Relations_1.Transitive (@before K V lt).
Proof. intros a b c Hab Hbc. unfold before in *. eauto. Qed.

Lemma sort_keyed_strongly (l : list (K * V)) :
  StronglySorted (before lt) (Sorting.sort_keyed lt l).
Proof.
  apply Sorted_StronglySorted; [exact before_transitive |].
  now apply sort_keyed_sorted.
Qed.

Lemma insert_strongly (x : K * V) (l : list (K * V)) :
  StronglySorted (before lt) l ->
  StronglySorted (before lt) (Sorting.insert lt x l).
Proof.
  intros Hl. apply Sorted_StronglySorted; [exact before_transitive |].
  apply insert_sorted; [exact lt_asym |]. now apply StronglySorted_Sorted.
Qed.

Lemma insert_first (x : K * V) (l : list (K * V)) :
  match l with [] => True | z :: _ => lt (fst x) (fst z) = true end ->
  Sorting.insert lt x l = x :: l.
Proof.
  destruct l as [|z l]; cbn [Sorting.insert]; [reflexivity |].
  now intros ->.
Qed.

Lemma insert_filter (g : K * V -> bool) (x : K * V) (l : list (K * V)) :
  StronglySorted (before lt) l ->
  List.filter g (Sorting.insert lt x l) =
  if g x then Sorting.insert lt x (List.filter g l) else List.filter g l.
Proof.
  induction 1 as [|y rest Hrest IH Hy]; cbn [Sorting.insert List.filter].
  - now destruct (g x).
  - destruct (lt (fst x) (fst y)) eqn:Hxy; cbn [List.filter].
    + destruct (g x); [| reflexivity].
      symmetry. apply insert_first.
      destruct (g y); [exact Hxy |].
      destruct (List.filter g rest) as [|z zs] eqn:Hf; [exact I |].
      assert (Hz : In z rest).
      { apply (proj1 (List.filter_In g z rest)). rewrite Hf. now left. }
      rewrite Forall_forall in Hy.
      specialize (Hy z (proj2 (list_elem_of_In _ _) Hz)).
      unfold before in Hy. now apply (lt_below _ (fst y)).
    + rewrite IH. destruct (g y), (g x); cbn [Sorting.insert];
        rewrite ?Hxy; reflexivity.
Qed.

Lemma fold_insert_filter (g : K * V -> bool) (l : list (K * V)) :
  forall acc, StronglySorted (before lt) acc ->
  fold_left (fun sorted x => Sorting.insert lt x sorted) (List.filter g l)
    (List.filter g acc) =
  List.filter g
    (fold_left (fun sorted x => Sorting.insert lt x sorted) l acc).
Proof.
  induction l as [|x l IH]; intros acc Hacc; cbn [List.filter fold_left];
    [reflexivity |].
  rewrite <- (IH _ (insert_strongly x acc Hacc)).
  rewrite (insert_filter g x acc Hacc).
  now destruct (g x).
Qed.

(** Sorting a selection is selecting from the sorted list: the sort is
    stable. *)
Lemma sort_keyed_filter (g : K * V -> bool) (l : list (K * V)) :
  Sorting.sort_keyed lt (List.filter g l) =
  List.filter g (Sorting.sort_keyed lt l).
Proof.
  unfold Sorting.sort_keyed.
  apply (fold_insert_filter g l []). constructor.
Qed.

Lemma strongly_filter (g : K * V -> bool) (l : list (K * V)) :
  StronglySorted (before lt) l -> StronglySorted (before lt) (List.filter g l).
Proof.
  induction 1 as [|y rest Hrest IH Hy]; cbn [List.filter]; [constructor |].
  destruct (g y); [| exact IH].
  constructor; [exact IH |].
  apply Forall_forall. intros z Hz.
  apply list_elem_of_In, List.filter_In in Hz. destruct Hz as [Hz _].
  rewrite Forall_forall in Hy. now apply Hy, list_elem_of_In.
Qed.

Lemma keyed_of_keys (f : V -> result K) (ks : list (K * V)) :
  Forall (fun kx => f (snd kx) = Ok (fst kx)) ks ->
  Sorting.keyed f (map snd ks) = Ok ks.
Proof.
  induction 1 as [|[k x] ks Hk _ IH]; cbn [map snd Sorting.keyed];
    [reflexivity |].
  cbn [fst snd] in Hk. rewrite Hk, IH. reflexivity.
Qed.

Lemma keyed_filter (f : V -> result K) (g : V -> bool) (l : list V)
    (ks : list (K * V)) :
  Sorting.keyed f l = Ok ks ->
  Sorting.keyed f (List.filter g l) =
  Ok (List.filter (fun kx => g (snd kx)) ks).
Proof.
  revert ks. induction l as [|x l IH]; intros ks;
    cbn [Sorting.keyed List.filter].
  - intros H. now inversion H.
  - destruct (f x) as [k|] eqn:Hk; cbn [rbind]; [| discriminate].
    destruct (Sorting.keyed f l) as [ks'|]; cbn [rbind]; [| discriminate].
    intros H. inversion H; subst. cbn [List.filter snd].
    destruct (g x); cbn [Sorting.keyed]; rewrite ?Hk, (IH ks' eq_refl);
      reflexivity.
Qed.

(** Sorting what a sort returned gives it back. *)
Lemma sort_idempotent (f : V -> result K) (l sorted : list V) :
  Sorting.sort lt f l = Ok sorted -> Sorting.sort lt f sorted = Ok sorted.
Proof.
  unfold Sorting.sort. destruct (Sorting.keyed f l) as [ks|] eqn:Hks;
    cbn [rbind]; [| discriminate].
  intros H. inversion H; subst; clear H.
  destruct (keyed_values f l ks Hks) as [_ Hkeys].
  rewrite keyed_of_keys.
  - cbn [rbind]. now rewrite (sort_keyed_ordered lt _ (sort_keyed_strongly ks)).
  - apply Forall_forall. intros kx Hkx.
    rewrite Forall_forall in Hkeys. apply Hkeys.
    apply list_elem_of_In. apply list_elem_of_In in Hkx.
    now apply (Permutation_in _ (sort_keyed_perm lt ks)).
Qed.

(** Selecting from a sorted list and sorting the selection: the sorted
    selection of the list before the sort. *)
Lemma sort_filter_sorted (f : V -> result K) (g : V -> bool)
    (l sorted : list V) :
  Sorting.sort lt f l = Ok sorted ->
  Sorting.sort lt f (List.filter g sorted) =
  Sorting.sort lt f (List.filter g l).
Proof.
  unfold Sorting.sort. destruct (Sorting.keyed f l) as [ks|] eqn:Hks;
    cbn [rbind]; [| discriminate].
  intros H. inversion H; subst; clear H.
  destruct (keyed_values f l ks Hks) as [_ Hkeys].
  rewrite (keyed_filter f g l ks Hks). cbn [rbind].
  assert (Hsorted : Sorting.keyed f (map snd (Sorting.sort_keyed lt ks)) =
                    Ok (Sorting.sort_keyed lt ks)).
  { apply keyed_of_keys. apply Forall_forall. intros kx Hkx.
    rewrite Forall_forall in Hkeys. apply Hkeys.
    apply list_elem_of_In. apply list_elem_of_In in Hkx.
    now apply (Permutation_in _ (sort_keyed_perm lt ks)). }
  rewrite (keyed_filter f g _ _ Hsorted). cbn [rbind]. f_equal. f_equal.
  rewrite (sort_keyed_filter (fun kx => g (snd kx)) ks).
  apply sort_keyed_ordered, strongly_filter, sort_keyed_strongly.
Qed.

Lemma sort_perm (f : V -> result K) (l sorted : list V) :
  Sorting.sort lt f l = Ok sorted -> Permutation sorted l.
Proof.
  unfold Sorting.sort. destruct (Sorting.keyed f l) as [ks|] eqn:Hks;
    cbn [rbind]; [| discriminate].
  intros H. inversion H; subst; clear H.
  destruct (keyed_values f l ks Hks) as [<- _].
  apply Permutation_map, sort_keyed_perm.
Qed.

(** What a sort returns is in the order of the keys. *)
Lemma sort_ordered (f : V -> result K) (l sorted : list V) :
  Sorting.sort lt f l = Ok sorted ->
  StronglySorted
    (fun a b => exists ka kb, f a = Ok ka /\ f b = Ok kb /\ lt kb ka = false)
    sorted.
Proof.
  unfold Sorting.sort. destruct (Sorting.keyed f l) as [ks|] eqn:Hks;
    cbn [rbind]; [| discriminate].
  intros H. inversion H; subst; clear H.
  destruct (keyed_values f l ks Hks) as [_ Hkeys].
  assert (Hk : Forall (fun kx => f (snd kx) = Ok (fst kx))
                 (Sorting.sort_keyed lt ks)).
  { apply Forall_forall. intros kx Hkx.
    rewrite Forall_forall in Hkeys. apply Hkeys.
    apply list_elem_of_In. apply list_elem_of_In in Hkx.
    now apply (Permutation_in _ (sort_keyed_perm lt ks)). }
  pose proof (sort_keyed_strongly ks) as Hs.
  induction Hs as [|y rest Hrest IH Hy]; cbn [map]; [constructor |].
  inversion Hk as [|? ? Hy' Hk']; subst.
  constructor; [now apply IH |].
  apply Forall_forall. intros b Hb.
  apply list_elem_of_In, in_map_iff in Hb as (kb & <- & Hkb).
  rewrite Forall_forall in Hy, Hk'.
  apply list_elem_of_In in Hkb.
  exists (fst y), (fst kb). split; [exact Hy' |].
  split; [now apply Hk' |]. now apply Hy.
Qed.

End StableFacts.

(** ** The order of the criterion numbers *)

Ltac order_cases :=
  repeat match goal with
         | |- context [(?p <? ?q)] => destruct (Z.ltb_spec p q)
         | H : context [(?p <? ?q)] |- _ => destruct (Z.ltb_spec p q)
         end;
  try congruence; try lia.

Lemma list_ltb_asym (a b : list Z) :
  Str.list_ltb a b = true -> Str.list_ltb b a = false.
Proof.
  revert b. induction a as [|x a IH]; intros [|y b]; cbn [Str.list_ltb];
    try congruence.
  order_cases. apply IH.
Qed.

Lemma list_ltb_below (x y z : list Z) :
  Str.list_ltb x y = true -> Str.list_ltb z y = false ->
  Str.list_ltb x z = true.
Proof.
  revert y z. induction x as [|a x IH]; intros [|b y] [|c z];
    cbn [Str.list_ltb]; try congruence.
  order_cases. assert (a = c) by lia. assert (b = c) by lia. subst.
  apply IH.
Qed.

Lemma list_before_trans (a b c : list Z) :
  Str.list_ltb b a = false -> Str.list_ltb c b = false ->
  Str.list_ltb c a = false.
Proof.
  revert b c. induction a as [|x a IH]; intros [|y b] [|z c];
    cbn [Str.list_ltb]; try congruence.
  order_cases. assert (x = z) by lia. assert (y = z) by lia. subst.
  apply IH.
Qed.

(** ** The loaded catalog, in file order *)

(** The criteria of the data file, in the order of the file. *)
Definition file_criteria (criteria : Dict.t CriterionData)
    : list WCAGCriterion :=
  map item_criterion criteria.

Definition has_level (lv : string) (c : WCAGCriterion) : bool :=
  String.eqb (level c) lv.

Definition has_principle (p : string) (c : WCAGCriterion) : bool :=
  String.eqb (principle c) p.

Definition numbered (criteria : Dict.t CriterionData)
    : Dict.t WCAGCriterion :=
  map (fun item => (fst item, WCAGData.make_criterion (fst item) (snd item)))
    criteria.

Lemma catalog_process_item (self self' : Catalog.Loader)
    (item : string * CriterionData) :
  Catalog.process_item self item = Ok self' ->
  ~ In (fst item) (map fst (Catalog._criteria_by_number self)) ->
  Catalog._criteria_by_number self' =
    (Catalog._criteria_by_number self ++ numbered [item])%list /\
  In (data_level (snd item)) (map fst (Catalog._criteria_by_level self)) /\
  map fst (Catalog._criteria_by_level self') =
    map fst (Catalog._criteria_by_level self) /\
  (forall lv, In lv (map fst (Catalog._criteria_by_level self)) ->
     Catalog.get_criteria_by_level self' lv =
     (Catalog.get_criteria_by_level self lv ++
      List.filter (has_level lv) [item_criterion item])%list) /\
  (forall p,
     Catalog.get_criteria_by_principle self' p =
     (Catalog.get_criteria_by_principle self p ++
      List.filter (has_principle p) [item_criterion item])%list).
Proof.
  unfold Catalog.process_item. intros Hrun Hfresh.
  change (level (WCAGData.make_criterion item.1 item.2))
    with (data_level item.2) in Hrun.
  change (principle (WCAGData.make_criterion item.1 item.2))
    with (data_principle item.2) in Hrun.
  destruct (Dict.get (data_level item.2) (Catalog._criteria_by_level self))
    as [l|] eqn:Hl; [| discriminate].
  assert (Hin : In (data_level item.2)
                  (map fst (Catalog._criteria_by_level self))).
  { destruct (in_dec string_dec (data_level item.2)
                (map fst (Catalog._criteria_by_level self))) as [H | H];
      [exact H |].
    apply dict_get_In in H. congruence. }
  inversion Hrun; subst self'; clear Hrun.
  cbn [Catalog._criteria_by_number Catalog._criteria_by_level
       Catalog._criteria_by_principle].
  split; [now apply dict_set_fresh |].
  split; [exact Hin |].
  split; [now apply dict_set_keys |].
  split.
  - intros lv Hlv. unfold Catalog.get_criteria_by_level.
    cbn [Catalog._criteria_by_level List.filter].
    unfold has_level, item_criterion.
    change (level (WCAGData.make_criterion item.1 item.2))
      with (data_level item.2).
    destruct (String.eqb (data_level item.2) lv) eqn:Heq.
    + apply String.eqb_eq in Heq. subst lv.
      now rewrite dict_get_set_eq, Hl.
    + apply String.eqb_neq in Heq.
      rewrite dict_get_set_ne by exact Heq. now rewrite app_nil_r.
  - intros p. unfold Catalog.get_criteria_by_principle.
    cbn [Catalog._criteria_by_principle List.filter].
    unfold has_principle, item_criterion.
    change (principle (WCAGData.make_criterion item.1 item.2))
      with (data_principle item.2).
    set (bp := Catalog._criteria_by_principle self).
    set (bp0 := match Dict.get (data_principle item.2) bp with
                | Some _ => bp
                | None => Dict.set (data_principle item.2) [] bp
                end).
    assert (Hbp0 : forall q, default [] (Dict.get q bp0) =
                             default [] (Dict.get q bp)).
    { intros q. unfold bp0.
      destruct (Dict.get (data_principle item.2) bp) as [l0|] eqn:Hp;
        [reflexivity |].
      destruct (string_dec (data_principle item.2) q) as [<- | Hne].
      - now rewrite dict_get_set_eq, Hp.
      - now rewrite dict_get_set_ne. }
    destruct (String.eqb (data_principle item.2) p) eqn:Heq.
    + apply String.eqb_eq in Heq. subst p.
      rewrite dict_get_set_eq. cbn [default from_option Datatypes.id].
      now rewrite Hbp0.
    + apply String.eqb_neq in Heq.
      rewrite dict_get_set_ne by exact Heq.
      now rewrite Hbp0, app_nil_r.
Qed.

Lemma catalog_process_items (items : list (string * CriterionData)) :
  forall self self',
  Catalog.process_items self items = Ok self' ->
  NoDup (map fst (Catalog._criteria_by_number self) ++ map fst items) ->
  Catalog._criteria_by_number self' =
    (Catalog._criteria_by_number self ++ numbered items)%list /\
  Forall (fun item => In (data_level (snd item))
                        (map fst (Catalog._criteria_by_level self))) items /\
  map fst (Catalog._criteria_by_level self') =
    map fst (Catalog._criteria_by_level self) /\
  (forall lv, In lv (map fst (Catalog._criteria_by_level self)) ->
     Catalog.get_criteria_by_level self' lv =
     (Catalog.get_criteria_by_level self lv ++
      List.filter (has_level lv) (file_criteria items))%list) /\
  (forall p,
     Catalog.get_criteria_by_principle self' p =
     (Catalog.get_criteria_by_principle self p ++
      List.filter (has_principle p) (file_criteria items))%list).
Proof.
  induction items as [|item rest IH]; intros self self' Hrun Hnd;
    cbn [Catalog.process_items] in Hrun.
  - inversion Hrun; subst.
    cbn [numbered file_criteria map List.filter].
    rewrite !app_nil_r. repeat split; try constructor.
    + intros lv _. now rewrite app_nil_r.
    + intros p. now rewrite app_nil_r.
  - destruct (Catalog.process_item self item) as [self1|] eqn:H1;
      cbn [rbind] in Hrun; [| discriminate].
    assert (Hfresh : ~ In (fst item)
                       (map fst (Catalog._criteria_by_number self))).
    { intros Hin. apply NoDup_app in Hnd as (_ & Hdisj & _).
      apply (Hdisj (fst item)); [now apply list_elem_of_In |].
      cbn [map]. left. }
    destruct (catalog_process_item self self1 item H1 Hfresh)
      as (Hn1 & Hlv1 & Hk1 & Hl1 & Hp1).
    destruct (IH self1 self' Hrun) as (Hn & Hlv & Hk & Hl & Hp).
    { rewrite Hn1, map_app. cbn [numbered map fst].
      rewrite <- app_assoc. exact Hnd. }
    change (file_criteria (item :: rest))
      with ([item_criterion item] ++ file_criteria rest)%list.
    split; [| split; [| split; [| split]]].
    + rewrite Hn, Hn1, <- app_assoc. reflexivity.
    + constructor; [exact Hlv1 |]. now rewrite Hk1 in Hlv.
    + now rewrite Hk, Hk1.
    + intros lv Hin. rewrite Hl by now rewrite Hk1.
      rewrite Hl1 by exact Hin.
      now rewrite <- app_assoc, List.filter_app.
    + intros p. now rewrite Hp, Hp1, <- app_assoc, List.filter_app.
Qed.

(** The numeric sort of [list_wcag_criteria]. *)
Definition numeric_sort (l : list WCAGCriterion)
    : result (list WCAGCriterion) :=
  Sorting.sort Str.list_ltb Tools.number_key l.

(** An index list of the loader: the criteria in file order, or, after a
    listing has sorted it in place, in the order of that sort. *)
Definition index_of (l in_file_order : list WCAGCriterion) : Prop :=
  l = in_file_order \/ numeric_sort in_file_order = Ok l.

(** The states of the loader the tools can leave behind for a data file. *)
Record catalog_state (criteria : Dict.t CriterionData)
    (self : Catalog.Loader) : Prop := {
  st_numbers : Catalog._criteria_by_number self = numbered criteria;
  st_levels : forall lv,
    index_of (Catalog.get_criteria_by_level self lv)
      (List.filter (has_level lv) (file_criteria criteria));
  st_principles : forall p,
    index_of (Catalog.get_criteria_by_principle self p)
      (List.filter (has_principle p) (file_criteria criteria))
}.

Lemma filter_none {X : Type} (f : X -> bool) (l : list X) :
  (forall x, In x l -> f x = false) -> List.filter f l = [].
Proof.
  induction l as [|x l IH]; intros H; cbn [List.filter]; [reflexivity |].
  rewrite (H x) by now left. apply IH. intros y Hy. apply H. now right.
Qed.

Lemma catalog_loaded (criteria : Dict.t CriterionData)
    (self : Catalog.Loader) :
  NoDup (map fst criteria) ->
  Catalog._process_criteria criteria = Ok self ->
  catalog_state criteria self /\
  Forall (fun item => In (data_level (snd item)) catalog_levels) criteria.
Proof.
  intros Hnd Hrun. unfold Catalog._process_criteria in Hrun.
  destruct (catalog_process_items criteria Catalog.init self Hrun Hnd)
    as (Hn & Hlv & Hk & Hl & Hp).
  split; [| exact Hlv].
  split.
  - exact Hn.
  - intros lv. left.
    destruct (in_dec string_dec lv catalog_levels) as [Hin | Hout].
    + rewrite (Hl lv Hin).
      destruct Hin as [<- | [<- | [<- | []]]]; reflexivity.
    + unfold Catalog.get_criteria_by_level.
      replace (Dict.get lv (Catalog._criteria_by_level self))
        with (@None (list WCAGCriterion)).
      * symmetry. apply filter_none. intros c Hc.
        apply in_map_iff in Hc as (item & <- & Hitem).
        rewrite Forall_forall in Hlv.
        specialize (Hlv item (proj2 (list_elem_of_In _ _) Hitem)).
        unfold has_level. apply String.eqb_neq. intros Heq.
        apply Hout. cbn in Heq. now rewrite <- Heq.
      * symmetry. apply dict_get_In. now rewrite Hk.
  - intros p. left. now rewrite Hp.
Qed.

Lemma index_sort (l f : list WCAGCriterion) :
  index_of l f -> numeric_sort l = numeric_sort f.
Proof.
  intros [-> | Hs]; [reflexivity |]. rewrite Hs.
  exact (sort_idempotent Str.list_ltb list_ltb_asym list_before_trans
           Tools.number_key f l Hs).
Qed.

Lemma index_sort_filter (g : WCAGCriterion -> bool)
    (l f : list WCAGCriterion) :
  index_of l f ->
  numeric_sort (List.filter g l) = numeric_sort (List.filter g f).
Proof.
  intros [-> | Hs]; [reflexivity |].
  exact (sort_filter_sorted Str.list_ltb list_ltb_asym list_ltb_below
           list_before_trans Tools.number_key g f l Hs).
Qed.

Lemma filter_filter {X : Type} (f g : X -> bool) (l : list X) :
  List.filter f (List.filter g l) = List.filter (fun x => g x && f x) l.
Proof.
  induction l as [|x l IH]; cbn [List.filter]; [reflexivity |].
  destruct (g x); cbn [List.filter andb]; [| exact IH].
  destruct (f x); now rewrite IH.
Qed.

Lemma values_numbered (criteria : Dict.t CriterionData) :
  Dict.values (numbered criteria) = file_criteria criteria.
Proof.
  unfold Dict.values, numbered, file_criteria. rewrite map_map.
  reflexivity.
Qed.

(** The criteria a listing is asked for, in file order. *)
Definition selected (criteria : Dict.t CriterionData)
    (level principle : string) : list WCAGCriterion :=
  List.filter
    (fun c =>
       (String.eqb (Py.upper level) "ALL" || has_level (Py.upper level) c) &&
       (String.eqb principle "all" || has_principle principle c))
    (file_criteria criteria).

Definition listing (level principle : string) (sorted : list WCAGCriterion)
    : Tools.ListOutcome :=
  Tools.Listing level principle
    (Z.of_nat (length (map Tools.list_entry sorted)))
    (map Tools.list_entry sorted).

Definition valid_levels : list string := ["A"; "AA"; "AAA"; "ALL"].

Definition valid_principles : list string :=
  ["Perceivable"; "Operable"; "Understandable"; "Robust"; "all"].

Lemma principle_all (principle : string) :
  In principle valid_principles ->
  String.eqb (Str.lower principle) "all" = String.eqb principle "all".
Proof.
  intros [<- | [<- | [<- | [<- | [<- | []]]]]]; reflexivity.
Qed.

Lemma set_index_state (criteria : Dict.t CriterionData)
    (self : Catalog.Loader) :
  catalog_state criteria self ->
  (forall p sorted,
     numeric_sort (Catalog.get_criteria_by_principle self p) = Ok sorted ->
     catalog_state criteria
       (match Dict.get p (Catalog._criteria_by_principle self) with
        | Some _ =>
            {| Catalog._criteria_by_number := Catalog._criteria_by_number self;
               Catalog._criteria_by_level := Catalog._criteria_by_level self;
               Catalog._criteria_by_principle :=
                 Dict.set p sorted (Catalog._criteria_by_principle self) |}
        | None => self
        end)) /\
  (forall lv sorted,
     numeric_sort (Catalog.get_criteria_by_level self lv) = Ok sorted ->
     catalog_state criteria
       (match Dict.get lv (Catalog._criteria_by_level self) with
        | Some _ =>
            {| Catalog._criteria_by_number := Catalog._criteria_by_number self;
               Catalog._criteria_by_level :=
                 Dict.set lv sorted (Catalog._criteria_by_level self);
               Catalog._criteria_by_principle :=
                 Catalog._criteria_by_principle self |}
        | None => self
        end)).
Proof.
  intros [Hn Hl Hp]. split.
  - intros p sorted Hs.
    destruct (Dict.get p (Catalog._criteria_by_principle self)) as [l|] eqn:Hg;
      [| now split].
    split; cbn [Catalog._criteria_by_number]; [exact Hn | exact Hl |].
    intros q. unfold Catalog.get_criteria_by_principle.
    cbn [Catalog._criteria_by_principle].
    destruct (string_dec p q) as [<- | Hne].
    + rewrite dict_get_set_eq. cbn [default from_option Datatypes.id].
      right. rewrite <- Hs. symmetry. apply index_sort, Hp.
    + rewrite dict_get_set_ne by exact Hne. apply Hp.
  - intros lv sorted Hs.
    destruct (Dict.get lv (Catalog._criteria_by_level self)) as [l|] eqn:Hg;
      [| now split].
    split; cbn [Catalog._criteria_by_number]; [exact Hn | | exact Hp].
    intros q. unfold Catalog.get_criteria_by_level.
    cbn [Catalog._criteria_by_level].
    destruct (string_dec lv q) as [<- | Hne].
    + rewrite dict_get_set_eq. cbn [default from_option Datatypes.id].
      right. rewrite <- Hs. symmetry. apply index_sort, Hl.
    + rewrite dict_get_set_ne by exact Hne. apply Hl.
Qed.

(** What [list_wcag_criteria] does on valid filters: it sorts, by number,
    the selection in file order, whatever earlier listings have left in the
    indexes. *)
Lemma list_wcag_criteria_sorts (criteria : Dict.t CriterionData)
    (self : Catalog.Loader) (level principle : string) :
  catalog_state criteria self ->
  In (Py.upper level) valid_levels -> In principle valid_principles ->
  match numeric_sort (selected criteria level principle) with
  | Ok sorted =>
      exists self',
        Tools.list_wcag_criteria self level principle =
          Ok (self', listing level principle sorted) /\
        catalog_state criteria self'
  | Raise e => Tools.list_wcag_criteria self level principle = Raise e
  end.
Proof.
  intros Hst Hlevel Hprinciple. unfold Tools.list_wcag_criteria.
  pose proof Hlevel as Hl'. unfold valid_levels in Hl'.
  rewrite (proj2 (mem_In _ _) Hl'). cbn [negb].
  pose proof Hprinciple as Hp'. unfold valid_principles in Hp'.
  change (Catalog.get_principles ++ ["all"])%list
    with ["Perceivable"; "Operable"; "Understandable"; "Robust"; "all"].
  rewrite (proj2 (mem_In _ _) Hp'). cbn [negb].
  rewrite (principle_all principle Hprinciple).
  unfold selected.
  destruct (set_index_state criteria self Hst) as [Hsetp Hsetl].
  destruct Hst as [Hn Hl Hp]. unfold numeric_sort in *.
  destruct (String.eqb (Py.upper level) "ALL") eqn:Hall;
    destruct (String.eqb principle "all") eqn:Hpall; cbn [andb orb].
  - unfold Catalog.get_all_criteria. rewrite Hn, values_numbered.
    rewrite filter_true.
    destruct (Sorting.sort Str.list_ltb Tools.number_key
                (file_criteria criteria)) as [sorted|e];
      cbn [rbind]; [| reflexivity].
    exists self. split; [reflexivity | now split].
  - change (fun c => has_principle principle c)
      with (has_principle principle).
    pose proof (index_sort _ _ (Hp principle)) as E.
    unfold numeric_sort in E. rewrite <- E.
    destruct (Sorting.sort Str.list_ltb Tools.number_key
                (Catalog.get_criteria_by_principle self principle))
      as [sorted|e] eqn:Hs; cbn [rbind]; [| reflexivity].
    eexists. split; [reflexivity |]. now apply Hsetp.
  - replace (List.filter
               (fun c => has_level (Py.upper level) c && true)
               (file_criteria criteria))
      with (List.filter (has_level (Py.upper level))
              (file_criteria criteria))
      by (apply List.filter_ext; intros c; now rewrite andb_true_r).
    pose proof (index_sort _ _ (Hl (Py.upper level))) as E.
    unfold numeric_sort in E. rewrite <- E.
    destruct (Sorting.sort Str.list_ltb Tools.number_key
                (Catalog.get_criteria_by_level self (Py.upper level)))
      as [sorted|e] eqn:Hs; cbn [rbind]; [| reflexivity].
    eexists. split; [reflexivity |]. now apply Hsetl.
  - replace (List.filter
               (fun c => has_level (Py.upper level) c &&
                         has_principle principle c)
               (file_criteria criteria))
      with (List.filter (has_level (Py.upper level))
              (List.filter (has_principle principle)
                 (file_criteria criteria))).
    2: { rewrite filter_filter. apply List.filter_ext. intros c.
         apply andb_comm. }
    change (fun c => String.eqb (Tools.level_of c) (Py.upper level))
      with (has_level (Py.upper level)).
    pose proof (index_sort_filter (has_level (Py.upper level)) _ _
                  (Hp principle)) as E.
    unfold numeric_sort in E. rewrite E.
    destruct (Sorting.sort Str.list_ltb Tools.number_key
                (List.filter (has_level (Py.upper level))
                   (List.filter (has_principle principle)
                      (file_criteria criteria))))
      as [sorted|e]; cbn [rbind]; [| reflexivity].
    exists self. split; [reflexivity | now split].
Qed.

Lemma int10_raises_ValueError (s : string) (e : exn) :
  Tools.int10 s = Raise e -> e = ValueError.
Proof.
  unfold Tools.int10. destruct (_ <? _).
  - intros H. now inversion H.
  - apply int_raises_ValueError.
Qed.

Lemma ints_raises_ValueError (parts : list string) (e : exn) :
  Tools.ints parts = Raise e -> e = ValueError.
Proof.
  induction parts as [|n rest IH]; cbn [Tools.ints]; [discriminate |].
  destruct (Tools.int10 n) as [z|e'] eqn:Hn; cbn [rbind].
  - destruct (Tools.ints rest) as [zs|e']; cbn [rbind]; [discriminate |].
    intros H. inversion H; subst. now apply IH.
  - intros H. inversion H; subst. now apply (int10_raises_ValueError n).
Qed.

Lemma number_key_raises_ValueError (x : WCAGCriterion) (e : exn) :
  Tools.number_key x = Raise e -> e = ValueError.
Proof. apply ints_raises_ValueError. Qed.

(** The number of [a] is not above the number of [b], part by part as
    integers. *)
Definition numeric_order (a b : WCAGCriterion) : Prop :=
  exists ka kb,
    Tools.number_key a = Ok ka /\ Tools.number_key b = Ok kb /\
    Str.list_ltb kb ka = false.

Lemma numeric_sort_outcome (l : list WCAGCriterion) :
  (Forall (fun c => exists k, Tools.number_key c = Ok k) l ->
   exists sorted,
     numeric_sort l = Ok sorted /\ Permutation sorted l /\
     StronglySorted numeric_order sorted) /\
  (~ Forall (fun c => exists k, Tools.number_key c = Ok k) l ->
   numeric_sort l = Raise ValueError).
Proof.
  destruct (keyed_outcome Tools.number_key l) as [Hok Hbad]. split.
  - intros Hall. destruct (Hok Hall) as [ks Hks].
    assert (Hs : numeric_sort l =
                 Ok (map snd (Sorting.sort_keyed Str.list_ltb ks))).
    { unfold numeric_sort, Sorting.sort. now rewrite Hks. }
    eexists. split; [exact Hs |]. split.
    + exact (sort_perm Str.list_ltb Tools.number_key l _ Hs).
    + exact (sort_ordered Str.list_ltb list_ltb_asym list_before_trans
               Tools.number_key l _ Hs).
  - intros Hn. unfold numeric_sort, Sorting.sort.
    rewrite (Hbad ValueError); [reflexivity | | exact Hn].
    intros x e' He. now apply (number_key_raises_ValueError x).
Qed.

(** X17: [list_wcag_criteria] checks the level without regard to case and
    the principle with regard to it, in that order.  On valid filters, and
    when the numbers of the selected criteria are integers separated by
    dots, it lists exactly the criteria of the data file at the level and
    under the principle asked for, in the order of their numbers compared
    part by part as integers, and counts them.  It sorts the index of the
    loader in place, so the order of the loader's per-level and
    per-principle lists can change by it; the listing itself does not
    depend on that: from any state the tools can leave behind it is the
    same.  A selected number with a part that is no integer makes it raise
    [ValueError]. *)
Theorem list_wcag_criteria_listing (criteria : Dict.t CriterionData)
    (self : Catalog.Loader) (level principle : string) :
  catalog_state criteria self ->
  (~ In (Py.upper level) valid_levels ->
   Tools.list_wcag_criteria self level principle =
   Ok (self, Tools.ListError "Level must be A, AA, AAA, or 'all'")) /\
  (In (Py.upper level) valid_levels -> ~ In principle valid_principles ->
   Tools.list_wcag_criteria self level principle =
   Ok (self,
       Tools.ListError
         "Principle must be one of: Perceivable, Operable, Understandable, Robust, all")) /\
  (In (Py.upper level) valid_levels -> In principle valid_principles ->
   (Forall (fun c => exists k, Tools.number_key c = Ok k)
      (selected criteria level principle) ->
    exists self' sorted,
      Tools.list_wcag_criteria self level principle =
        Ok (self', listing level principle sorted) /\
      Permutation sorted (selected criteria level principle) /\
      StronglySorted numeric_order sorted /\
      catalog_state criteria self' /\
      forall other, catalog_state criteria other ->
        exists other',
          Tools.list_wcag_criteria other level principle =
            Ok (other', listing level principle sorted) /\
          catalog_state criteria other') /\
   (~ Forall (fun c => exists k, Tools.number_key c = Ok k)
        (selected criteria level principle) ->
    Tools.list_wcag_criteria self level principle = Raise ValueError)).
Proof.
  intros Hst. split; [| split].
  - intros Hlevel. unfold Tools.list_wcag_criteria.
    unfold valid_levels in Hlevel.
    rewrite (proj2 (mem_not_In _ _) Hlevel). reflexivity.
  - intros Hlevel Hprinciple. unfold Tools.list_wcag_criteria.
    unfold valid_levels in Hlevel.
    rewrite (proj2 (mem_In _ _) Hlevel). cbn [negb].
    change (Catalog.get_principles ++ ["all"])%list with valid_principles.
    rewrite (proj2 (mem_not_In _ _) Hprinciple). reflexivity.
  - intros Hlevel Hprinciple.
    destruct (numeric_sort_outcome (selected criteria level principle))
      as [Hok Hbad].
    split.
    + intros Hall. destruct (Hok Hall) as (sorted & Hs & Hperm & Hord).
      pose proof (list_wcag_criteria_sorts criteria self level principle
                    Hst Hlevel Hprinciple) as Hrun.
      rewrite Hs in Hrun. destruct Hrun as (self' & Hrun & Hst').
      exists self', sorted.
      split; [exact Hrun |]. split; [exact Hperm |]. split; [exact Hord |].
      split; [exact Hst' |].
      intros other Hother.
      pose proof (list_wcag_criteria_sorts criteria other level principle
                    Hother Hlevel Hprinciple) as Hrun'.
      now rewrite Hs in Hrun'.
    + intros Hn.
      pose proof (list_wcag_criteria_sorts criteria self level principle
                    Hst Hlevel Hprinciple) as Hrun.
      now rewrite (Hbad Hn) in Hrun.
Qed.

Definition three_items : Dict.t CriterionData :=
  [("1.4.11", criterion_data "Non-text Contrast" "AA");
   ("1.4.3", criterion_data "Contrast (Minimum)" "AA");
   ("1.4.1", criterion_data "Use of Color" "A")].

Definition three_items_loader : Catalog.Loader :=
  match Catalog._process_criteria three_items with
  | Ok wcag => wcag
  | Raise _ => Catalog.init
  end.

Lemma three_items_state : catalog_state three_items three_items_loader.
Proof.
  apply catalog_loaded; [| vm_compute; reflexivity].
  repeat constructor; cbn; rewrite ?elem_of_cons, ?elem_of_nil;
    intuition discriminate.
Defined.

(** The numbers are compared as integers: 1.4.3 comes before 1.4.11. *)
Example list_wcag_criteria_numeric :
  exists self' entries,
    Tools.list_wcag_criteria three_items_loader "aa" "all" =
      Ok (self', Tools.Listing "aa" "all" 2 entries) /\
    map Tools.le_number entries = ["1.4.3"; "1.4.11"].
Proof. eexists. eexists. split; vm_compute; reflexivity. Qed.

(** The sort is in place: after a listing by level, [get_criteria_by_level]
    returns that level in the order of the numbers and no longer in the
    order of the file. *)
Example list_wcag_criteria_reorders :
  map number (Catalog.get_criteria_by_level three_items_loader "AA") =
    ["1.4.11"; "1.4.3"] /\
  exists self' outcome,
    Tools.list_wcag_criteria three_items_loader "aa" "all" =
      Ok (self', outcome) /\
    map number (Catalog.get_criteria_by_level self' "AA") =
      ["1.4.3"; "1.4.11"].
Proof.
  split; [vm_compute; reflexivity |].
  destruct (Tools.list_wcag_criteria three_items_loader "aa" "all")
    as [[self' outcome]|] eqn:Hrun; [| vm_compute in Hrun; discriminate].
  exists self', outcome. split; [reflexivity |].
  vm_compute in Hrun. inversion Hrun; subst. vm_compute. reflexivity.
Qed.

Lemma list_wcag_criteria_listing_witness :
  (~ In (Py.upper "aa") valid_levels ->
   Tools.list_wcag_criteria three_items_loader "aa" "all" =
   Ok (three_items_loader,
       Tools.ListError "Level must be A, AA, AAA, or 'all'")) /\
  (In (Py.upper "aa") valid_levels -> ~ In "all" valid_principles ->
   Tools.list_wcag_criteria three_items_loader "aa" "all" =
   Ok (three_items_loader,
       Tools.ListError
         "Principle must be one of: Perceivable, Operable, Understandable, Robust, all")) /\
  (In (Py.upper "aa") valid_levels -> In "all" valid_principles ->
   (Forall (fun c => exists k, Tools.number_key c = Ok k)
      (selected three_items "aa" "all") ->
    exists self' sorted,
      Tools.list_wcag_criteria three_items_loader "aa" "all" =
        Ok (self', listing "aa" "all" sorted) /\
      Permutation sorted (selected three_items "aa" "all") /\
      StronglySorted numeric_order sorted /\
      catalog_state three_items self' /\
      forall other, catalog_state three_items other ->
        exists other',
          Tools.list_wcag_criteria other "aa" "all" =
            Ok (other', listing "aa" "all" sorted) /\
          catalog_state three_items other') /\
   (~ Forall (fun c => exists k, Tools.number_key c = Ok k)
        (selected three_items "aa" "all") ->
    Tools.list_wcag_criteria three_items_loader "aa" "all" =
    Raise ValueError)).
Proof.
  apply (list_wcag_criteria_listing three_items three_items_loader).
  exact three_items_state.
Defined.

(** ** Guidance for a kind of element *)

Lemma ltb_asym (a b : string) :
  Str.ltb a b = true -> Str.ltb b a = false.
Proof.
  revert b. induction a as [|x a IH]; intros [|y b]; cbn [Str.ltb];
    try congruence.
  order_cases. apply IH.
Qed.

Lemma ltb_before_trans (a b c : string) :
  Str.ltb b a = false -> Str.ltb c b = false -> Str.ltb c a = false.
Proof.
  revert b c. induction a as [|x a IH]; intros [|y b] [|z c];
    cbn [Str.ltb]; try congruence.
  order_cases. apply IH.
Qed.

Lemma pair_ltb_asym (a b : Z * string) :
  Tools.pair_ltb a b = true -> Tools.pair_ltb b a = false.
Proof.
  unfold Tools.pair_ltb. destruct a as [ra na], b as [rb nb]. cbn [fst snd].
  destruct (Z.ltb_spec ra rb), (Z.ltb_spec rb ra), (Z.eqb_spec ra rb),
    (Z.eqb_spec rb ra); cbn [orb andb]; try lia; try congruence.
  apply ltb_asym.
Qed.

Lemma pair_before_trans (a b c : Z * string) :
  Tools.pair_ltb b a = false -> Tools.pair_ltb c b = false ->
  Tools.pair_ltb c a = false.
Proof.
  unfold Tools.pair_ltb.
  destruct a as [ra na], b as [rb nb], c as [rc nc]. cbn [fst snd].
  destruct (Z.ltb_spec rb ra), (Z.ltb_spec rc rb), (Z.ltb_spec rc ra),
    (Z.eqb_spec rb ra), (Z.eqb_spec rc rb), (Z.eqb_spec rc ra);
    cbn [orb andb]; try lia; try congruence.
  apply ltb_before_trans.
Qed.

(** [a] may stand before [b] in the guidance: its level comes first (A, AA,
    AAA, then any other), or the levels rank the same and the number of [b]
    is not below the number of [a] as a text. *)
Definition guidance_order (a b : WCAGCriterion) : Prop :=
  Tools.level_order (level a) < Tools.level_order (level b) \/
  (Tools.level_order (level a) = Tools.level_order (level b) /\
   Str.ltb (number b) (number a) = false).

(** The criteria of the data file that the mapping names for a kind of
    element, in the order of the mapping. *)
Definition mapped (criteria : Dict.t CriterionData) (element_type : string)
    : list WCAGCriterion :=
  omap (fun num => WCAGData.make_criterion num <$> Dict.get num criteria)
    (default [] (Dict.get (Str.lower element_type)
                   Catalog.technique_mappings)).

Lemma get_criteria_for_techniques_mapped (criteria : Dict.t CriterionData)
    (self : Catalog.Loader) (element_type : string) :
  catalog_state criteria self ->
  Catalog.get_criteria_for_techniques self element_type =
  mapped criteria element_type.
Proof.
  intros [Hn _ _]. unfold Catalog.get_criteria_for_techniques, mapped.
  rewrite Hn.
  induction (default [] (Dict.get (Str.lower element_type)
                           Catalog.technique_mappings)) as [|num rest IH];
    [reflexivity |].
  cbn [omap list_omap]. unfold numbered at 1.
  rewrite (dict_get_map WCAGData.make_criterion num criteria).
  now rewrite IH.
Qed.

Lemma omap_length {X Y : Type} (f : X -> option Y) (l : list X) :
  (length (omap f l) <= length l)%nat.
Proof.
  induction l as [|x l IH]; cbn [omap list_omap length]; [lia |].
  destruct (f x); cbn [length]; lia.
Qed.

Lemma dict_get_values {V : Type} (P : V -> Prop) (d : Dict.t V) (k : string)
    (v : V) :
  Forall P (Dict.values d) -> Dict.get k d = Some v -> P v.
Proof.
  induction d as [|[k' v'] rest IH]; cbn [Dict.values map snd Dict.get];
    [discriminate |].
  intros Hall. inversion Hall as [|? ? Hv Hrest]; subst.
  destruct (String.eqb k' k); [| now apply IH].
  intros H. inversion H; subst. exact Hv.
Qed.

Lemma mapped_length (criteria : Dict.t CriterionData)
    (element_type : string) :
  (length (mapped criteria element_type) <= 9)%nat.
Proof.
  unfold mapped.
  etransitivity; [apply omap_length |].
  destruct (Dict.get (Str.lower element_type) Catalog.technique_mappings)
    as [numbers|] eqn:Hget; cbn [default from_option Datatypes.id length];
    [| lia].
  apply (dict_get_values (fun l => (length l <= 9)%nat)
           Catalog.technique_mappings _ _) in Hget; [exact Hget |].
  repeat constructor; cbn; lia.
Qed.

Lemma guidance_sorted (l : list WCAGCriterion) :
  let sorted :=
    map snd
      (Sorting.sort_keyed Tools.pair_ltb
         (map (fun x => ((Tools.level_order (level x), number x), x)) l)) in
  Permutation sorted l /\ StronglySorted guidance_order sorted.
Proof.
  set (keyed := map (fun x => ((Tools.level_order (level x), number x), x)) l).
  cbv zeta. split.
  - rewrite (sort_keyed_perm Tools.pair_ltb keyed). unfold keyed.
    rewrite map_map. cbn [snd]. now rewrite map_id.
  - assert (Hkeys : Forall (fun kx => fst kx =
                      (Tools.level_order (level (snd kx)), number (snd kx)))
                      (Sorting.sort_keyed Tools.pair_ltb keyed)).
    { apply Forall_forall. intros kx Hkx. apply list_elem_of_In in Hkx.
      apply (Permutation_in _ (sort_keyed_perm Tools.pair_ltb keyed)) in Hkx.
      unfold keyed in Hkx. apply in_map_iff in Hkx as (x & <- & _).
      reflexivity. }
    pose proof (sort_keyed_strongly Tools.pair_ltb pair_ltb_asym
                  pair_before_trans keyed) as Hs.
    induction Hs as [|y rest Hrest IH Hy]; cbn [map]; [constructor |].
    inversion Hkeys as [|? ? Hk Hkeys']; subst.
    constructor; [now apply IH |].
    apply Forall_forall. intros b Hb.
    apply list_elem_of_In, in_map_iff in Hb as (kb & <- & Hkb).
    rewrite Forall_forall in Hy, Hkeys'. apply list_elem_of_In in Hkb.
    specialize (Hy kb Hkb). specialize (Hkeys' kb Hkb).
    unfold before, Tools.pair_ltb in Hy. rewrite Hk, Hkeys' in Hy.
    cbn [fst snd] in Hy. unfold guidance_order.
    destruct (Z.ltb_spec (Tools.level_order (level (snd kb)))
                (Tools.level_order (level (snd y)))),
             (Z.eqb_spec (Tools.level_order (level (snd kb)))
                (Tools.level_order (level (snd y))));
      cbn [orb andb] in Hy; try discriminate; try lia.
    right. split; [congruence | exact Hy].
Qed.

(** X18: [get_wcag_guidance_for_element] looks the kind of element up
    without regard to case.  When the data file has none of the criteria
    mapped to it, and so for every kind outside the thirteen of the mapping,
    it answers that no guidance was found and lists the kinds, which are
    exactly the keys of the mapping.  Otherwise it gives one entry for each
    mapped criterion of the file, between one and nine, ordered by level (A,
    AA, AAA) and, inside a level, by number compared as text, and counts
    them. *)
Theorem get_wcag_guidance_for_element_guidance
    (criteria : Dict.t CriterionData) (self : Catalog.Loader)
    (element_type context : string) :
  catalog_state criteria self ->
  (mapped criteria element_type = [] ->
   Tools.get_wcag_guidance_for_element self element_type context =
   Tools.NoGuidance element_type context
     ("No specific guidance found for '" +:+ element_type +:+ "'")
     Tools.available_types) /\
  (mapped criteria element_type <> [] ->
   exists sorted,
     Tools.get_wcag_guidance_for_element self element_type context =
     Tools.Guidance element_type context (Z.of_nat (length sorted))
       (map Tools.guidance_entry sorted)
       ("Found " +:+ Py.str_of_int (Z.of_nat (length sorted)) +:+
        " WCAG criteria applicable to " +:+ element_type) /\
     Permutation sorted (mapped criteria element_type) /\
     StronglySorted guidance_order sorted /\
     (1 <= length sorted <= 9)%nat) /\
  (~ In (Str.lower element_type) Tools.available_types ->
   mapped criteria element_type = []) /\
  Tools.available_types = map fst Catalog.technique_mappings.
Proof.
  intros Hst. unfold Tools.get_wcag_guidance_for_element.
  rewrite (get_criteria_for_techniques_mapped criteria self element_type Hst).
  split; [| split; [| split]].
  - now intros ->.
  - intros Hne.
    destruct (guidance_sorted (mapped criteria element_type))
      as [Hperm Hsorted].
    pose proof (mapped_length criteria element_type) as Hlen.
    generalize dependent (mapped criteria element_type).
    intros found Hne Hperm Hsorted Hlen.
    set (sorted :=
           map snd
             (Sorting.sort_keyed Tools.pair_ltb
                (map (fun x => ((Tools.level_order (level x), number x), x))
                   found))) in *.
    exists sorted. split; [| split; [exact Hperm | split; [exact Hsorted |]]].
    + destruct found as [|c cs]; [congruence |].
      fold sorted. rewrite (length_map Tools.guidance_entry sorted).
      reflexivity.
    + rewrite (Permutation_length Hperm).
      destruct found as [|c cs]; [congruence |]. cbn [length] in *. lia.
  - intros Hout. unfold mapped.
    replace (Dict.get (Str.lower element_type) Catalog.technique_mappings)
      with (@None (list string)); [reflexivity |].
    symmetry. apply dict_get_In. exact Hout.
  - reflexivity.
Qed.

(** In a level the numbers are compared as texts: 1.4.11 comes before
    1.4.3, where [list_wcag_criteria] has them the other way round. *)
Example get_wcag_guidance_for_element_text_order :
  exists entries n s,
    Tools.get_wcag_guidance_for_element three_items_loader "Color" "" =
      Tools.Guidance "Color" "" n entries s /\
    map Tools.g_number entries = ["1.4.1"; "1.4.11"; "1.4.3"].
Proof. eexists. eexists. eexists. split; vm_compute; reflexivity. Qed.

Lemma get_wcag_guidance_for_element_guidance_witness :
  (mapped three_items "Color" = [] ->
   Tools.get_wcag_guidance_for_element three_items_loader "Color" "" =
   Tools.NoGuidance "Color" ""
     ("No specific guidance found for '" +:+ "Color" +:+ "'")
     Tools.available_types) /\
  (mapped three_items "Color" <> [] ->
   exists sorted,
     Tools.get_wcag_guidance_for_element three_items_loader "Color" "" =
     Tools.Guidance "Color" "" (Z.of_nat (length sorted))
       (map Tools.guidance_entry sorted)
       ("Found " +:+ Py.str_of_int (Z.of_nat (length sorted)) +:+
        " WCAG criteria applicable to " +:+ "Color") /\
     Permutation sorted (mapped three_items "Color") /\
     StronglySorted guidance_order sorted /\
     (1 <= length sorted <= 9)%nat) /\
  (~ In (Str.lower "Color") Tools.available_types ->
   mapped three_items "Color" = []) /\
  Tools.available_types = map fst Catalog.technique_mappings.
Proof.
  apply (get_wcag_guidance_for_element_guidance three_items
           three_items_loader "Color" "").
  exact three_items_state.
Defined.

(** ** Searching the catalog *)

(** The lower-cased term occurs in the lower-cased title, description or
    guideline of the criterion. *)
Definition matches_term (search_term : string) (c : WCAGCriterion) : Prop :=
  occurs (Str.lower search_term) (Str.lower (title c)) \/
  occurs (Str.lower search_term) (Str.lower (description c)) \/
  occurs (Str.lower search_term) (Str.lower (guideline c)).

Definition matches_termb (search_term : string) (c : WCAGCriterion) : bool :=
  Str.contains (Str.lower search_term) (Str.lower (title c)) ||
  Str.contains (Str.lower search_term) (Str.lower (description c)) ||
  Str.contains (Str.lower search_term) (Str.lower (guideline c)).

Lemma matches_termb_spec (search_term : string) (c : WCAGCriterion) :
  matches_termb search_term c = true <-> matches_term search_term c.
Proof.
  unfold matches_termb, matches_term.
  rewrite !orb_true_iff, !contains_occurs. tauto.
Qed.

Lemma search_criteria_state (criteria : Dict.t CriterionData)
    (self : Catalog.Loader) (search_term : string) :
  catalog_state criteria self ->
  Catalog.search_criteria self search_term =
  List.filter (matches_termb search_term) (file_criteria criteria).
Proof.
  intros [Hn _ _]. unfold Catalog.search_criteria.
  now rewrite Hn, values_numbered.
Qed.

Lemma string_length_append (a b : string) :
  String.length (a +:+ b) = (String.length a + String.length b)%nat.
Proof.
  induction a as [|c a IH]; [reflexivity |].
  change (String c a +:+ b) with (String c (a +:+ b)).
  cbn [String.length]. now rewrite IH.
Qed.

Lemma substring_length_le (n : nat) (s : string) :
  (String.length (String.substring 0 n s) <= n)%nat.
Proof.
  revert s. induction n as [|n IH]; intros [|c s];
    cbn [String.substring String.length]; try lia.
  specialize (IH s). lia.
Qed.

Lemma filter_all_in {X : Type} (f : X -> bool) (l : list X) :
  (forall x, In x l -> f x = true) -> List.filter f l = l.
Proof.
  induction l as [|x l IH]; intros H; cbn [List.filter]; [reflexivity |].
  rewrite (H x) by now left. f_equal. apply IH. intros y Hy. apply H.
  now right.
Qed.

Lemma filter_sublist {X : Type} (f : X -> bool) (l : list X) :
  sublist (List.filter f l) l.
Proof.
  induction l as [|x l IH]; cbn [List.filter]; [constructor |].
  destruct (f x); now constructor.
Qed.

(** X19: [search_wcag_criteria] finds, without regard to case, the criteria
    of the data file whose title, description or guideline contains the
    term, in the order of the file; the empty term finds them all.  With no
    match it says so; otherwise it reports how many match and shows the
    first twenty of them, each with a description cut to at most 200
    characters and three dots. *)
Theorem search_wcag_criteria_results (criteria : Dict.t CriterionData)
    (self : Catalog.Loader) (search_term : string) :
  catalog_state criteria self ->
  let hits := Catalog.search_criteria self search_term in
  (forall c, In c hits <->
             In c (file_criteria criteria) /\ matches_term search_term c) /\
  sublist hits (file_criteria criteria) /\
  (search_term = "" -> hits = file_criteria criteria) /\
  (hits = [] ->
   Tools.search_wcag_criteria self search_term =
   Tools.NoResults search_term "No criteria found matching the search term") /\
  (hits <> [] ->
   Tools.search_wcag_criteria self search_term =
   Tools.Results search_term (Z.of_nat (length hits))
     (Z.of_nat (Nat.min 20 (length hits)))
     (map Tools.search_entry (firstn 20 hits))) /\
  (forall c,
     (String.length (Tools.brief_description (Tools.search_entry c)) <= 203)%nat
     /\ ((String.length (description c) <= 200)%nat ->
         Tools.brief_description (Tools.search_entry c) = description c)).
Proof.
  intros Hst hits. unfold Tools.search_wcag_criteria. fold hits.
  assert (Hhits : hits = List.filter (matches_termb search_term)
                           (file_criteria criteria))
    by apply (search_criteria_state criteria self search_term Hst).
  split; [| split; [| split; [| split; [| split]]]].
  - intros c. rewrite Hhits, List.filter_In, matches_termb_spec. tauto.
  - rewrite Hhits. apply filter_sublist.
  - intros ->. rewrite Hhits. apply filter_all_in. intros c _.
    apply matches_termb_spec. left. now exists "", (Str.lower (title c)).
  - now intros ->.
  - intros Hne. destruct hits as [|c cs] eqn:Hh; [congruence |].
    rewrite (length_map Tools.search_entry (firstn 20 (c :: cs))).
    now rewrite length_firstn.
  - intros c. unfold Tools.search_entry. cbn [Tools.brief_description].
    unfold Str.len, Py.slice.
    destruct (Z.gtb_spec (Z.of_nat (String.length (description c))) 200)
      as [Hlong | Hshort].
    + split; [| lia]. rewrite string_length_append.
      pose proof (substring_length_le (200 - 0) (description c)).
      cbn [String.length]. lia.
    + split; [lia | reflexivity].
Qed.

Lemma search_wcag_criteria_results_witness :
  let hits := Catalog.search_criteria three_items_loader "CONTRAST" in
  (forall c, In c hits <->
             In c (file_criteria three_items) /\ matches_term "CONTRAST" c) /\
  sublist hits (file_criteria three_items) /\
  ("CONTRAST" = "" -> hits = file_criteria three_items) /\
  (hits = [] ->
   Tools.search_wcag_criteria three_items_loader "CONTRAST" =
   Tools.NoResults "CONTRAST" "No criteria found matching the search term") /\
  (hits <> [] ->
   Tools.search_wcag_criteria three_items_loader "CONTRAST" =
   Tools.Results "CONTRAST" (Z.of_nat (length hits))
     (Z.of_nat (Nat.min 20 (length hits)))
     (map Tools.search_entry (firstn 20 hits))) /\
  (forall c,
     (String.length (Tools.brief_description (Tools.search_entry c)) <= 203)%nat
     /\ ((String.length (description c) <= 200)%nat ->
         Tools.brief_description (Tools.search_entry c) = description c)).
Proof.
  apply (search_wcag_criteria_results three_items three_items_loader).
  exact three_items_state.
Defined.

(** The term is matched in any case, against the title here. *)
Example search_wcag_criteria_contrast :
  exists entries,
    Tools.search_wcag_criteria three_items_loader "CONTRAST" =
      Tools.Results "CONTRAST" 2 2 entries /\
    map Tools.se_number entries = ["1.4.11"; "1.4.3"].
Proof.
  exists (map Tools.search_entry
            (Catalog.search_criteria three_items_loader "CONTRAST")).
  split; vm_compute; reflexivity.
Qed.

(** ** One criterion *)

Lemma dict_get_Some_In {V : Type} (k : string) (v : V) (d : Dict.t V) :
  Dict.get k d = Some v -> In (k, v) d.
Proof.
  induction d as [|[k' v'] rest IH]; cbn [Dict.get]; [discriminate |].
  destruct (String.eqb k' k) eqn:Hk.
  - apply String.eqb_eq in Hk. intros H. inversion H; subst. now left.
  - intros H. right. now apply IH.
Qed.

(** X20: on a loaded catalog [get_wcag_criterion] answers with the error
    text exactly for the numbers the data file does not have; for a number
    of the file it returns the fields of the file's entry, the version
    prefixed with [WCAG], no exceptions as the empty list, and the
    conformance text of its level, which is never [Unknown level] since
    loading accepts the levels A, AA and AAA alone. *)
Theorem get_wcag_criterion_found (criteria : Dict.t CriterionData)
    (self : Catalog.Loader) (criterion_number : string) :
  NoDup (map fst criteria) ->
  Catalog._process_criteria criteria = Ok self ->
  match Dict.get criterion_number criteria with
  | None =>
      Tools.get_wcag_criterion self criterion_number =
      Tools.NotFound ("WCAG criterion " +:+ criterion_number +:+ " not found")
        "Use search_wcag_criteria or list_wcag_criteria to find valid criteria"
  | Some d =>
      Tools.get_wcag_criterion self criterion_number =
      Tools.Found criterion_number (data_id d) (data_title d) (data_level d)
        ("WCAG " +:+ data_version d) (data_description d) (data_principle d)
        (data_guideline d) (default [] (data_exceptions d))
        (Tools.conformance_of (data_level d)) /\
      In (data_level d) catalog_levels /\
      Tools.conformance_of (data_level d) <> "Unknown level"
  end.
Proof.
  intros Hnd Hrun.
  destruct (catalog_loaded criteria self Hnd Hrun) as [[Hn _ _] Hlevels].
  unfold Tools.get_wcag_criterion, Catalog.get_criterion.
  rewrite Hn. unfold numbered.
  rewrite (dict_get_map WCAGData.make_criterion criterion_number criteria).
  destruct (Dict.get criterion_number criteria) as [d|] eqn:Hd;
    [| reflexivity].
  split; [reflexivity |].
  apply dict_get_Some_In in Hd. rewrite Forall_forall in Hlevels.
  specialize (Hlevels _ (proj2 (list_elem_of_In _ _) Hd)).
  cbn [snd] in Hlevels. split; [exact Hlevels |].
  destruct Hlevels as [<- | [<- | [<- | []]]]; vm_compute; discriminate.
Qed.

Lemma three_items_loaded :
  Catalog._process_criteria three_items = Ok three_items_loader.
Proof. vm_compute. reflexivity. Qed.

Lemma get_wcag_criterion_found_witness :
  match Dict.get "1.4.3" three_items with
  | None =>
      Tools.get_wcag_criterion three_items_loader "1.4.3" =
      Tools.NotFound ("WCAG criterion " +:+ "1.4.3" +:+ " not found")
        "Use search_wcag_criteria or list_wcag_criteria to find valid criteria"
  | Some d =>
      Tools.get_wcag_criterion three_items_loader "1.4.3" =
      Tools.Found "1.4.3" (data_id d) (data_title d) (data_level d)
        ("WCAG " +:+ data_version d) (data_description d) (data_principle d)
        (data_guideline d) (default [] (data_exceptions d))
        (Tools.conformance_of (data_level d)) /\
      In (data_level d) catalog_levels /\
      Tools.conformance_of (data_level d) <> "Unknown level"
  end.
Proof.
  apply (get_wcag_criterion_found three_items three_items_loader "1.4.3").
  - repeat constructor; cbn; rewrite ?elem_of_cons, ?elem_of_nil;
      intuition discriminate.
  - exact three_items_loaded.
Defined.

(** * The data file as it is read *)

(** One value of the ["criteria"] object as [json.load] returns it: a
    dictionary in which any of the keys may be missing. *)
Record FileEntry := {
  entry_id : option string;
  entry_title : option string;
  entry_level : option string;
  entry_version : option string;
  entry_description : option string;
  entry_principle : option string;
  entry_guideline : option string;
  entry_exceptions : option (list string)
}.

Module DataFile.

(** [d[k]]: a missing key raises [KeyError]. *)
Definition subscript {V : Type} (o : option V) : result V :=
  match o with
  | Some v => Ok v
  | None => Raise KeyError
  end.

(** The arguments of [WCAGCriterion(...)], read in the order of the
    source; [exceptions] is read with [.get]. *)
Definition read (criterion_data : FileEntry) : result CriterionData :=
  id <- subscript (entry_id criterion_data) ;;
  title <- subscript (entry_title criterion_data) ;;
  level <- subscript (entry_level criterion_data) ;;
  version <- subscript (entry_version criterion_data) ;;
  description <- subscript (entry_description criterion_data) ;;
  principle <- subscript (entry_principle criterion_data) ;;
  guideline <- subscript (entry_guideline criterion_data) ;;
  Ok {| data_id := id;
        data_title := title;
        data_level := level;
        data_version := version;
        data_description := description;
        data_principle := principle;
        data_guideline := guideline;
        data_exceptions := entry_exceptions criterion_data |}.

(** The body of the loop of [_process_criteria]: the criterion is built
    before any index is touched. *)
Definition process_item (self : Catalog.Loader) (item : string * FileEntry)
    : result Catalog.Loader :=
  d <- read (snd item) ;;
  Catalog.process_item self (fst item, d).

Fixpoint process_items (self : Catalog.Loader)
    (items : list (string * FileEntry)) : result Catalog.Loader :=
  match items with
  | [] => Ok self
  | item :: rest =>
      self' <- process_item self item ;;
      process_items self' rest
  end.

(** [_process_criteria], from the items of the ["criteria"] object in the
    order of the file. *)
Definition _process_criteria (criteria : Dict.t FileEntry)
    : result Catalog.Loader :=
  process_items Catalog.init criteria.

End DataFile.

(** The entry has the seven keys the loader subscripts, and its level is
    one of A, AA, AAA. *)
Definition well_formed (e : FileEntry) : Prop :=
  is_Some (entry_id e) /\ is_Some (entry_title e) /\
  is_Some (entry_version e) /\ is_Some (entry_description e) /\
  is_Some (entry_principle e) /\ is_Some (entry_guideline e) /\
  exists lv, entry_level e = Some lv /\ In lv catalog_levels.

(** The entry, all of its seven keys being there. *)
Definition entry_of (d : CriterionData) : FileEntry :=
  {| entry_id := Some (data_id d);
     entry_title := Some (data_title d);
     entry_level := Some (data_level d);
     entry_version := Some (data_version d);
     entry_description := Some (data_description d);
     entry_principle := Some (data_principle d);
     entry_guideline := Some (data_guideline d);
     entry_exceptions := data_exceptions d |}.

Lemma read_outcome (e : FileEntry) :
  (exists d, DataFile.read e = Ok d /\ e = entry_of d) \/
  (DataFile.read e = Raise KeyError /\
   (entry_id e = None \/ entry_title e = None \/ entry_level e = None \/
    entry_version e = None \/ entry_description e = None \/
    entry_principle e = None \/ entry_guideline e = None)).
Proof.
  destruct e as [i t l v d p g x]. unfold DataFile.read.
  cbn [entry_id entry_title entry_level entry_version entry_description
       entry_principle entry_guideline entry_exceptions].
  destruct i, t, l, v, d, p, g; cbn [DataFile.subscript rbind];
    try (right; split; [reflexivity | tauto]).
  left. eexists. split; reflexivity.
Qed.

Lemma catalog_process_item_outcome (self : Catalog.Loader)
    (item : string * CriterionData) :
  (In (data_level (snd item)) (map fst (Catalog._criteria_by_level self)) ->
   exists self',
     Catalog.process_item self item = Ok self' /\
     map fst (Catalog._criteria_by_level self') =
     map fst (Catalog._criteria_by_level self)) /\
  (~ In (data_level (snd item)) (map fst (Catalog._criteria_by_level self)) ->
   Catalog.process_item self item = Raise KeyError).
Proof.
  unfold Catalog.process_item.
  change (level (WCAGData.make_criterion item.1 item.2))
    with (data_level item.2).
  destruct (Dict.get (data_level item.2) (Catalog._criteria_by_level self))
    as [l|] eqn:Hl.
  - split.
    + intros Hin. eexists. split; [reflexivity |].
      cbn [Catalog._criteria_by_level]. now apply dict_set_keys.
    + intros Hout. apply dict_get_In in Hout. congruence.
  - split; [| reflexivity].
    intros Hin. apply dict_get_In in Hl. contradiction.
Qed.

Lemma file_process_items (items : list (string * FileEntry)) :
  forall self,
  map fst (Catalog._criteria_by_level self) = catalog_levels ->
  (Forall (fun item => well_formed (snd item)) items ->
   exists self', DataFile.process_items self items = Ok self') /\
  (~ Forall (fun item => well_formed (snd item)) items ->
   DataFile.process_items self items = Raise KeyError) /\
  (forall self', DataFile.process_items self items = Ok self' ->
   exists criteria,
     items = map (fun c => (fst c, entry_of (snd c))) criteria /\
     Catalog.process_items self criteria = Ok self').
Proof.
  induction items as [|[n e] rest IH]; intros self Hkeys;
    cbn [DataFile.process_items].
  - split; [eauto |]. split.
    + intros Hn. destruct Hn. constructor.
    + intros self' H. inversion H; subst. now exists [].
  - unfold DataFile.process_item. cbn [fst snd].
    destruct (read_outcome e) as [(d & Hd & He) | [Hd Hmiss]]; rewrite Hd;
      cbn [rbind].
    + destruct (catalog_process_item_outcome self (n, d)) as [Hok Hbad].
      cbn [fst snd] in Hok, Hbad. rewrite Hkeys in Hok, Hbad.
      destruct (in_dec string_dec (data_level d) catalog_levels)
        as [Hin | Hout].
      * destruct (Hok Hin) as (self1 & H1 & Hk1). rewrite H1. cbn [rbind].
        destruct (IH self1 Hk1) as (IHok & IHbad & IHread).
        assert (Hwf : well_formed e).
        { subst e. unfold well_formed, entry_of.
          cbn [entry_id entry_title entry_level entry_version
               entry_description entry_principle entry_guideline].
          repeat split; eauto. }
        split; [| split].
        -- intros Hall. apply IHok. now inversion Hall.
        -- intros Hn. apply IHbad. intros Hall. apply Hn. now constructor.
        -- intros self' Hrun.
           destruct (IHread self' Hrun) as (criteria & Hitems & Hload).
           exists ((n, d) :: criteria). split.
           ++ cbn [map fst snd]. now rewrite He, Hitems.
           ++ cbn [Catalog.process_items]. rewrite H1. exact Hload.
      * rewrite (Hbad Hout). cbn [rbind]. split; [| split].
        -- intros Hall. inversion Hall as [|? ? Hwf _]; subst.
           destruct Hwf as (_ & _ & _ & _ & _ & _ & lv & Hlv & Hin).
           cbn [snd entry_of entry_level] in Hlv. congruence.
        -- reflexivity.
        -- discriminate.
    + split; [| split].
      * intros Hall. inversion Hall as [|? ? Hwf _]; subst.
        destruct Hwf as ([? Hi] & [? Ht] & [? Hv] & [? Hds] & [? Hp] &
                         [? Hg] & lv & Hlv & _).
        cbn [snd] in *. intuition congruence.
      * reflexivity.
      * discriminate.
Qed.

(** X4: loading the data file succeeds exactly when every entry of its
    ["criteria"] object has the seven keys [id], [title], [level],
    [version], [description], [principle] and [guideline] and a level among
    A, AA and AAA; one entry that lacks a key or has another level makes
    [_process_criteria] raise [KeyError].  A file that loads is a file of
    complete entries, and the loader is the one built from them. *)
Theorem process_criteria_outcome (criteria : Dict.t FileEntry) :
  (Forall (fun item => well_formed (snd item)) criteria ->
   exists self, DataFile._process_criteria criteria = Ok self) /\
  (~ Forall (fun item => well_formed (snd item)) criteria ->
   DataFile._process_criteria criteria = Raise KeyError) /\
  (forall self, DataFile._process_criteria criteria = Ok self ->
   exists complete,
     criteria = map (fun c => (fst c, entry_of (snd c))) complete /\
     Catalog._process_criteria complete = Ok self).
Proof.
  apply (file_process_items criteria Catalog.init). reflexivity.
Qed.

(** An entry without its title stops the loading, whatever its level. *)
Example process_criteria_missing_title :
  DataFile._process_criteria
    [("1.1.1",
      {| entry_id := Some "non-text-content"; entry_title := None;
         entry_level := Some "A"; entry_version := Some "2.0";
         entry_description := Some ""; entry_principle := Some "Perceivable";
         entry_guideline := Some "Text Alternatives";
         entry_exceptions := None |})] = Raise KeyError.
Proof. reflexivity. Qed.

Lemma NoDup_numbers_filter (f : WCAGCriterion -> bool)
    (criteria : Dict.t CriterionData) :
  NoDup (map fst criteria) ->
  NoDup (map number (List.filter f (file_criteria criteria))).
Proof.
  induction criteria as [|[n d] rest IH]; intros Hnd;
    cbn [file_criteria map List.filter]; [constructor |].
  cbn [map fst] in Hnd. apply NoDup_cons in Hnd as [Hn Hrest].
  fold (file_criteria rest).
  destruct (f (item_criterion (n, d))); [| now apply IH].
  cbn [map]. apply NoDup_cons. split; [| now apply IH].
  intros Hin. apply Hn. apply list_elem_of_In in Hin.
  apply in_map_iff in Hin as (c & Hc & Hin).
  apply List.filter_In in Hin as [Hin _].
  apply in_map_iff in Hin as ([n' d'] & <- & Hin').
  cbn in Hc. subst n'. apply list_elem_of_In.
  apply in_map_iff. now exists (n, d').
Qed.

Lemma levels_partition (criteria : Dict.t CriterionData) :
  Forall (fun item => In (data_level (snd item)) catalog_levels) criteria ->
  (length (List.filter (has_level "A") (file_criteria criteria)) +
   length (List.filter (has_level "AA") (file_criteria criteria)) +
   length (List.filter (has_level "AAA") (file_criteria criteria)) =
   length criteria)%nat.
Proof.
  induction 1 as [|[n d] rest Hd _ IH]; [reflexivity |].
  change (file_criteria ((n, d) :: rest))
    with (item_criterion (n, d) :: file_criteria rest).
  cbn [List.filter length].
  assert (HA : has_level "A" (item_criterion (n, d)) =
               String.eqb (data_level d) "A") by reflexivity.
  assert (HAA : has_level "AA" (item_criterion (n, d)) =
                String.eqb (data_level d) "AA") by reflexivity.
  assert (HAAA : has_level "AAA" (item_criterion (n, d)) =
                 String.eqb (data_level d) "AAA") by reflexivity.
  rewrite HA, HAA, HAAA. cbn [snd] in Hd.
  destruct Hd as [<- | [<- | [<- | []]]];
    cbn [String.eqb Ascii.eqb Bool.eqb]; cbn [length]; lia.
Qed.

Lemma catalog_loaded_levels (criteria : Dict.t CriterionData)
    (self : Catalog.Loader) (lv : string) :
  NoDup (map fst criteria) ->
  Catalog._process_criteria criteria = Ok self ->
  Catalog.get_criteria_by_level self lv =
  List.filter (has_level lv) (file_criteria criteria).
Proof.
  intros Hnd Hrun. unfold Catalog._process_criteria in Hrun.
  destruct (catalog_process_items criteria Catalog.init self Hrun Hnd)
    as (Hn & Hlv & Hk & Hl & Hp).
  destruct (in_dec string_dec lv catalog_levels) as [Hin | Hout].
  - rewrite (Hl lv Hin).
    destruct Hin as [<- | [<- | [<- | []]]]; reflexivity.
  - unfold Catalog.get_criteria_by_level.
    replace (Dict.get lv (Catalog._criteria_by_level self))
      with (@None (list WCAGCriterion)).
    + symmetry. apply filter_none. intros c Hc.
      apply in_map_iff in Hc as (item & <- & Hitem).
      rewrite Forall_forall in Hlv.
      specialize (Hlv item (proj2 (list_elem_of_In _ _) Hitem)).
      unfold has_level. apply String.eqb_neq. intros Heq.
      apply Hout. cbn in Heq. now rewrite <- Heq.
    + symmetry. apply dict_get_In. now rewrite Hk.
Qed.

(** X6: on a catalog just loaded, [get_criteria_by_level] returns, for each
    of the levels A, AA and AAA, the criteria of the data file at that
    level in the order of the file, each once; for any other level text it
    returns the empty list; and the three lists together have as many
    entries as the file has criteria. *)
Theorem get_criteria_by_level_members (criteria : Dict.t CriterionData)
    (self : Catalog.Loader) :
  NoDup (map fst criteria) ->
  Catalog._process_criteria criteria = Ok self ->
  (forall lv,
     Catalog.get_criteria_by_level self lv =
     List.filter (fun c => String.eqb (level c) lv)
       (map (fun item => WCAGData.make_criterion (fst item) (snd item))
          criteria)) /\
  (forall lv c,
     In c (Catalog.get_criteria_by_level self lv) <->
     In lv catalog_levels /\
     exists n d, In (n, d) criteria /\ data_level d = lv /\
                 c = WCAGData.make_criterion n d) /\
  (forall lv, NoDup (map number (Catalog.get_criteria_by_level self lv))) /\
  (forall lv, ~ In lv catalog_levels ->
     Catalog.get_criteria_by_level self lv = []) /\
  (length (Catalog.get_criteria_by_level self "A") +
   length (Catalog.get_criteria_by_level self "AA") +
   length (Catalog.get_criteria_by_level self "AAA") = length criteria)%nat.
Proof.
  intros Hnd Hrun.
  destruct (catalog_loaded criteria self Hnd Hrun) as [_ Hlevels].
  pose proof (fun lv => catalog_loaded_levels criteria self lv Hnd Hrun)
    as Hget.
  split; [exact Hget |]. split; [| split; [| split]].
  - intros lv c. rewrite Hget, List.filter_In. unfold file_criteria.
    rewrite in_map_iff. split.
    + intros [([n d] & <- & Hin) Hlv]. apply String.eqb_eq in Hlv.
      cbn in Hlv. split.
      * rewrite Forall_forall in Hlevels.
        specialize (Hlevels _ (proj2 (list_elem_of_In _ _) Hin)).
        cbn [snd] in Hlevels. now rewrite <- Hlv.
      * now exists n, d.
    + intros (_ & n & d & Hin & Hlv & ->). split.
      * now exists (n, d).
      * unfold has_level. apply String.eqb_eq. exact Hlv.
  - intros lv. rewrite Hget. now apply NoDup_numbers_filter.
  - intros lv Hout. rewrite Hget. apply filter_none. intros c Hc.
    apply in_map_iff in Hc as ([n d] & <- & Hin).
    rewrite Forall_forall in Hlevels.
    specialize (Hlevels _ (proj2 (list_elem_of_In _ _) Hin)).
    cbn [snd] in Hlevels. unfold has_level. apply String.eqb_neq.
    intros Heq. apply Hout. cbn in Heq. now rewrite <- Heq.
  - rewrite !Hget. now apply levels_partition.
Qed.

Lemma get_criteria_by_level_members_witness :
  Catalog.get_criteria_by_level three_items_loader "AA" =
  List.filter (fun c => String.eqb (level c) "AA")
    (map (fun item => WCAGData.make_criterion (fst item) (snd item))
       three_items).
Proof.
  refine (proj1 (get_criteria_by_level_members three_items
                   three_items_loader _ three_items_loaded) "AA").
  repeat constructor; cbn; rewrite ?elem_of_cons, ?elem_of_nil;
    intuition discriminate.
Defined.

(** * The two embeddings of the loader *)

(** On a file of complete entries with distinct numbers, the loader of the
    compliance report and the loader in file order succeed together, find
    the same criterion under every number, and keep per-level lists that
    are permutations of one another. *)
Lemma loaders_agree (criteria : Dict.t CriterionData)
    (self : Catalog.Loader) :
  NoDup (map fst criteria) ->
  Catalog._process_criteria criteria = Ok self ->
  exists wcag,
    WCAGData._process_criteria (list_to_map criteria) = Ok wcag /\
    (forall n, WCAGData.get_criterion wcag n = Catalog.get_criterion self n) /\
    (forall lv, Permutation (WCAGData.get_criteria_by_level wcag lv)
                  (Catalog.get_criteria_by_level self lv)).
Proof.
  intros Hnd Hrun.
  destruct (catalog_loaded criteria self Hnd Hrun) as [[Hn _ _] Hlevels].
  set (m := list_to_map criteria : gmap string CriterionData).
  assert (Hm : forall n d, m !! n = Some d <-> In (n, d) criteria).
  { intros n d. unfold m. rewrite <- elem_of_list_to_map by exact Hnd.
    apply list_elem_of_In. }
  destruct (process_items_outcome (map_to_list m) WCAGData.init
              init_three_levels) as [Hok _].
  destruct Hok as [wcag Hwcag].
  { apply Forall_forall. intros [n d] Hin.
    apply elem_of_map_to_list, Hm in Hin.
    rewrite Forall_forall in Hlevels.
    exact (Hlevels _ (proj2 (list_elem_of_In _ _) Hin)). }
  exists wcag. split; [exact Hwcag |]. split.
  - intros n. rewrite (get_criterion_loaded_eq m wcag n Hwcag).
    unfold Catalog.get_criterion. rewrite Hn. unfold numbered.
    rewrite (dict_get_map WCAGData.make_criterion n criteria).
    f_equal. destruct (Dict.get n criteria) as [d|] eqn:Hd.
    + apply Hm. now apply dict_get_Some_In.
    + destruct (m !! n) as [d|] eqn:Hmn; [| reflexivity].
      apply Hm in Hmn. apply dict_get_In in Hd. destruct Hd.
      apply in_map_iff. now exists (n, d).
  - intros lv. apply NoDup_Permutation.
    + apply (NoDup_fmap_1 number).
      rewrite (get_criteria_by_level_loaded m wcag lv Hwcag).
      destruct (decide (In lv catalog_levels)); [| constructor].
      change (number <$> map item_criterion
                (filter (at_level lv) (map_to_list m)))
        with (map number (map item_criterion
                (filter (at_level lv) (map_to_list m)))).
      rewrite map_map.
      change (map (fun x => number (item_criterion x))) with
        (@fmap list _ _ _ (@fst string CriterionData)).
      apply NoDup_fst_filter, NoDup_fst_map_to_list.
    + apply (NoDup_fmap_1 number).
      rewrite (catalog_loaded_levels criteria self lv Hnd Hrun).
      now apply NoDup_numbers_filter.
    + intros c. rewrite !list_elem_of_In.
      rewrite (get_criteria_by_level_In m wcag lv c Hwcag).
      rewrite (catalog_loaded_levels criteria self lv Hnd Hrun).
      rewrite List.filter_In. unfold file_criteria. rewrite in_map_iff.
      split.
      * intros (Hlv & n & d & Hnd' & Hl & ->). split.
        -- exists (n, d). split; [reflexivity | now apply Hm].
        -- unfold has_level. apply String.eqb_eq. exact Hl.
      * intros [([n d] & <- & Hin) Hl]. apply String.eqb_eq in Hl.
        cbn in Hl. split.
        -- rewrite Forall_forall in Hlevels.
           specialize (Hlevels _ (proj2 (list_elem_of_In _ _) Hin)).
           cbn [snd] in Hlevels. now rewrite <- Hl.
        -- exists n, d. split; [now apply Hm |]. now split.
Qed.
